(** * Relic Rush: a shallow embedding of the rule engine

    The development follows the Python packages of the repository:
    [models/domain] (status, items, rooms, map graph, rules, scoring,
    difficulty, level, player, game state), [models/behavior] (validation,
    level factory), [models/records] (serialization, save and result
    records) and [controllers/game.py] (the session controller).

    Conventions of the embedding.
    - A Python [dict] read from a level definition is an association list
      in insertion order ([dict V]); a Python [set] of strings is a
      [gset string]; a Python [int] is a [Z].
    - A raised exception is the [Raise] case of [result]; a function that
      mutates its argument returns the new value of that argument.
    - A Python [float] is an IEEE 754 binary64 number, computed with the
      Standard Library's executable specification [SpecFloat] (round to
      nearest, ties to even); [int()] is truncation towards zero.
    - An attribute or a dictionary value whose Python type the code does
      not fix is a sum of the cases that occur.
    - A [while] loop takes a fuel argument and answers [None] when the
      fuel runs out; totality is a theorem about enough fuel. *)

From Stdlib Require Import ZArith QArith Qround String List Lia.
From Stdlib Require Import SpecFloat.
From stdpp Require Import base gmap strings list sets sorting.

Local Open Scope string_scope.
Local Open Scope Z_scope.

(* [set_solver] clears hypotheses that may be absent. *)
Set Warnings "-clear-no-such-hyp".

(** ** Exceptions and results *)

Inductive validation_failure :=
| MissingRequiredKeys (missing : list string)
| StartRoomDoesNotExist
| InvalidExit (room target : string)
| MissingCoordinates (room : string)
| NotExactlyOneVillain
| NotSolvable.

Inductive exn :=
| LevelValidationError (why : validation_failure)
| KeyError (key : string)
| ValueError (msg : string)
| AttributeError (msg : string)
| TypeError (msg : string)
| OverflowError (msg : string)
| ZeroDivisionError.

Inductive result (A : Type) :=
| Ok (a : A)
| Raise (e : exn).
Arguments Ok {A} a.
Arguments Raise {A} e.

Definition bind {A B} (r : result A) (k : A -> result B) : result B :=
  match r with
  | Ok a => k a
  | Raise e => Raise e
  end.

Notation "x <- r ;; k" := (bind r (fun x => k))
  (at level 100, r at next level, right associativity).

(** ** Python dictionaries in insertion order *)

Definition dict (V : Type) := list (string * V).

Fixpoint dict_get {V} (k : string) (d : dict V) : option V :=
  match d with
  | [] => None
  | (k', v) :: d' => if String.eqb k k' then Some v else dict_get k d'
  end.

Definition dict_mem {V} (k : string) (d : dict V) : bool :=
  match dict_get k d with Some _ => true | None => false end.

Definition dict_keys {V} (d : dict V) : list string := map fst d.
Definition dict_values {V} (d : dict V) : list V := map snd d.

(** [d[k]]: a missing key raises [KeyError]. *)
Definition dict_item {V} (k : string) (d : dict V) : result V :=
  match dict_get k d with
  | Some v => Ok v
  | None => Raise (KeyError k)
  end.

(** ** models/domain/status.py *)

Inductive GameStatus := IN_PROGRESS | COMPLETED | GAME_OVER.

Definition status_value (s : GameStatus) : string :=
  match s with
  | IN_PROGRESS => "in_progress"
  | COMPLETED => "completed"
  | GAME_OVER => "game_over"
  end.

(** [GameStatus(value)]: lookup of a member by value. *)
Definition GameStatus_of_value (v : string) : result GameStatus :=
  if String.eqb v "in_progress" then Ok IN_PROGRESS
  else if String.eqb v "completed" then Ok COMPLETED
  else if String.eqb v "game_over" then Ok GAME_OVER
  else Raise (ValueError v).

Definition is_terminal (s : GameStatus) : bool :=
  match s with
  | COMPLETED | GAME_OVER => true
  | IN_PROGRESS => false
  end.

Definition status_eqb (a b : GameStatus) : bool :=
  match a, b with
  | IN_PROGRESS, IN_PROGRESS | COMPLETED, COMPLETED | GAME_OVER, GAME_OVER => true
  | _, _ => false
  end.

(** ** models/domain/player.py and game_state.py *)

(** A point in time, as microseconds since the epoch (UTC). *)
Definition datetime := Z.

Record Player := {
  location : string;
  inventory : gset string;
}.

Record GameState := {
  player : Player;
  visited_rooms : gset string;
  collected_items : gset string;
  move_count : Z;
  status : GameStatus;
  message : option string;
  event_log : list string;
  started_at : datetime;
  updated_at : datetime;
  encountered_villain : bool;
}.

Definition set_location (r : string) (s : GameState) : GameState :=
  {| player := {| location := r; inventory := inventory (player s) |};
     visited_rooms := visited_rooms s; collected_items := collected_items s;
     move_count := move_count s; status := status s; message := message s;
     event_log := event_log s; started_at := started_at s;
     updated_at := updated_at s; encountered_villain := encountered_villain s |}.

Definition set_move_count (n : Z) (s : GameState) : GameState :=
  {| player := player s;
     visited_rooms := visited_rooms s; collected_items := collected_items s;
     move_count := n; status := status s; message := message s;
     event_log := event_log s; started_at := started_at s;
     updated_at := updated_at s; encountered_villain := encountered_villain s |}.

Definition set_status (st : GameStatus) (s : GameState) : GameState :=
  {| player := player s;
     visited_rooms := visited_rooms s; collected_items := collected_items s;
     move_count := move_count s; status := st; message := message s;
     event_log := event_log s; started_at := started_at s;
     updated_at := updated_at s; encountered_villain := encountered_villain s |}.

Definition set_message (m : option string) (s : GameState) : GameState :=
  {| player := player s;
     visited_rooms := visited_rooms s; collected_items := collected_items s;
     move_count := move_count s; status := status s; message := m;
     event_log := event_log s; started_at := started_at s;
     updated_at := updated_at s; encountered_villain := encountered_villain s |}.

(** [state.event_log.append(e)] *)
Definition log_event (e : string) (s : GameState) : GameState :=
  {| player := player s;
     visited_rooms := visited_rooms s; collected_items := collected_items s;
     move_count := move_count s; status := status s; message := message s;
     event_log := event_log s ++ [e]; started_at := started_at s;
     updated_at := updated_at s; encountered_villain := encountered_villain s |}.

(** [state.collected_items.add(name)] *)
Definition collect (name : string) (s : GameState) : GameState :=
  {| player := player s;
     visited_rooms := visited_rooms s;
     collected_items := collected_items s ∪ {[ name ]};
     move_count := move_count s; status := status s; message := message s;
     event_log := event_log s; started_at := started_at s;
     updated_at := updated_at s; encountered_villain := encountered_villain s |}.

Definition set_encountered_villain (b : bool) (s : GameState) : GameState :=
  {| player := player s;
     visited_rooms := visited_rooms s; collected_items := collected_items s;
     move_count := move_count s; status := status s; message := message s;
     event_log := event_log s; started_at := started_at s;
     updated_at := updated_at s; encountered_villain := b |}.

(** [GameState.visit]: record the room and refresh [updated_at]. *)
Definition visit (now : datetime) (room_name : string) (s : GameState) : GameState :=
  {| player := player s;
     visited_rooms := visited_rooms s ∪ {[ room_name ]};
     collected_items := collected_items s;
     move_count := move_count s; status := status s; message := message s;
     event_log := event_log s; started_at := started_at s;
     updated_at := now; encountered_villain := encountered_villain s |}.

(** [GameState(player=Player(location=...))] with the dataclass defaults;
    both timestamps come from the clock. *)
Definition new_GameState (t0 t1 : datetime) (loc : string) : GameState :=
  {| player := {| location := loc; inventory := ∅ |};
     visited_rooms := ∅; collected_items := ∅; move_count := 0;
     status := IN_PROGRESS; message := None; event_log := [];
     started_at := t0; updated_at := t1; encountered_villain := false |}.

(** ** models/domain/item.py, room.py, map_graph.py *)

Inductive Item :=
| BaseItem (name : string)
| Relic (name : string)
| Villain (name : string).

Definition item_name (i : Item) : string :=
  match i with BaseItem n | Relic n | Villain n => n end.

(** [isinstance(item, Villain)] *)
Definition is_Villain (i : option Item) : bool :=
  match i with Some (Villain _) => true | _ => false end.

(** The polymorphic entry hook. *)
Definition on_enter (i : Item) (s : GameState) : GameState :=
  match i with
  | BaseItem _ => s
  | Relic n => log_event ("Collected " +:+ n) (collect n s)
  | Villain _ => log_event "Encountered the villain" (set_encountered_villain true s)
  end.

Record Room := {
  room_name : string;
  exits : dict string;
  item : option Item;
}.

Record MapGraph := {
  rooms : dict Room;
  coords : dict (list Z);
}.

(** [MapGraph.neighbors]: [self.rooms[room_name].exits] *)
Definition neighbors (g : MapGraph) (r : string) : result (dict string) :=
  rm <- dict_item r (rooms g) ;; Ok (exits rm).

(** [MapGraph.move]: [self.rooms[current_room].exits.get(direction)] *)
Definition graph_move (g : MapGraph) (current_room direction : string)
  : result (option string) :=
  rm <- dict_item current_room (rooms g) ;; Ok (dict_get direction (exits rm)).

(** ** models/domain/rules.py *)

Record StandardRules := { required_items : gset string }.

(** [StandardRules.check]: only [status] and [message] are written, and
    only when the room holds a [Villain]. *)
Definition check (rules : StandardRules) (s : GameState) (room : Room) : GameState :=
  if is_Villain (item room) then
    if bool_decide (required_items rules ⊆ collected_items s) then
      set_message (Some "You defeated the villain!") (set_status COMPLETED s)
    else
      set_message (Some "You found the villain too soon.") (set_status GAME_OVER s)
  else s.

(** ** models/domain/difficulty.py *)

Inductive Difficulty := EASY | MEDIUM | HARD.

Definition difficulty_value (d : Difficulty) : string :=
  match d with EASY => "easy" | MEDIUM => "medium" | HARD => "hard" end.

(** [Difficulty(value)] *)
Definition Difficulty_of_value (v : string) : result Difficulty :=
  if String.eqb v "easy" then Ok EASY
  else if String.eqb v "medium" then Ok MEDIUM
  else if String.eqb v "hard" then Ok HARD
  else Raise (ValueError v).

(** The stateless strategy classes of scoring.py and visibility.py. *)
Inductive ScoreStrategy := StandardScore | MaxMovesScore.
Inductive VisibilityPolicy := EasyVisibility | MediumVisibility | HardVisibility.

(** [Difficulty.scoring_policy] and [Difficulty.visibility_policy] are
    plain methods (only [label] is a property). *)
Definition scoring_policy (d : Difficulty) : ScoreStrategy :=
  match d with
  | EASY => StandardScore
  | MEDIUM => StandardScore
  | HARD => MaxMovesScore
  end.

Definition visibility_policy (d : Difficulty) : VisibilityPolicy :=
  match d with
  | EASY => EasyVisibility
  | MEDIUM => MediumVisibility
  | HARD => HardVisibility
  end.

(** ** models/domain/level.py

    [Level] is a frozen dataclass whose annotations are not enforced, so a
    field holds whatever the caller passed.  Two fields matter for that:
    - [scoring] and [visibility] hold either a strategy instance or the
      method object [difficulty.scoring_policy] that was never called;
    - [difficulty] holds either a [Difficulty] member or its string label. *)

Inductive attribute (A : Type) :=
| Instance (a : A)
| BoundMethod (self : Difficulty) (method : Difficulty -> A).
Arguments Instance {A} a.
Arguments BoundMethod {A} self method.

Inductive difficulty_attr :=
| Member (d : Difficulty)
| Label (s : string).

Record Level := {
  level_id : string;
  level_name : string;
  difficulty : difficulty_attr;
  start_room : string;
  map : MapGraph;
  rules : StandardRules;
  visibility : attribute VisibilityPolicy;
  scoring : attribute ScoreStrategy;
  optimal_moves : option Z;
}.

(** ** Python's [float]

    A float is a binary64 number: 53 bits of precision, exponents up to
    1024.  The operations are those of [SpecFloat]; each rounds its exact
    result to the nearest float, ties to even. *)

Definition float : Type := spec_float.
Definition prec : Z := 53.
Definition emax : Z := 1024.

Definition float_mul (x y : float) : float := SFmul prec emax x y.
Definition float_add (x y : float) : float := SFadd prec emax x y.

(** An int as the operand of a division: the integer itself, as mantissa
    with exponent 0. *)
Definition int_operand (n : Z) : float :=
  match n with
  | Z0 => S754_zero false
  | Zpos p => S754_finite false p 0
  | Zneg p => S754_finite true p 0
  end.

(** [float(n)]: the float nearest to the int, [OverflowError] beyond the
    range of floats. *)
Definition float_of_int (n : Z) : result float :=
  match binary_normalize prec emax n 0 false with
  | S754_infinity _ => Raise (OverflowError "int too large to convert to float")
  | x => Ok x
  end.

(** [a / b] on two ints, true division: the quotient of the two integers
    rounded once. *)
Definition truediv (a b : Z) : result float :=
  if b =? 0 then Raise ZeroDivisionError
  else
    match SFdiv prec emax (int_operand a) (int_operand b) with
    | S754_infinity _ =>
        Raise (OverflowError "integer division result too large for a float")
    | q => Ok q
    end.

(** [n * x] and [n + x] for an int [n] and a float [x]: the int is
    converted first. *)
Definition int_mul_float (n : Z) (x : float) : result float :=
  f <- float_of_int n ;; Ok (float_mul f x).

Definition int_add_float (n : Z) (x : float) : result float :=
  f <- float_of_int n ;; Ok (float_add f x).

(** [int(x)] on a float: truncation towards zero. *)
Definition py_int (x : float) : result Z :=
  match x with
  | S754_zero _ => Ok 0
  | S754_finite s m e =>
      let magnitude :=
        match e with
        | Z0 => Zpos m
        | Zpos _ => Z.shiftl (Zpos m) e
        | Zneg p => Z.shiftr (Zpos m) (Zpos p)
        end in
      Ok (if s then - magnitude else magnitude)
  | S754_infinity _ => Raise (OverflowError "cannot convert float infinity to integer")
  | S754_nan => Raise (ValueError "cannot convert float NaN to integer")
  end.

(** The float literals of scoring.py; each is a binary fraction. *)
Definition float_0_0 : float := S754_zero false.
Definition float_1_0 : float := SFdiv prec emax (int_operand 1) (int_operand 1).
Definition float_0_5 : float := SFdiv prec emax (int_operand 1) (int_operand 2).
Definition float_0_75 : float := SFdiv prec emax (int_operand 3) (int_operand 4).
Definition float_1_25 : float := SFdiv prec emax (int_operand 5) (int_operand 4).

(** [min(x, 1.0)]: the second argument is taken only when it compares
    less than the first. *)
Definition min_one (x : float) : float :=
  if SFltb float_1_0 x then float_1_0 else x.

(** ** models/domain/scoring.py *)

Definition WIN_BASE : Z := 1000.
Definition MAX_PROGRESS_SCORE : Z := 500.
Definition MAX_EFFICIENCY_SCORE : Z := 1000.
Definition OVERAGE_PENALTY_FACTOR : float := float_0_5.

Definition DIFFICULTY_MULTIPLIER : dict float :=
  [("easy", float_0_75); ("medium", float_1_0); ("hard", float_1_25)].

(** [DIFFICULTY_MULTIPLIER[level.difficulty]]: the keys are strings; a
    [Difficulty] member hashes and compares unlike any string (the enum
    does not mix in [str]), so it is never found. *)
Definition multiplier_item (k : difficulty_attr) : result float :=
  match k with
  | Label s => dict_item s DIFFICULTY_MULTIPLIER
  | Member d =>
      Raise (KeyError ("Difficulty." +:+ match d with
                                         | EASY => "EASY"
                                         | MEDIUM => "MEDIUM"
                                         | HARD => "HARD"
                                         end))
  end.

(** [len(s)] *)
Definition len (s : gset string) : Z := Z.of_nat (size s).

(** The first four lines of [StandardScore.calculate]. *)
Definition progress_score (s : GameState) (lvl : Level) : result Z :=
  let collected := len (collected_items s) in
  let total_required := len (required_items (rules lvl)) in
  progress <- (if total_required =? 0 then Ok float_0_0
               else truediv collected total_required) ;;
  scaled <- int_mul_float MAX_PROGRESS_SCORE progress ;;
  py_int scaled.

(** [StandardScore.calculate] *)
Definition StandardScore_calculate (s : GameState) (lvl : Level) : result Z :=
  progress_score <- progress_score s lvl ;;
  if negb (status_eqb (status s) COMPLETED) then Ok progress_score
  else
    ratio <- match optimal_moves lvl with
             | None =>
                 Raise (TypeError
                   "unsupported operand type(s) for /: 'NoneType' and 'int'")
             | Some opt => truediv opt (move_count s)
             end ;;
    let efficiency := min_one ratio in
    scaled <- int_mul_float MAX_EFFICIENCY_SCORE efficiency ;;
    efficiency_score <- py_int scaled ;;
    multiplier <- multiplier_item (difficulty lvl) ;;
    weighted <- int_mul_float efficiency_score multiplier ;;
    total <- int_add_float (WIN_BASE + progress_score) weighted ;;
    py_int total.

(** [MaxMovesScore.calculate] *)
Definition MaxMovesScore_calculate (s : GameState) (lvl : Level) : result Z :=
  base_score <- StandardScore_calculate s lvl ;;
  if negb (status_eqb (status s) COMPLETED) then Ok base_score
  else
    match optimal_moves lvl with
    | None => Ok base_score
    | Some opt =>
        if move_count s <=? opt then Ok base_score
        else
          let overage := move_count s - opt in
          ratio <- truediv overage opt ;;
          let penalty_ratio := min_one ratio in
          scaled <- int_mul_float base_score penalty_ratio ;;
          penalty <- py_int (float_mul scaled OVERAGE_PENALTY_FACTOR) ;;
          Ok (Z.max (base_score - penalty) 0)
    end.

(** Dynamic dispatch of [strategy.calculate(state, level)]. *)
Definition calculate (k : ScoreStrategy) (s : GameState) (lvl : Level) : result Z :=
  match k with
  | StandardScore => StandardScore_calculate s lvl
  | MaxMovesScore => MaxMovesScore_calculate s lvl
  end.

(** [level.scoring.calculate(state, level)]: attribute lookup on whatever
    the field holds; a bound method passes the lookup on to its function,
    which has no attribute [calculate]. *)
Definition scoring_calculate (lvl : Level) (s : GameState) : result Z :=
  match scoring lvl with
  | Instance k => calculate k s lvl
  | BoundMethod _ _ =>
      Raise (AttributeError "'function' object has no attribute 'calculate'")
  end.

(** ** Raw level definitions (the dictionaries a level repository returns)

    A key that may be absent from a dictionary is an [option] field. *)

Record ItemDef := {
  item_type : string;
  item_def_name : string;
}.

Record RoomDef := {
  def_exits : option (dict string);
  def_item : option ItemDef;
}.

Record RulesDef := { def_required_items : option (list string) }.

Record LevelDef := {
  def_id : option string;
  def_name : option string;
  def_difficulty : option string;
  def_start_room : option string;
  def_rooms : option (dict RoomDef);
  def_coords : option (dict (list Z));
  def_rules : option RulesDef;
}.

(** [defn[key]] on a possibly absent key. *)
Definition getitem {A} (key : string) (o : option A) : result A :=
  match o with
  | Some a => Ok a
  | None => Raise (KeyError key)
  end.

(** [data.get("exits", {})] *)
Definition exits_or_empty (data : RoomDef) : dict string :=
  match def_exits data with Some e => e | None => [] end.

(** ** models/behavior/validation.py *)

Definition absent {A} (key : string) (o : option A) : list string :=
  match o with Some _ => [] | None => [key] end.

(** [required_keys - defn.keys()] *)
Definition missing_keys (defn : LevelDef) : list string :=
  absent "id" (def_id defn) ++ absent "name" (def_name defn)
  ++ absent "difficulty" (def_difficulty defn)
  ++ absent "start_room" (def_start_room defn)
  ++ absent "rooms" (def_rooms defn) ++ absent "coords" (def_coords defn)
  ++ absent "rules" (def_rules defn).

(** The loop over [rooms.items()] and over the exit targets of each room. *)
Fixpoint check_exits (all : dict RoomDef) (rs : dict RoomDef) : result unit :=
  match rs with
  | [] => Ok tt
  | (room, data) :: rs' =>
      match List.find (fun target => negb (dict_mem target all))
                      (dict_values (exits_or_empty data)) with
      | Some target => Raise (LevelValidationError (InvalidExit room target))
      | None => check_exits all rs'
      end
  end.

(** The loop [for room in rooms: if room not in defn["coords"]]. *)
Fixpoint check_coords (defn : LevelDef) (rs : list string) : result unit :=
  match rs with
  | [] => Ok tt
  | room :: rs' =>
      cs <- getitem "coords" (def_coords defn) ;;
      if dict_mem room cs then check_coords defn rs'
      else Raise (LevelValidationError (MissingCoordinates room))
  end.

(** [r.get("item") and r["item"]["type"] == "villain"] *)
Definition is_villain_def (r : RoomDef) : bool :=
  match def_item r with
  | Some i => String.eqb (item_type i) "villain"
  | None => false
  end.

Definition villains (rs : dict RoomDef) : list RoomDef :=
  List.filter is_villain_def (dict_values rs).

Definition validate_level_definition (defn : LevelDef) : result unit :=
  match missing_keys defn with
  | key :: keys =>
      Raise (LevelValidationError (MissingRequiredKeys (key :: keys)))
  | [] =>
      rs <- getitem "rooms" (def_rooms defn) ;;
      start <- getitem "start_room" (def_start_room defn) ;;
      if negb (dict_mem start rs) then
        Raise (LevelValidationError StartRoomDoesNotExist)
      else
        _ <- check_exits rs rs ;;
        _ <- check_coords defn (dict_keys rs) ;;
        if negb (length (villains rs) =? 1)%nat then
          Raise (LevelValidationError NotExactlyOneVillain)
        else Ok tt
  end.

(** One entry of the BFS queue: [(room, items, dist)]. *)
Definition queue_entry : Type := string * gset string * Z.

(** [items | {item.name}] when the room's item is a required one. *)
Definition pick_up (required : gset string) (i : option Item) (items : gset string)
  : gset string :=
  match i with
  | Some it =>
      if bool_decide (item_name it ∈ required) then items ∪ {[ item_name it ]}
      else items
  | None => items
  end.

(** [item and item.name == "Villain" and items >= required_items] *)
Definition goal_reached (required : gset string) (i : option Item) (items : gset string)
  : bool :=
  match i with
  | Some it => String.eqb (item_name it) "Villain" && bool_decide (required ⊆ items)
  | None => false
  end.

(** The [while queue:] loop of [compute_optimal_moves]. *)
Fixpoint bfs_loop (fuel : nat) (g : MapGraph) (required : gset string)
    (visited : gset (string * gset string)) (queue : list queue_entry)
  : option (result Z) :=
  match queue with
  | [] => Some (Raise (LevelValidationError NotSolvable))
  | (room, items, dist) :: queue' =>
      match fuel with
      | O => None
      | S fuel' =>
          if bool_decide ((room, items) ∈ visited) then
            bfs_loop fuel' g required visited queue'
          else
            let visited' := visited ∪ {[ (room, items) ]} in
            match dict_item room (rooms g) with
            | Raise e => Some (Raise e)
            | Ok rm =>
                let items' := pick_up required (item rm) items in
                if goal_reached required (item rm) items' then Some (Ok dist)
                else
                  bfs_loop fuel' g required visited'
                    (queue' ++ List.map (fun nxt => (nxt, items', dist + 1))
                                        (dict_values (exits rm)))
            end
      end
  end.

Definition compute_optimal_moves (fuel : nat) (g : MapGraph) (start : string)
    (required : gset string) : option (result Z) :=
  bfs_loop fuel g required ∅ [(start, ∅, 0)].

(** ** models/behavior/level_factory.py *)

Definition build_item (d : ItemDef) : result Item :=
  if String.eqb (item_type d) "relic" then Ok (Relic (item_def_name d))
  else if String.eqb (item_type d) "villain" then Ok (Villain (item_def_name d))
  else Raise (ValueError ("Unknown item type: " +:+ item_type d)).

Definition build_room (name : string) (data : RoomDef) : result Room :=
  it <- match def_item data with
        | Some d => i <- build_item d ;; Ok (Some i)
        | None => Ok None
        end ;;
  Ok {| room_name := name; exits := exits_or_empty data; item := it |}.

Fixpoint build_rooms (rs : dict RoomDef) : result (dict Room) :=
  match rs with
  | [] => Ok []
  | (name, data) :: rs' =>
      rm <- build_room name data ;;
      rest <- build_rooms rs' ;;
      Ok ((name, rm) :: rest)
  end.

(** The first half of [LevelFactory.from_definition]: structural
    validation, the rooms, the map graph and the set of required items. *)
Definition build_graph (defn : LevelDef)
  : result (MapGraph * gset string * string) :=
  _ <- validate_level_definition defn ;;
  rs <- getitem "rooms" (def_rooms defn) ;;
  built <- build_rooms rs ;;
  cs <- getitem "coords" (def_coords defn) ;;
  rl <- getitem "rules" (def_rules defn) ;;
  req <- getitem "required_items" (def_required_items rl) ;;
  start <- getitem "start_room" (def_start_room defn) ;;
  Ok ({| rooms := built; coords := cs |}, (list_to_set req : gset string), start).

(** [LevelFactory.from_definition]; [None] only when the search ran out of
    fuel. *)
Definition from_definition (fuel : nat) (defn : LevelDef) : option (result Level) :=
  match build_graph defn with
  | Raise e => Some (Raise e)
  | Ok (map_graph, required, start) =>
      match compute_optimal_moves fuel map_graph start required with
      | None => None
      | Some (Raise e) => Some (Raise e)
      | Some (Ok optimal) =>
          Some (label <- getitem "difficulty" (def_difficulty defn) ;;
                d <- Difficulty_of_value label ;;
                id <- getitem "id" (def_id defn) ;;
                name <- getitem "name" (def_name defn) ;;
                Ok {| level_id := id; level_name := name;
                      difficulty := Member d;
                      start_room := start;
                      map := map_graph;
                      rules := {| required_items := required |};
                      visibility := BoundMethod d visibility_policy;
                      scoring := BoundMethod d scoring_policy;
                      optimal_moves := Some optimal |})
      end
  end.

(** ** models/records/game_save.py and game_result.py *)

Record GameSave := {
  save_user_email : string;
  save_level_id : string;
  save_state : GameState;
  save_created_at : datetime;
  save_updated_at : datetime;
}.

Record Snapshot := {
  final_room : string;
  snapshot_inventory : list string;
  snapshot_encountered_villain : bool;
  snapshot_optimal_moves : option Z;
}.

Record GameResult := {
  result_user_email : string;
  result_level_id : string;
  result_status : GameStatus;
  score : Z;
  moves : Z;
  items_collected : Z;
  finished_at : datetime;
  snapshot : option Snapshot;
}.

(** [sorted(set_of_strings)]: ascending by code point. *)
Definition str_le (a b : string) : Prop := String.leb a b = true.

Global Instance str_le_dec (a b : string) : Decision (str_le a b).
Proof. unfold str_le. apply _. Defined.

Definition sorted (s : gset string) : list string :=
  merge_sort str_le (elements s).

(** ** models/repositories/level_repo.py (the in-memory repository) *)

(** [d[k] = v] on a dictionary in insertion order: a key already present
    keeps its place. *)
Fixpoint dict_set {V} (k : string) (v : V) (d : dict V) : dict V :=
  match d with
  | [] => [(k, v)]
  | (k', v') :: d' =>
      if String.eqb k k' then (k, v) :: d' else (k', v') :: dict_set k v d'
  end.

(** The comprehension [{lvl["id"]: lvl for lvl in levels}], from the
    dictionary built so far. *)
Fixpoint index_by_id (levels : list LevelDef) (built : dict LevelDef)
  : result (dict LevelDef) :=
  match levels with
  | [] => Ok built
  | lvl :: rest =>
      id <- getitem "id" (def_id lvl) ;;
      index_by_id rest (dict_set id lvl built)
  end.

(** [InMemoryLevelRepository.__init__]: the value of [self._levels]. *)
Definition InMemoryLevelRepository (levels : list LevelDef)
  : result (dict LevelDef) :=
  index_by_id levels [].

(** [InMemoryLevelRepository.get] and [InMemoryLevelRepository.list] *)
Definition repository_get (repository : dict LevelDef) (level_id : string)
  : option LevelDef :=
  dict_get level_id repository.

Definition repository_list (repository : dict LevelDef) : list LevelDef :=
  dict_values repository.

(** ** controllers/game.py

    The controller talks to three repositories.  [levels] is
    [level_repo.get].  Both repositories of level_repo.py answer the raw
    definition, a [dict], while the controller reads the attributes of a
    [Level] from what it is given: a [level_object] is either of the two.
    The save and history stores follow their in-memory implementations,
    a record in the save store being kept as it was when it was written
    (the in-memory store holds the state object itself, which a later
    call goes on mutating); [now n] is the [n]-th reading of
    [datetime.now(timezone.utc)]. *)

Inductive level_object :=
| RawDefinition (defn : LevelDef)
| LevelInstance (lvl : Level).

(** [bool(level)]: a [dict] is true unless it is empty (a definition is
    its seven known keys here); a [Level] instance is true. *)
Definition truthy (level : level_object) : bool :=
  match level with
  | RawDefinition defn => negb (length (missing_keys defn) =? 7)%nat
  | LevelInstance _ => true
  end.

(** [level.<name>] for one of the fields of [Level]: a [dict] has no such
    attribute. *)
Definition getattr (level : level_object) (name : string) : result Level :=
  match level with
  | LevelInstance lvl => Ok lvl
  | RawDefinition _ =>
      Raise (AttributeError
               ("'dict' object has no attribute '" +:+ name +:+ "'"))
  end.

Record World := {
  saves : gmap string GameSave;
  history : list GameResult;
  clock : nat;
}.

(** What a controller call leaves behind: the exception it raised, if
    any, the (mutated) state object and the stores. *)
Record outcome := {
  raised : option exn;
  state_after : GameState;
  world_after : World;
}.

Section Controller.

Variable levels : string -> option level_object.
Variable now : nat -> datetime.

(** One reading of the clock. *)
Definition tick (w : World) : datetime * World :=
  (now (clock w),
   {| saves := saves w; history := history w; clock := S (clock w) |}).

(** [SaveRepository.upsert_active] *)
Definition upsert_active (sv : GameSave) (w : World) : World :=
  {| saves := <[ save_user_email sv := sv ]> (saves w);
     history := history w; clock := clock w |}.

(** [SaveRepository.delete_active] *)
Definition delete_active (user_email : string) (w : World) : World :=
  {| saves := delete user_email (saves w);
     history := history w; clock := clock w |}.

(** [SaveRepository.get_active] *)
Definition get_active (user_email : string) (w : World) : option GameSave :=
  saves w !! user_email.

(** [HistoryRepository.add] *)
Definition history_add (r : GameResult) (w : World) : World :=
  {| saves := saves w; history := history w ++ [r]; clock := clock w |}.

(** [_require_level] *)
Definition require_level (level_id : string) : result level_object :=
  match levels level_id with
  | Some level =>
      if truthy level then Ok level
      else Raise (ValueError ("Unknown level_id: " +:+ level_id))
  | None => Raise (ValueError ("Unknown level_id: " +:+ level_id))
  end.

(** [_autosave] *)
Definition autosave (user_email level_id : string) (s : GameState) (w : World)
  : World :=
  let '(created, w1) := tick w in
  let '(updated, w2) := tick w1 in
  upsert_active {| save_user_email := user_email; save_level_id := level_id;
                   save_state := s; save_created_at := created;
                   save_updated_at := updated |} w2.

(** [_persist_or_finalize] *)
Definition persist_or_finalize (user_email level_id : string)
    (s : GameState) (w : World) : outcome :=
  if negb (is_terminal (status s)) then
    {| raised := None; state_after := s;
       world_after := autosave user_email level_id s w |}
  else
    match level <- require_level level_id ;; getattr level "scoring" with
    | Raise e => {| raised := Some e; state_after := s; world_after := w |}
    | Ok lvl =>
        match scoring_calculate lvl s with
        | Raise e => {| raised := Some e; state_after := s; world_after := w |}
        | Ok sc =>
            let '(finished, w1) := tick w in
            let res :=
              {| result_user_email := user_email;
                 result_level_id := level_id;
                 result_status := status s;
                 score := sc;
                 moves := move_count s;
                 items_collected := len (collected_items s);
                 finished_at := finished;
                 snapshot := Some
                   {| final_room := location (player s);
                      snapshot_inventory := sorted (collected_items s);
                      snapshot_encountered_villain := encountered_villain s;
                      snapshot_optimal_moves := optimal_moves lvl |} |} in
            {| raised := None; state_after := s;
               world_after := delete_active user_email (history_add res w1) |}
        end
    end.

(** [GameController.move] *)
Definition move (user_email level_id : string) (s : GameState)
    (direction : string) (w : World) : outcome :=
  if is_terminal (status s) then
    {| raised := None;
       state_after := set_message (Some "Game already ended.") s;
       world_after := w |}
  else
    match level <- require_level level_id ;; getattr level "map" with
    | Raise e => {| raised := Some e; state_after := s; world_after := w |}
    | Ok lvl =>
        match dict_item (location (player s)) (rooms (map lvl)) with
        | Raise e => {| raised := Some e; state_after := s; world_after := w |}
        | Ok room =>
            match dict_get direction (exits room) with
            | None =>
                let s1 := set_message (Some "You bumped into a wall.") s in
                let s2 := log_event "Bumped into a wall" s1 in
                {| raised := None; state_after := s2;
                   world_after := autosave user_email level_id s2 w |}
            | Some next_room =>
                let s1 := set_location next_room s in
                let s2 := set_move_count (move_count s1 + 1) s1 in
                let '(t, w1) := tick w in
                let s3 := visit t next_room s2 in
                let s4 :=
                  log_event ("Moved " +:+ direction +:+ " to " +:+ next_room) s3 in
                let s5 := set_message None s4 in
                match dict_item next_room (rooms (map lvl)) with
                | Raise e =>
                    {| raised := Some e; state_after := s5; world_after := w1 |}
                | Ok entered_room =>
                    let s6 := match item entered_room with
                              | Some it => on_enter it s5
                              | None => s5
                              end in
                    let s7 := check (rules lvl) s6 entered_room in
                    persist_or_finalize user_email level_id s7 w1
                end
            end
        end
    end.

(** [GameController.pickup] *)
Definition pickup (user_email level_id : string) (s : GameState) (w : World)
  : outcome :=
  if is_terminal (status s) then
    {| raised := None;
       state_after := set_message (Some "Game already ended.") s;
       world_after := w |}
  else
    let s1 := set_message (Some "Nothing to pick up.") s in
    {| raised := None; state_after := s1;
       world_after := autosave user_email level_id s1 w |}.

(** [GameController.start_new_run]: the state is created, the start
    room is marked visited and the run is saved; no entry hook runs for
    the start room. *)
Definition start_new_run (user_email level_id : string) (w : World)
  : result GameState * World :=
  match level <- require_level level_id ;; getattr level "start_room" with
  | Raise e => (Raise e, w)
  | Ok lvl =>
      let '(t0, w1) := tick w in
      let '(t1, w2) := tick w1 in
      let s0 := new_GameState t0 t1 (start_room lvl) in
      let '(t2, w3) := tick w2 in
      let s1 := visit t2 (start_room lvl) s0 in
      let s2 := set_message (Some ("Started " +:+ level_name lvl)) s1 in
      (Ok s2, autosave user_email level_id s2 w3)
  end.

(** [GameController.abandon_run] *)
Definition abandon_run (user_email : string) (w : World) : World :=
  delete_active user_email w.

End Controller.

(** ** controllers/game.py: session detection and restart *)

Section Session.

Variable levels : string -> option level_object.
Variable now : nat -> datetime.

(** [GameController.has_active_run] *)
Definition has_active_run (user_email : string) (w : World) : bool :=
  match get_active user_email w with
  | Some _ => true
  | None => false
  end.

(** [GameController.restore_run] *)
Definition restore_run (user_email : string) (w : World) : option GameSave :=
  get_active user_email w.

(** [GameController.restart_run] *)
Definition restart_run (user_email level_id : string) (w : World)
  : result GameState * World :=
  start_new_run levels now user_email level_id (delete_active user_email w).

(** [GameController.can_act] *)
Definition can_act (s : GameState) : bool := negb (is_terminal (status s)).

End Session.

(** [GameState.start]: the start room is marked visited without a new
    reading of the clock. *)
Definition GameState_start (t0 t1 : datetime) (start_room : string) : GameState :=
  let state := new_GameState t0 t1 start_room in
  {| player := player state;
     visited_rooms := visited_rooms state ∪ {[ start_room ]};
     collected_items := collected_items state;
     move_count := move_count state; status := status state;
     message := message state; event_log := event_log state;
     started_at := started_at state; updated_at := updated_at state;
     encountered_villain := encountered_villain state |}.

(** ** models/records/serialization.py

    The JSON-compatible dictionary of a state; a key that [.get] may find
    absent is an [option] field.  [isoformat] and [fromisoformat] are the
    methods of Python's [datetime]. *)

Record PlayerDict := {
  d_location : option string;
  d_inventory : option (list string);
}.

Record StateDict := {
  d_player : option PlayerDict;
  d_visited_rooms : option (list string);
  d_collected_items : option (list string);
  d_move_count : option Z;
  d_status : option string;
  d_message : option (option string);
  d_event_log : option (list string);
  d_encountered_villain : option bool;
  d_started_at : option string;
  d_updated_at : option string;
}.

(** [d.get(key, default)] *)
Definition get_or {A} (o : option A) (default : A) : A :=
  match o with Some a => a | None => default end.

Section Serialization.

Variable isoformat : datetime -> string.
Variable fromisoformat : string -> result datetime.

Definition gamestate_to_dict (s : GameState) : StateDict :=
  {| d_player := Some {| d_location := Some (location (player s));
                         d_inventory := Some (elements (inventory (player s))) |};
     d_visited_rooms := Some (elements (visited_rooms s));
     d_collected_items := Some (elements (collected_items s));
     d_move_count := Some (move_count s);
     d_status := Some (status_value (status s));
     d_message := Some (message s);
     d_event_log := Some (event_log s);
     d_encountered_villain := Some (encountered_villain s);
     d_started_at := Some (isoformat (started_at s));
     d_updated_at := Some (isoformat (updated_at s)) |}.

Definition gamestate_from_dict (data : StateDict) : result GameState :=
  player_data <- getitem "player" (d_player data) ;;
  loc <- getitem "location" (d_location player_data) ;;
  let p := {| location := loc;
              inventory := list_to_set (get_or (d_inventory player_data) []) |} in
  st <- GameStatus_of_value (get_or (d_status data) (status_value IN_PROGRESS)) ;;
  started_s <- getitem "started_at" (d_started_at data) ;;
  started <- fromisoformat started_s ;;
  updated_s <- getitem "updated_at" (d_updated_at data) ;;
  updated <- fromisoformat updated_s ;;
  Ok {| player := p;
        visited_rooms := list_to_set (get_or (d_visited_rooms data) []);
        collected_items := list_to_set (get_or (d_collected_items data) []);
        move_count := get_or (d_move_count data) 0;
        status := st;
        message := get_or (d_message data) None;
        event_log := get_or (d_event_log data) [];
        started_at := started;
        updated_at := updated;
        encountered_villain := get_or (d_encountered_villain data) false |}.

End Serialization.

(** ** The five structural checks, as the specification words them *)

Definition present {A} (o : option A) : bool :=
  match o with Some _ => true | None => false end.

(** 1. required top-level fields present *)
Definition required_fields_present (defn : LevelDef) : bool :=
  present (def_id defn) && present (def_name defn)
  && present (def_difficulty defn) && present (def_start_room defn)
  && present (def_rooms defn) && present (def_coords defn)
  && present (def_rules defn).

(** 2. [start_room] exists among declared rooms *)
Definition start_room_declared (defn : LevelDef) : bool :=
  match def_start_room defn, def_rooms defn with
  | Some start, Some rs => existsb (String.eqb start) (dict_keys rs)
  | _, _ => false
  end.

(** 3. every exit target is a declared room *)
Definition exit_targets_declared (defn : LevelDef) : bool :=
  match def_rooms defn with
  | Some rs =>
      forallb (fun data =>
                 forallb (fun target => existsb (String.eqb target) (dict_keys rs))
                         (dict_values (exits_or_empty data)))
              (dict_values rs)
  | None => false
  end.

(** 4. every room has coordinate metadata *)
Definition rooms_have_coords (defn : LevelDef) : bool :=
  match def_rooms defn, def_coords defn with
  | Some rs, Some cs =>
      forallb (fun room => existsb (String.eqb room) (dict_keys cs)) (dict_keys rs)
  | _, _ => false
  end.

(** 5. exactly one villain item exists across all rooms *)
Fixpoint count_villain_items (rs : dict RoomDef) : nat :=
  match rs with
  | [] => 0
  | (_, data) :: rs' =>
      match def_item data with
      | Some i =>
          if String.eqb (item_type i) "villain" then S (count_villain_items rs')
          else count_villain_items rs'
      | None => count_villain_items rs'
      end
  end.

Definition exactly_one_villain (defn : LevelDef) : bool :=
  match def_rooms defn with
  | Some rs => (count_villain_items rs =? 1)%nat
  | None => false
  end.

(** The number of the first check that fails, in the specified order. *)
Definition first_violation (defn : LevelDef) : option nat :=
  if negb (required_fields_present defn) then Some 1%nat
  else if negb (start_room_declared defn) then Some 2%nat
  else if negb (exit_targets_declared defn) then Some 3%nat
  else if negb (rooms_have_coords defn) then Some 4%nat
  else if negb (exactly_one_villain defn) then Some 5%nat
  else None.

(** The check a validation failure belongs to. *)
Definition failed_check (why : validation_failure) : nat :=
  match why with
  | MissingRequiredKeys _ => 1
  | StartRoomDoesNotExist => 2
  | InvalidExit _ _ => 3
  | MissingCoordinates _ => 4
  | NotExactlyOneVillain => 5
  | NotSolvable => 6
  end%nat.

(** ** Concrete levels and states used by the examples below *)

Definition room_def (ex : dict string) (it : option ItemDef) : RoomDef :=
  {| def_exits := Some ex; def_item := it |}.

Definition relic_def (n : string) : option ItemDef :=
  Some {| item_type := "relic"; item_def_name := n |}.

Definition villain_def (n : string) : option ItemDef :=
  Some {| item_type := "villain"; item_def_name := n |}.

(** The level of the specification's scenarios A and B: room "Start" holds
    the required relic "X" and leads East to "End", which holds the
    villain. *)
Definition scenario_def : LevelDef :=
  {| def_id := Some "scenario"; def_name := Some "Scenario";
     def_difficulty := Some "easy"; def_start_room := Some "Start";
     def_rooms := Some [("Start", room_def [("East", "End")] (relic_def "X"));
                        ("End", room_def [] (villain_def "Villain"))];
     def_coords := Some [("Start", [0; 0]); ("End", [1; 0])];
     def_rules := Some {| def_required_items := Some ["X"] |} |}.

Definition scenario_map : MapGraph :=
  {| rooms := [("Start", {| room_name := "Start"; exits := [("East", "End")];
                            item := Some (Relic "X") |});
               ("End", {| room_name := "End"; exits := [];
                          item := Some (Villain "Villain") |})];
     coords := [("Start", [0; 0]); ("End", [1; 0])] |}.

(** What [from_definition] builds from [scenario_def]. *)
Definition scenario_level : Level :=
  {| level_id := "scenario"; level_name := "Scenario";
     difficulty := Member EASY; start_room := "Start"; map := scenario_map;
     rules := {| required_items := list_to_set ["X"] |};
     visibility := BoundMethod EASY visibility_policy;
     scoring := BoundMethod EASY scoring_policy;
     optimal_moves := Some 1 |}.

(** The same level with a strategy instance in [scoring] and the string
    label in [difficulty], as [StandardScore] reads them. *)
Definition scenario_level_by_hand : Level :=
  {| level_id := "scenario"; level_name := "Scenario";
     difficulty := Label "easy"; start_room := "Start"; map := scenario_map;
     rules := {| required_items := list_to_set ["X"] |};
     visibility := Instance EasyVisibility;
     scoring := Instance StandardScore;
     optimal_moves := Some 1 |}.

(** A level source that answers the [Level] instance the controller
    reads. *)
Definition one_level (lvl : Level) (id : string) : option level_object :=
  if String.eqb id (level_id lvl) then Some (LevelInstance lvl) else None.

(** The level source of the repository: [InMemoryLevelRepository.get]. *)
Definition repository_source (repository : dict LevelDef) (id : string)
  : option level_object :=
  match repository_get repository id with
  | Some defn => Some (RawDefinition defn)
  | None => None
  end.

(** The in-memory repository holding the scenario definition. *)
Definition scenario_repository : dict LevelDef := [("scenario", scenario_def)].

Definition empty_world : World :=
  {| saves := ∅; history := []; clock := 0 |}.

(** A clock that reads the number of the reading. *)
Definition counting_clock (n : nat) : datetime := Z.of_nat n.

(** A run in room "Start" that already holds the relic "X". *)
Definition holding_X : GameState :=
  {| player := {| location := "Start"; inventory := ∅ |};
     visited_rooms := {[ "Start" ]}; collected_items := {[ "X" ]};
     move_count := 2; status := IN_PROGRESS; message := None;
     event_log := ["Collected X"]; started_at := 0; updated_at := 0;
     encountered_villain := false |}.

(** The same run after it won with one more move. *)
Definition won_state : GameState :=
  {| player := {| location := "End"; inventory := ∅ |};
     visited_rooms := {[ "Start"; "End" ]}; collected_items := {[ "X" ]};
     move_count := 3; status := COMPLETED;
     message := Some "You defeated the villain!";
     event_log := ["Collected X"; "Moved East to End"; "Encountered the villain"];
     started_at := 0; updated_at := 1; encountered_villain := true |}.

(** A run as [start_new_run] creates it on the scenario level, with the
    clock readings 0, 1 and 2, and the stores it leaves behind. *)
Definition fresh_run : GameState :=
  {| player := {| location := "Start"; inventory := ∅ |};
     visited_rooms := {[ "Start" ]}; collected_items := ∅;
     move_count := 0; status := IN_PROGRESS;
     message := Some "Started Scenario"; event_log := [];
     started_at := 0; updated_at := 2; encountered_villain := false |}.

(** A run as [GameState.start] creates it in room "Start". *)
Definition started_run : GameState := GameState_start 0 1 "Start".

Definition fresh_world : World :=
  {| saves := {[ "ann@example.com" :=
                   {| save_user_email := "ann@example.com";
                      save_level_id := "scenario"; save_state := fresh_run;
                      save_created_at := 3; save_updated_at := 4 |} ]};
     history := []; clock := 5 |}.

(** ** The scoring formulas, as the specification words them *)

(** The formulas are read over the rational numbers. *)
Definition Qmin_one (q : Q) : Q := if Qle_bool q 1 then q else 1%Q.

(** 0.75 / 1.0 / 1.25 for the three difficulty tiers *)
Definition tier_multiplier (d : Difficulty) : Q :=
  match d with
  | EASY => 3 # 4
  | MEDIUM => 1
  | HARD => 5 # 4
  end.

(** floor(500 × collected/required), the ratio being 0 when nothing is
    required *)
Definition spec_progress_score (collected required : Z) : Z :=
  if required =? 0 then 0
  else Qfloor (inject_Z 500 * (inject_Z collected / inject_Z required)).

(** floor(1000 × min(optimal_moves / move_count, 1.0)) *)
Definition spec_efficiency_score (opt moves : Z) : Z :=
  Qfloor (inject_Z 1000 * Qmin_one (inject_Z opt / inject_Z moves)).

(** 1000 + progress_score + floor(efficiency_score × multiplier) *)
Definition spec_completed_score (d : Difficulty)
    (collected required opt moves : Z) : Z :=
  1000 + spec_progress_score collected required
  + Qfloor (inject_Z (spec_efficiency_score opt moves) * tier_multiplier d).

(** floor(base_score × min((move_count − optimal_moves)/optimal_moves, 1.0)
    × 0.5) *)
Definition spec_penalty (base moves opt : Z) : Z :=
  Qfloor (inject_Z base * Qmin_one (inject_Z (moves - opt) / inject_Z opt)
          * (1 # 2)).

(** A level of the hardest tier with the string label in [difficulty] and
    a strategy instance in [scoring], six required items and an optimum of
    15 moves, and a run that won it in 26 moves. *)
Definition six_items : gset string :=
  list_to_set ["A"; "B"; "C"; "D"; "E"; "F"].

Definition labelled_hard_level : Level :=
  {| level_id := "labelled"; level_name := "Labelled";
     difficulty := Label "hard"; start_room := "Start"; map := scenario_map;
     rules := {| required_items := six_items |};
     visibility := Instance HardVisibility;
     scoring := Instance MaxMovesScore;
     optimal_moves := Some 15 |}.

Definition slow_win : GameState :=
  {| player := {| location := "End"; inventory := ∅ |};
     visited_rooms := {[ "Start"; "End" ]}; collected_items := six_items;
     move_count := 26; status := COMPLETED;
     message := Some "You defeated the villain!"; event_log := [];
     started_at := 0; updated_at := 1; encountered_villain := true |}.

(** The scenario definition at the hardest tier and what [from_definition]
    builds from it. *)
Definition hard_def : LevelDef :=
  {| def_id := Some "scenario"; def_name := Some "Scenario";
     def_difficulty := Some "hard"; def_start_room := Some "Start";
     def_rooms := Some [("Start", room_def [("East", "End")] (relic_def "X"));
                        ("End", room_def [] (villain_def "Villain"))];
     def_coords := Some [("Start", [0; 0]); ("End", [1; 0])];
     def_rules := Some {| def_required_items := Some ["X"] |} |}.

Definition hard_level : Level :=
  {| level_id := "scenario"; level_name := "Scenario";
     difficulty := Member HARD; start_room := "Start"; map := scenario_map;
     rules := {| required_items := list_to_set ["X"] |};
     visibility := BoundMethod HARD visibility_policy;
     scoring := BoundMethod HARD scoring_policy;
     optimal_moves := Some 1 |}.

(** ** Walks through a map, as the specification words them *)

Definition room_item (g : MapGraph) (r : string) : option Item :=
  match dict_get r (rooms g) with
  | Some rm => item rm
  | None => None
  end.

(** [rs] lists the rooms entered by a sequence of valid moves from [r]:
    each room is the target of a declared exit of the room before it. *)
Fixpoint is_walk (g : MapGraph) (r : string) (rs : list string) : bool :=
  match rs with
  | [] => true
  | nxt :: rest =>
      match dict_get r (rooms g) with
      | Some rm =>
          existsb (String.eqb nxt) (dict_values (exits rm)) && is_walk g nxt rest
      | None => false
      end
  end.

(** The relics found in the rooms of a path. *)
Fixpoint relics_on (g : MapGraph) (path : list string) : gset string :=
  match path with
  | [] => ∅
  | r :: rest =>
      match room_item g r with
      | Some (Relic n) => {[ n ]} ∪ relics_on g rest
      | _ => relics_on g rest
      end
  end.

(** The room holds the villain item. *)
Definition holds_villain (g : MapGraph) (r : string) : bool :=
  is_Villain (room_item g r).

(** A winning walk: valid moves from [start] that collect every required
    item (the start room's relic counted too) and end in the room holding
    the villain item. *)
Definition winning_walk (g : MapGraph) (start : string) (required : gset string)
    (rs : list string) : bool :=
  is_walk g start rs
  && bool_decide (required ⊆ relics_on g (start :: rs))
  && holds_villain g (List.last rs start).

(** ** Walks as the search of [compute_optimal_moves] sees them *)

(** What the search has accumulated after the rooms of a path. *)
Definition picked (g : MapGraph) (required : gset string) (path : list string)
  : gset string :=
  fold_left (fun items r => pick_up required (room_item g r) items) path ∅.

(** The search's goal test in room [r] with [items] accumulated before
    entering it. *)
Definition goal_in (g : MapGraph) (required : gset string) (r : string)
    (items : gset string) : bool :=
  goal_reached required (room_item g r) (pick_up required (room_item g r) items).

(** A walk the search accepts. *)
Definition search_walk (g : MapGraph) (start : string) (required : gset string)
    (rs : list string) : bool :=
  is_walk g start rs
  && goal_in g required (List.last rs start)
       (picked g required (removelast (start :: rs))).

(** Every exit of every room leads to a room of the map. *)
Definition exits_closed (g : MapGraph) : bool :=
  forallb (fun rm => forallb (fun nxt => dict_mem nxt (rooms g))
                             (dict_values (exits rm)))
          (dict_values (rooms g)).

(** The naming convention of the shipped level: every item is a relic
    not named "Villain" or a villain named "Villain". *)
Definition item_conventional (it : Item) : bool :=
  match it with
  | Relic n => negb (String.eqb n "Villain")
  | Villain n => String.eqb n "Villain"
  | BaseItem _ => false
  end.

Definition villain_named_Villain (g : MapGraph) : bool :=
  forallb (fun rm => match item rm with
                     | Some it => item_conventional it
                     | None => true
                     end)
          (dict_values (rooms g)).

(** ** A bound on the iterations of the search *)

(** Every subset of the names in [l]. *)
Fixpoint subsets (l : list string) : list (gset string) :=
  match l with
  | [] => [∅]
  | a :: l' => subsets l' ++ List.map (fun items => items ∪ {[ a ]}) (subsets l')
  end.

(** Every (room, items) pair the search can mark as visited. *)
Definition search_space (g : MapGraph) (required : gset string)
  : list (string * gset string) :=
  list_prod (dict_keys (rooms g)) (subsets (elements required)).

(** How many of them are not marked yet. *)
Definition unvisited (space : list (string * gset string))
    (visited : gset (string * gset string)) : nat :=
  length (List.filter (fun x => negb (bool_decide (x ∈ visited))) space).

(** The number of exits of the whole map: no room has more. *)
Definition exit_count (g : MapGraph) : nat :=
  list_sum (List.map (fun rm => length (exits rm)) (dict_values (rooms g))).

(** Iterations that always suffice from a given loop state. *)
Definition search_bound (g : MapGraph) (required : gset string)
    (visited : gset (string * gset string)) (queue : list queue_entry) : nat :=
  length queue + unvisited (search_space g required) visited * S (exit_count g).

(** ** Two level definitions with a relic named "Villain" *)

(** The start room holds a relic named "Villain"; the villain, named
    "Boss", sits in a room without any way in. *)
Definition decoy_def : LevelDef :=
  {| def_id := Some "decoy"; def_name := Some "Decoy";
     def_difficulty := Some "easy"; def_start_room := Some "Start";
     def_rooms := Some [("Start", room_def [] (relic_def "Villain"));
                        ("Lair", room_def [] (villain_def "Boss"))];
     def_coords := Some [("Start", [0; 0]); ("Lair", [1; 0])];
     def_rules := Some {| def_required_items := Some [] |} |}.

Definition decoy_map : MapGraph :=
  {| rooms := [("Start", {| room_name := "Start"; exits := [];
                            item := Some (Relic "Villain") |});
               ("Lair", {| room_name := "Lair"; exits := [];
                           item := Some (Villain "Boss") |})];
     coords := [("Start", [0; 0]); ("Lair", [1; 0])] |}.

Definition decoy_level : Level :=
  {| level_id := "decoy"; level_name := "Decoy";
     difficulty := Member EASY; start_room := "Start"; map := decoy_map;
     rules := {| required_items := ∅ |};
     visibility := BoundMethod EASY visibility_policy;
     scoring := BoundMethod EASY scoring_policy;
     optimal_moves := Some 0 |}.

(** The start room holds the required relic "Gem" and leads East to a
    hall holding a relic named "Villain"; the villain, named "Boss", sits
    in a room no exit leads to. *)
Definition sealed_def : LevelDef :=
  {| def_id := Some "sealed"; def_name := Some "Sealed";
     def_difficulty := Some "medium"; def_start_room := Some "Start";
     def_rooms := Some [("Start", room_def [("East", "Hall")] (relic_def "Gem"));
                        ("Hall", room_def [("West", "Start")] (relic_def "Villain"));
                        ("Lair", room_def [("North", "Hall")] (villain_def "Boss"))];
     def_coords := Some [("Start", [0; 0]); ("Hall", [1; 0]); ("Lair", [1; 1])];
     def_rules := Some {| def_required_items := Some ["Gem"] |} |}.

Definition sealed_map : MapGraph :=
  {| rooms := [("Start", {| room_name := "Start"; exits := [("East", "Hall")];
                            item := Some (Relic "Gem") |});
               ("Hall", {| room_name := "Hall"; exits := [("West", "Start")];
                           item := Some (Relic "Villain") |});
               ("Lair", {| room_name := "Lair"; exits := [("North", "Hall")];
                           item := Some (Villain "Boss") |})];
     coords := [("Start", [0; 0]); ("Hall", [1; 0]); ("Lair", [1; 1])] |}.

Definition sealed_level : Level :=
  {| level_id := "sealed"; level_name := "Sealed";
     difficulty := Member MEDIUM; start_room := "Start"; map := sealed_map;
     rules := {| required_items := list_to_set ["Gem"] |};
     visibility := BoundMethod MEDIUM visibility_policy;
     scoring := BoundMethod MEDIUM scoring_policy;
     optimal_moves := Some 1 |}.

(** ** The invariant of the search loop *)

(** The items of every queued entry are required ones. *)
Definition queue_within (required : gset string) (queue : list queue_entry) : Prop :=
  Forall (fun e => e.1.2 ⊆ required) queue.

(** A state of the search: a room and the items accumulated before it. *)
Definition search_state : Type := string * gset string.

(** The state in which the search enters the last room of a walk. *)
Definition state_after_walk (g : MapGraph) (required : gset string)
    (start : string) (rs : list string) : search_state :=
  (List.last rs start, picked g required (removelast (start :: rs))).

(** One expansion step of the search. *)
Definition successor (g : MapGraph) (required : gset string)
    (v s' : search_state) : Prop :=
  exists rm nxt,
    dict_get v.1 (rooms g) = Some rm
    /\ In nxt (dict_values (exits rm))
    /\ s' = (nxt, pick_up required (item rm) v.2).

(** The queue holds entries of distance [lo], then entries of distance
    [lo + 1]. *)
Definition two_levels (lo : Z) (queue : list queue_entry) : Prop :=
  exists q1 q2,
    queue = (q1 ++ q2)%list
    /\ Forall (fun e => e.2 = lo) q1
    /\ Forall (fun e => e.2 = lo + 1) q2.

(** Every queued entry is what some walk from [start] leads to. *)
Definition queue_reached (g : MapGraph) (required : gset string)
    (start : string) (queue : list queue_entry) : Prop :=
  Forall (fun e => exists rs,
              is_walk g start rs = true
              /\ state_after_walk g required start rs = e.1
              /\ e.2 = Z.of_nat (length rs)) queue.

(** The loop invariant behind optimality; [lev] is the distance at which
    each visited state was dequeued. *)
Definition search_inv (g : MapGraph) (required : gset string) (start : string)
    (lev : search_state -> Z) (visited : gset search_state)
    (queue : list queue_entry) : Prop :=
  (exists lo, two_levels lo queue /\ forall v, v ∈ visited -> lev v <= lo)
  /\ (forall v s', v ∈ visited -> successor g required v s' ->
        (s' ∈ visited /\ lev s' <= lev v + 1) \/ In (s', lev v + 1) queue)
  /\ (((start, ∅) ∈ visited /\ lev (start, ∅) <= 0)
      \/ In ((start, ∅) : search_state, 0) queue)
  /\ (forall v, v ∈ visited -> goal_in g required v.1 v.2 = false).

(** ** Exhaustive search for walks *)

(** Every walk of [k] moves from room [r]. *)
Fixpoint walks_from (g : MapGraph) (r : string) (k : nat) : list (list string) :=
  match k with
  | O => [[]]
  | S k' =>
      match dict_get r (rooms g) with
      | Some rm =>
          flat_map (fun nxt => List.map (cons nxt) (walks_from g nxt k'))
                   (dict_values (exits rm))
      | None => []
      end
  end.

(** No walk of fewer than [n] moves wins. *)
Definition no_shorter_win (g : MapGraph) (start : string) (required : gset string)
    (n : nat) : bool :=
  forallb (fun k => forallb (fun rs => negb (winning_walk g start required rs))
                            (walks_from g start k))
          (seq 0 n).

(** ** The shipped level (levels/seed_levels.py) *)

Definition level_1_def : LevelDef :=
  {| def_id := Some "level_1"; def_name := Some "Relic Rush";
     def_difficulty := Some "medium"; def_start_room := Some "Space Room";
     def_rooms := Some
       [("Space Room",
         room_def [("South", "Reality Room"); ("East", "Avengers Campus")]
                  (relic_def "Blue Stone"));
        ("Avengers Campus",
         room_def [("South", "Power Room"); ("East", "Mind Room");
                   ("West", "Space Room")] None);
        ("Mind Room",
         room_def [("South", "Time Room"); ("West", "Avengers Campus")]
                  (relic_def "Yellow Stone"));
        ("Reality Room",
         room_def [("North", "Space Room"); ("South", "Soul Room");
                   ("East", "Power Room")] (relic_def "Red Stone"));
        ("Power Room",
         room_def [("North", "Avengers Campus"); ("East", "Time Room");
                   ("West", "Reality Room")] (relic_def "Purple Stone"));
        ("Time Room",
         room_def [("North", "Mind Room"); ("South", "Avengers Compound");
                   ("West", "Power Room")] (relic_def "Green Stone"));
        ("Soul Room",
         room_def [("North", "Reality Room")] (relic_def "Orange Stone"));
        ("Avengers Compound",
         room_def [("North", "Time Room")] (villain_def "Villain"))];
     def_coords := Some
       [("Space Room", [1; 0]); ("Avengers Campus", [2; 0]);
        ("Mind Room", [3; 0]); ("Reality Room", [1; 1]);
        ("Power Room", [2; 1]); ("Time Room", [3; 1]);
        ("Soul Room", [1; 2]); ("Avengers Compound", [3; 2])];
     def_rules := Some {| def_required_items := Some
       ["Blue Stone"; "Yellow Stone"; "Red Stone"; "Purple Stone";
        "Green Stone"; "Orange Stone"] |} |}.

Definition level_1_map : MapGraph :=
  {| rooms :=
       [("Space Room",
         {| room_name := "Space Room";
            exits := [("South", "Reality Room"); ("East", "Avengers Campus")];
            item := Some (Relic "Blue Stone") |});
        ("Avengers Campus",
         {| room_name := "Avengers Campus";
            exits := [("South", "Power Room"); ("East", "Mind Room");
                      ("West", "Space Room")];
            item := None |});
        ("Mind Room",
         {| room_name := "Mind Room";
            exits := [("South", "Time Room"); ("West", "Avengers Campus")];
            item := Some (Relic "Yellow Stone") |});
        ("Reality Room",
         {| room_name := "Reality Room";
            exits := [("North", "Space Room"); ("South", "Soul Room");
                      ("East", "Power Room")];
            item := Some (Relic "Red Stone") |});
        ("Power Room",
         {| room_name := "Power Room";
            exits := [("North", "Avengers Campus"); ("East", "Time Room");
                      ("West", "Reality Room")];
            item := Some (Relic "Purple Stone") |});
        ("Time Room",
         {| room_name := "Time Room";
            exits := [("North", "Mind Room"); ("South", "Avengers Compound");
                      ("West", "Power Room")];
            item := Some (Relic "Green Stone") |});
        ("Soul Room",
         {| room_name := "Soul Room"; exits := [("North", "Reality Room")];
            item := Some (Relic "Orange Stone") |});
        ("Avengers Compound",
         {| room_name := "Avengers Compound"; exits := [("North", "Time Room")];
            item := Some (Villain "Villain") |})];
     coords :=
       [("Space Room", [1; 0]); ("Avengers Campus", [2; 0]);
        ("Mind Room", [3; 0]); ("Reality Room", [1; 1]);
        ("Power Room", [2; 1]); ("Time Room", [3; 1]);
        ("Soul Room", [1; 2]); ("Avengers Compound", [3; 2])] |}.

Definition level_1_required : gset string :=
  list_to_set ["Blue Stone"; "Yellow Stone"; "Red Stone"; "Purple Stone";
               "Green Stone"; "Orange Stone"].

(** What the factory builds from [level_1_def]. *)
Definition level_1 : Level :=
  {| level_id := "level_1"; level_name := "Relic Rush";
     difficulty := Member MEDIUM; start_room := "Space Room";
     map := level_1_map;
     rules := {| required_items := level_1_required |};
     visibility := BoundMethod MEDIUM visibility_policy;
     scoring := BoundMethod MEDIUM scoring_policy;
     optimal_moves := Some 8 |}.

(** The eight rooms a shortest winning walk enters. *)
Definition level_1_walk : list string :=
  ["Reality Room"; "Soul Room"; "Reality Room"; "Power Room";
   "Avengers Campus"; "Mind Room"; "Time Room"; "Avengers Compound"].

(** The scenario level with its two rooms cut off from each other: the
    names follow the convention and no walk wins. *)
Definition locked_def : LevelDef :=
  {| def_id := Some "locked"; def_name := Some "Locked";
     def_difficulty := Some "easy"; def_start_room := Some "Start";
     def_rooms := Some [("Start", room_def [] (relic_def "X"));
                        ("End", room_def [] (villain_def "Villain"))];
     def_coords := Some [("Start", [0; 0]); ("End", [1; 0])];
     def_rules := Some {| def_required_items := Some ["X"] |} |}.

Definition locked_map : MapGraph :=
  {| rooms := [("Start", {| room_name := "Start"; exits := [];
                            item := Some (Relic "X") |});
               ("End", {| room_name := "End"; exits := [];
                          item := Some (Villain "Villain") |})];
     coords := [("Start", [0; 0]); ("End", [1; 0])] |}.

(** ** models/repositories/history_repo.py (the in-memory repository) *)

(** [InMemoryHistoryRepository.by_user] *)
Definition by_user (user_email : string) (results : list GameResult)
  : list GameResult :=
  List.filter (fun r => String.eqb (result_user_email r) user_email) results.

(** [sorted(..., key=lambda r: r.score, reverse=True)]: Python's sort is
    stable, also under [reverse=True]: records of equal score stay in the
    order they had.  That fixes the result, whatever the algorithm. *)
Fixpoint insert_by_score (r : GameResult) (l : list GameResult) : list GameResult :=
  match l with
  | [] => [r]
  | x :: l' =>
      if score r <? score x then x :: insert_by_score r l' else r :: x :: l'
  end.

Fixpoint sorted_by_score (l : list GameResult) : list GameResult :=
  match l with
  | [] => []
  | r :: l' => insert_by_score r (sorted_by_score l')
  end.

(** [l[:limit]]: a negative limit counts from the end. *)
Definition slice_to {A} (limit : Z) (l : list A) : list A :=
  if 0 <=? limit then firstn (Z.to_nat limit) l
  else firstn (length l - Z.to_nat (- limit)) l.

(** [InMemoryHistoryRepository.top_scores] *)
Definition top_scores (level_id : string) (limit : Z) (results : list GameResult)
  : list GameResult :=
  slice_to limit
    (sorted_by_score
       (List.filter (fun r => String.eqb (result_level_id r) level_id) results)).

(** [GameController.get_leaderboard] (the default limit is 10) and
    [GameController.get_user_history] *)
Definition get_leaderboard (level_id : string) (limit : Z) (w : World)
  : list GameResult :=
  top_scores level_id limit (history w).

Definition get_user_history (user_email : string) (w : World) : list GameResult :=
  by_user user_email (history w).

(** [GameResult.is_win] and [GameResult.is_loss] *)
Definition is_win (r : GameResult) : bool := status_eqb (result_status r) COMPLETED.
Definition is_loss (r : GameResult) : bool := status_eqb (result_status r) GAME_OVER.

(** The records of equal score, in the order of the list. *)
Definition with_score (k : Z) (l : list GameResult) : list GameResult :=
  List.filter (fun r => score r =? k) l.

(** The list is in order of falling score. *)
Definition by_falling_score (l : list GameResult) : Prop :=
  StronglySorted (fun a b => score b <= score a) l.


(** ** models/records/game_result.py: serialization *)

(** The dictionary of a result; a key that may be absent is an [option]
    field.  The timestamp is stored as it is. *)
Record ResultDict := {
  r_user_email : option string;
  r_level_id : option string;
  r_status : option string;
  r_score : option Z;
  r_moves : option Z;
  r_items_collected : option Z;
  r_finished_at : option datetime;
  r_snapshot : option (option Snapshot);
}.

(** [GameResult.to_dict] *)
Definition GameResult_to_dict (r : GameResult) : ResultDict :=
  {| r_user_email := Some (result_user_email r);
     r_level_id := Some (result_level_id r);
     r_status := Some (status_value (result_status r));
     r_score := Some (score r);
     r_moves := Some (moves r);
     r_items_collected := Some (items_collected r);
     r_finished_at := Some (finished_at r);
     r_snapshot := Some (snapshot r) |}.

(** [GameResult.from_dict]: the arguments are evaluated in the order of
    the call. *)
Definition GameResult_from_dict (data : ResultDict) : result GameResult :=
  user_email <- getitem "user_email" (r_user_email data) ;;
  level_id <- getitem "level_id" (r_level_id data) ;;
  status_value <- getitem "status" (r_status data) ;;
  status <- GameStatus_of_value status_value ;;
  score <- getitem "score" (r_score data) ;;
  moves <- getitem "moves" (r_moves data) ;;
  items_collected <- getitem "items_collected" (r_items_collected data) ;;
  finished_at <- getitem "finished_at" (r_finished_at data) ;;
  Ok {| result_user_email := user_email; result_level_id := level_id;
        result_status := status; score := score; moves := moves;
        items_collected := items_collected; finished_at := finished_at;
        snapshot := get_or (r_snapshot data) None |}.

(** The definition carries the given id. *)
Definition has_id (id : string) (defn : LevelDef) : bool :=
  match def_id defn with
  | Some k => String.eqb k id
  | None => false
  end.


(** ** models/behavior/visibility.py *)

Record LevelUIProjection := {
  show_full_map : bool;
  show_items : bool;
  show_villain : bool;
  discovered_rooms : gset string;
}.

(** [LevelUIProjection.can_render_room] *)
Definition can_render_room (p : LevelUIProjection) (room_name : string) : bool :=
  show_full_map p || bool_decide (room_name ∈ discovered_rooms p).

(** [EasyVisibility.project], [MediumVisibility.project] and
    [HardVisibility.project] *)
Definition project (k : VisibilityPolicy) (lvl : Level) (s : GameState)
  : LevelUIProjection :=
  match k with
  | EasyVisibility =>
      {| show_full_map := true; show_items := true; show_villain := true;
         discovered_rooms := list_to_set (dict_keys (rooms (map lvl))) |}
  | MediumVisibility =>
      {| show_full_map := true; show_items := false; show_villain := false;
         discovered_rooms := list_to_set (dict_keys (rooms (map lvl))) |}
  | HardVisibility =>
      {| show_full_map := false; show_items := false; show_villain := false;
         discovered_rooms := visited_rooms s ∪ {[ location (player s) ]} |}
  end.

(** [Level.ui_projection]: [self.visibility.project(self, state)], an
    attribute lookup on whatever the field holds. *)
Definition ui_projection (lvl : Level) (s : GameState) : result LevelUIProjection :=
  match visibility lvl with
  | Instance k => Ok (project k lvl s)
  | BoundMethod _ _ =>
      Raise (AttributeError "'function' object has no attribute 'project'")
  end.

(** [GameController.get_level_projection] *)
Definition get_level_projection (levels : string -> option level_object)
    (level_id : string) (s : GameState) : result LevelUIProjection :=
  level <- require_level levels level_id ;;
  lvl <- getattr level "ui_projection" ;;
  ui_projection lvl s.


(** ** The steps of [GameController.move], named *)

(** The state after the wall test failed. *)
Definition bumped (s : GameState) : GameState :=
  log_event "Bumped into a wall" (set_message (Some "You bumped into a wall.") s).

(** The state after the movement itself, [t] being the clock reading of
    [state.visit]. *)
Definition moved (t : datetime) (direction next_room : string) (s : GameState)
  : GameState :=
  set_message None
    (log_event ("Moved " +:+ direction +:+ " to " +:+ next_room)
       (visit t next_room
          (set_move_count (move_count s + 1) (set_location next_room s)))).

(** The state after the entry hook of the room and the rules. *)
Definition entered (rules : StandardRules) (room : Room) (s : GameState)
  : GameState :=
  check rules
    (match item room with
     | Some it => on_enter it s
     | None => s
     end) room.

(** The stores after one reading of the clock. *)
Definition ticked (w : World) : World :=
  {| saves := saves w; history := history w; clock := S (clock w) |}.

(** The result record of a finished run. *)
Definition result_of (user_email level_id : string) (s : GameState) (lvl : Level)
    (sc : Z) (finished : datetime) : GameResult :=
  {| result_user_email := user_email; result_level_id := level_id;
     result_status := status s; score := sc; moves := move_count s;
     items_collected := len (collected_items s); finished_at := finished;
     snapshot := Some
       {| final_room := location (player s);
          snapshot_inventory := sorted (collected_items s);
          snapshot_encountered_villain := encountered_villain s;
          snapshot_optimal_moves := optimal_moves lvl |} |}.


(** ** The game the application runs: models/game.py and
    controllers/game_old.py

    app.py wires this controller, not the one of controllers/game.py.
    The state travels through the browser as a dictionary between two
    calls ([asdict] and [GameState.from_dict]). *)

Module GameOld.

(** A room is a dictionary: the key "item" and one key per exit. *)
Definition ROOMS : dict (dict string) :=
  [("Space Room",
    [("item", "Blue Stone"); ("South", "Reality Room");
     ("East", "Avengers Campus")]);
   ("Avengers Campus",
    [("item", ""); ("South", "Power Room"); ("East", "Mind Room");
     ("West", "Space Room")]);
   ("Mind Room",
    [("item", "Yellow Stone"); ("South", "Time Room");
     ("West", "Avengers Campus")]);
   ("Reality Room",
    [("item", "Red Stone"); ("North", "Space Room"); ("South", "Soul Room");
     ("East", "Power Room")]);
   ("Power Room",
    [("item", "Purple Stone"); ("North", "Avengers Campus");
     ("East", "Time Room"); ("West", "Reality Room")]);
   ("Time Room",
    [("item", "Green Stone"); ("North", "Mind Room");
     ("South", "Avengers Compound"); ("West", "Power Room")]);
   ("Soul Room", [("item", "Orange Stone"); ("North", "Reality Room")]);
   ("Avengers Compound", [("item", "Villain"); ("North", "Time Room")])].

Definition DIRECTIONS : list string := ["North"; "South"; "East"; "West"].
Definition VILLAIN_ROOM_ITEM : string := "Villain".

(** [v['item']] for the rooms of [ROOMS], each of which has the key. *)
Definition item_of (room : dict string) : string :=
  match dict_get "item" room with
  | Some v => v
  | None => ""
  end.

(** [ITEMS]: the items of the non-empty rooms, without "" and the
    villain. *)
Definition ITEMS : gset string :=
  list_to_set
    (List.filter
       (fun v => negb (String.eqb v "") && negb (String.eqb v VILLAIN_ROOM_ITEM))
       (List.map item_of
          (List.filter (fun room => negb (length room =? 0)%nat)
                       (dict_values ROOMS)))).

Record GameState := {
  current_room : string;
  inventory : list string;
  status : string;
  message : string;
  event_log : list string;
}.

(** The dictionary of a state in the browser's store. *)
Record StateData := {
  data_current_room : option string;
  data_inventory : option (list string);
  data_status : option string;
  data_message : option string;
  data_event_log : option (list string);
}.

(** [GameState.from_dict] *)
Definition from_dict (data : StateData) : GameState :=
  {| current_room := get_or (data_current_room data) "Avengers Campus";
     inventory := get_or (data_inventory data) [];
     status := get_or (data_status data) "playing";
     message := get_or (data_message data) "";
     event_log := get_or (data_event_log data) [] |}.

(** [dataclasses.asdict] on a state. *)
Definition asdict (s : GameState) : StateData :=
  {| data_current_room := Some (current_room s);
     data_inventory := Some (inventory s);
     data_status := Some (status s);
     data_message := Some (message s);
     data_event_log := Some (event_log s) |}.

(** [GameController.new_game] *)
Definition new_game : GameState :=
  {| current_room := "Avengers Campus"; inventory := []; status := "playing";
     message := "New game started."; event_log := ["New game started."] |}.

(** [GameController.get_room]: [ROOMS.get(room_name, {})] *)
Definition get_room (room_name : string) : dict string :=
  get_or (dict_get room_name ROOMS) [].

(** [GameController.get_exits] *)
Definition get_exits (room_name : string) : list string :=
  List.filter (fun d => dict_mem d (get_room room_name)) DIRECTIONS.

(** [GameController.room_item]: [room.get("item", "")] *)
Definition room_item (room_name : string) : string :=
  get_or (dict_get "item" (get_room room_name)) "".

(** [GameController.did_win] *)
Definition did_win (s : GameState) : bool :=
  (Z.of_nat (length (inventory s)) >=? Z.of_nat (size ITEMS)).

(** [(state.event_log or [])[-19:] + [entry]] *)
Definition log (entry : string) (event_log : list string) : list string :=
  (skipn (length event_log - 19) event_log ++ [entry])%list.

Definition in_list (x : string) (l : list string) : bool :=
  existsb (String.eqb x) l.

(** [GameController.move] *)
Definition move (s : GameState) (direction : string) : GameState :=
  if negb (String.eqb (status s) "playing") then
    {| current_room := current_room s; inventory := inventory s;
       status := status s; message := "Game already ended.";
       event_log := event_log s |}
  else if negb (in_list direction DIRECTIONS) then
    {| current_room := current_room s; inventory := inventory s;
       status := status s; message := "Invalid direction.";
       event_log := event_log s |}
  else
    let room := get_room (current_room s) in
    match dict_get direction room with
    | None =>
        {| current_room := current_room s; inventory := inventory s;
           status := status s; message := "You bumped into a wall.";
           event_log := log "You bumped into a wall." (event_log s) |}
    | Some next_room =>
        let s1 :=
          {| current_room := next_room; inventory := inventory s;
             status := status s; message := "";
             event_log :=
               log ("Moved " +:+ direction +:+ " to " +:+ next_room +:+ ".")
                   (event_log s) |} in
        if String.eqb (room_item next_room) VILLAIN_ROOM_ITEM then
          if did_win s1 then
            {| current_room := next_room; inventory := inventory s;
               status := "completed";
               message := "You found Thanos... YOU WIN!";
               event_log :=
                 log "You found Thanos with all stones. YOU WIN!" (event_log s1) |}
          else
            {| current_room := next_room; inventory := inventory s;
               status := "game_over";
               message := "You found Thanos too soon. GAME OVER!";
               event_log :=
                 log "You found Thanos without all stones. GAME OVER!"
                     (event_log s1) |}
        else s1
    end.

(** [GameController.can_pickup] *)
Definition can_pickup (s : GameState) : option string :=
  if negb (String.eqb (status s) "playing") then None
  else
    let item := room_item (current_room s) in
    if String.eqb item "" || String.eqb item VILLAIN_ROOM_ITEM then None
    else if in_list item (inventory s) then None
    else Some item.

(** [GameController.pickup]; [not item] holds of [None] and of "". *)
Definition pickup (s : GameState) : GameState :=
  if negb (String.eqb (status s) "playing") then
    {| current_room := current_room s; inventory := inventory s;
       status := status s; message := "Game already ended.";
       event_log := event_log s |}
  else
    match can_pickup s with
    | Some item =>
        if String.eqb item "" then
          {| current_room := current_room s; inventory := inventory s;
             status := status s; message := "Nothing to pick up.";
             event_log := event_log s |}
        else
          {| current_room := current_room s;
             inventory := (inventory s ++ [item])%list;
             status := status s;
             message := "Collected " +:+ item +:+ "!";
             event_log := log ("Collected " +:+ item +:+ "!") (event_log s) |}
    | None =>
        {| current_room := current_room s; inventory := inventory s;
           status := status s; message := "Nothing to pick up.";
           event_log := event_log s |}
    end.

(** callbacks/main.py, [start_new_game]: the session put in the store has
    none of the keys of a state. *)
Definition game_session : StateData :=
  {| data_current_room := None; data_inventory := None; data_status := None;
     data_message := None; data_event_log := None |}.

(** callbacks/game.py, [move_player] and [pickup]: one click reads the
    state from the store, calls the controller and stores the answer. *)
Inductive action :=
| Move (direction : string)
| Pickup.

Definition click (s : GameState) (a : action) : GameState :=
  match a with
  | Move direction => move s direction
  | Pickup => pickup s
  end.

Definition store_click (data : StateData) (a : action) : StateData :=
  asdict (click (from_dict data) a).

(** The store after a sequence of clicks in a new game. *)
Definition play (clicks : list action) : StateData :=
  fold_left store_click clicks game_session.

(** callbacks/game.py, [render_game]: [ROOMS[state.current_room]], then
    the exits and whether the pickup button is disabled. *)
Definition render_game (data : StateData)
  : result (list string * bool) :=
  let s := from_dict data in
  match dict_get (current_room s) ROOMS with
  | None => Raise (KeyError (current_room s))
  | Some room =>
      let exits := List.filter (fun d => dict_mem d room) DIRECTIONS in
      let item := get_or (dict_get "item" room) "" in
      let item_here := if String.eqb item "" then "None" else item in
      let can_pickup_item :=
        negb (in_list item_here ["None"; ""; VILLAIN_ROOM_ITEM])
        && negb (in_list item_here (inventory s)) in
      Ok (exits, negb can_pickup_item)
  end.

End GameOld.

(** The six stones of [ROOMS]. *)
Definition stones : list string :=
  ["Blue Stone"; "Yellow Stone"; "Red Stone"; "Purple Stone"; "Green Stone";
   "Orange Stone"].

(** What every state reached by clicks satisfies. *)
Definition reachable_shape (s : GameOld.GameState) : Prop :=
  List.NoDup (GameOld.inventory s)
  /\ (forall i, In i (GameOld.inventory s) -> In i stones)
  /\ (length (GameOld.event_log s) <= 20)%nat
  /\ ((GameOld.status s = "playing"
       /\ In (GameOld.current_room s)
             ["Space Room"; "Avengers Campus"; "Mind Room"; "Reality Room";
              "Power Room"; "Time Room"; "Soul Room"])
      \/ (GameOld.status s = "completed"
          /\ GameOld.current_room s = "Avengers Compound"
          /\ forall i, In i stones -> In i (GameOld.inventory s))
      \/ (GameOld.status s = "game_over"
          /\ GameOld.current_room s = "Avengers Compound"
          /\ exists i, In i stones /\ ~ In i (GameOld.inventory s))).

(** * Properties *)

(** ** Dictionaries *)

Lemma dict_mem_keys {V} (k : string) (d : dict V) :
  dict_mem k d = existsb (String.eqb k) (dict_keys d).
Proof.
  unfold dict_mem. induction d as [|[k' v] d IH]; simpl; [reflexivity|].
  destruct (String.eqb k k'); simpl; [reflexivity|exact IH].
Qed.

Lemma dict_get_Some_In {V} (k : string) (d : dict V) (v : V) :
  dict_get k d = Some v -> In (k, v) d.
Proof.
  induction d as [|[k' v'] d IH]; simpl; [discriminate|].
  destruct (String.eqb_spec k k') as [->|_].
  - intros [= ->]. now left.
  - intros H. right. now apply IH.
Qed.

(** ** Structural validation (validation.py) *)

Lemma missing_keys_nil (defn : LevelDef) :
  missing_keys defn = [] <-> required_fields_present defn = true.
Proof.
  unfold missing_keys, required_fields_present, absent, present.
  destruct (def_id defn), (def_name defn), (def_difficulty defn),
    (def_start_room defn), (def_rooms defn), (def_coords defn),
    (def_rules defn); simpl; split; intros H; try reflexivity; discriminate H.
Qed.

Lemma check_exits_spec (all rs : dict RoomDef) :
  match check_exits all rs with
  | Ok _ =>
      forallb (fun data =>
                 forallb (fun target => existsb (String.eqb target) (dict_keys all))
                         (dict_values (exits_or_empty data)))
              (dict_values rs) = true
  | Raise e =>
      (exists room target, e = LevelValidationError (InvalidExit room target))
      /\ forallb (fun data =>
                    forallb (fun target => existsb (String.eqb target) (dict_keys all))
                            (dict_values (exits_or_empty data)))
                 (dict_values rs) = false
  end.
Proof.
  induction rs as [|[room data] rs IH]; simpl; [reflexivity|].
  destruct (List.find _ _) as [target|] eqn:Hfind.
  - split; [now exists room, target|].
    apply find_some in Hfind as [Hin Hbad].
    rewrite dict_mem_keys in Hbad.
    apply andb_false_iff. left.
    apply not_true_is_false. intros Hall.
    rewrite forallb_forall in Hall. specialize (Hall _ Hin).
    rewrite Hall in Hbad. discriminate.
  - assert (Hrow : forallb (fun target => existsb (String.eqb target) (dict_keys all))
                     (dict_values (exits_or_empty data)) = true).
    { apply forallb_forall. intros t Ht.
      pose proof (find_none _ _ Hfind t Ht) as Hn. simpl in Hn.
      rewrite dict_mem_keys in Hn. now apply negb_false_iff in Hn. }
    rewrite Hrow. simpl. exact IH.
Qed.

Lemma check_coords_spec (defn : LevelDef) (cs : dict (list Z)) (rs : list string) :
  def_coords defn = Some cs ->
  match check_coords defn rs with
  | Ok _ => forallb (fun room => existsb (String.eqb room) (dict_keys cs)) rs = true
  | Raise e =>
      (exists room, e = LevelValidationError (MissingCoordinates room))
      /\ forallb (fun room => existsb (String.eqb room) (dict_keys cs)) rs = false
  end.
Proof.
  intros Hcs. induction rs as [|room rs IH]; simpl; [reflexivity|].
  rewrite Hcs. simpl. rewrite dict_mem_keys.
  destruct (existsb (String.eqb room) (dict_keys cs)); simpl.
  - exact IH.
  - split; [now exists room|reflexivity].
Qed.

Lemma villains_count (rs : dict RoomDef) :
  length (villains rs) = count_villain_items rs.
Proof.
  unfold villains. induction rs as [|[room data] rs IH]; simpl; [reflexivity|].
  unfold is_villain_def at 1.
  destruct (def_item data) as [i|]; [|exact IH].
  destruct (String.eqb (item_type i) "villain"); simpl; now rewrite IH.
Qed.

(** [validate_level_definition] returns normally or raises a
    [LevelValidationError] whose failure belongs to the first failing
    check. *)
Lemma validate_level_definition_outcome (defn : LevelDef) :
  match validate_level_definition defn with
  | Ok _ => first_violation defn = None
  | Raise (LevelValidationError why) => first_violation defn = Some (failed_check why)
  | Raise _ => False
  end.
Proof.
  unfold validate_level_definition, first_violation.
  destruct (missing_keys defn) as [|k ks] eqn:Hmiss.
  - apply missing_keys_nil in Hmiss as Hpres. rewrite Hpres. simpl.
    unfold start_room_declared, exit_targets_declared, rooms_have_coords,
      exactly_one_villain.
    unfold required_fields_present in Hpres.
    destruct (def_rooms defn) as [rs|] eqn:Hrs;
      [|rewrite !andb_false_r in Hpres; simpl in Hpres;
        rewrite ?andb_false_r in Hpres; discriminate].
    destruct (def_start_room defn) as [start|] eqn:Hstart;
      [|rewrite !andb_false_r in Hpres; simpl in Hpres; discriminate].
    destruct (def_coords defn) as [cs|] eqn:Hcs;
      [|rewrite !andb_false_r in Hpres; simpl in Hpres;
        rewrite ?andb_false_r in Hpres; discriminate].
    simpl. rewrite dict_mem_keys.
    destruct (existsb (String.eqb start) (dict_keys rs)); simpl; [|reflexivity].
    pose proof (check_exits_spec rs rs) as Hex.
    destruct (check_exits rs rs) as [[]|e]; simpl.
    + rewrite Hex. simpl.
      pose proof (check_coords_spec defn cs (dict_keys rs) Hcs) as Hco.
      destruct (check_coords defn (dict_keys rs)) as [[]|e]; simpl.
      * rewrite Hco. simpl. rewrite villains_count.
        destruct (count_villain_items rs =? 1)%nat; reflexivity.
      * destruct Hco as [[room ->] Hco]. now rewrite Hco.
    + destruct Hex as [(room & target & ->) Hex]. now rewrite Hex.
  - assert (Hpres : required_fields_present defn = false).
    { apply not_true_is_false. intros H. apply missing_keys_nil in H.
      rewrite H in Hmiss. discriminate. }
    now rewrite Hpres.
Qed.

Lemma first_violation_None (defn : LevelDef) :
  first_violation defn = None <->
  required_fields_present defn = true
  /\ start_room_declared defn = true
  /\ exit_targets_declared defn = true
  /\ rooms_have_coords defn = true
  /\ exactly_one_villain defn = true.
Proof.
  unfold first_violation. split.
  - destruct (required_fields_present defn); [|discriminate].
    destruct (start_room_declared defn); [|discriminate].
    destruct (exit_targets_declared defn); [|discriminate].
    destruct (rooms_have_coords defn); [|discriminate].
    destruct (exactly_one_villain defn); [|discriminate].
    repeat split.
  - intros (-> & -> & -> & -> & ->). reflexivity.
Qed.

(** C7. [validate_level_definition] either returns normally or raises a
    [LevelValidationError] (never another exception); the failure it raises
    belongs to the first of the five checks that fails, in the order
    required fields, start room, exit targets, coordinates, exactly one
    villain; and it returns normally exactly when all five checks pass. *)
Theorem validate_level_definition_first_violation (defn : LevelDef) :
  match validate_level_definition defn with
  | Ok _ => first_violation defn = None
  | Raise (LevelValidationError why) => first_violation defn = Some (failed_check why)
  | Raise _ => False
  end
  /\ (validate_level_definition defn = Ok tt <->
      required_fields_present defn = true
      /\ start_room_declared defn = true
      /\ exit_targets_declared defn = true
      /\ rooms_have_coords defn = true
      /\ exactly_one_villain defn = true).
Proof.
  pose proof (validate_level_definition_outcome defn) as Hmain.
  split; [exact Hmain|].
  rewrite <- first_violation_None. split.
  - intros Hok. now rewrite Hok in Hmain.
  - intros Hnone. rewrite Hnone in Hmain.
    destruct (validate_level_definition defn) as [[]|e]; [reflexivity|].
    destruct e; try contradiction. discriminate.
Qed.

(** ** Rule evaluation (rules.py) *)

Lemma check_idempotent (rules : StandardRules) (s : GameState) (room : Room) :
  check rules (check rules s room) room = check rules s room.
Proof.
  unfold check. destruct (is_Villain (item room)) eqn:Hv; [|reflexivity].
  destruct (bool_decide (required_items rules ⊆ collected_items s)) eqn:Hsup;
    simpl; rewrite Hsup; reflexivity.
Qed.

(** C4. [StandardRules.check] writes only [status] and [message]; in a
    room holding the villain it sets COMPLETED with the win message when
    the collected items include every required item and GAME_OVER with the
    loss message otherwise; in any other room it returns the state
    unchanged; and applying it a second time changes nothing, so on an
    already-terminal state status and message stay as the first call left
    them. *)
Theorem StandardRules_check_effect
    (rules : StandardRules) (s : GameState) (room : Room) :
  let s' := check rules s room in
  (player s' = player s /\ visited_rooms s' = visited_rooms s
   /\ collected_items s' = collected_items s /\ move_count s' = move_count s
   /\ event_log s' = event_log s /\ started_at s' = started_at s
   /\ updated_at s' = updated_at s
   /\ encountered_villain s' = encountered_villain s)
  /\ (is_Villain (item room) = true ->
      required_items rules ⊆ collected_items s ->
      status s' = COMPLETED /\ message s' = Some "You defeated the villain!")
  /\ (is_Villain (item room) = true ->
      ~ required_items rules ⊆ collected_items s ->
      status s' = GAME_OVER /\ message s' = Some "You found the villain too soon.")
  /\ (is_Villain (item room) = false -> s' = s)
  /\ (status (check rules s' room) = status s'
      /\ message (check rules s' room) = message s'
      /\ check rules s' room = s').
Proof.
  cbv zeta. split; [|split; [|split; [|split]]].
  - unfold check. destruct (is_Villain (item room)); [|repeat split].
    destruct (bool_decide _); repeat split.
  - intros Hv Hsup. unfold check.
    rewrite Hv, bool_decide_eq_true_2 by exact Hsup. now split.
  - intros Hv Hsup. unfold check.
    rewrite Hv, bool_decide_eq_false_2 by exact Hsup. now split.
  - intros Hv. unfold check. now rewrite Hv.
  - rewrite check_idempotent. repeat split.
Qed.

(** ** The level factory on the scenario level (level_factory.py) *)

Lemma from_definition_scenario :
  from_definition 8 scenario_def = Some (Ok scenario_level).
Proof. vm_compute. reflexivity. Qed.

Lemma start_new_run_scenario :
  start_new_run (one_level scenario_level) counting_clock
    "ann@example.com" "scenario" empty_world
  = (Ok fresh_run, fresh_world).
Proof. vm_compute. reflexivity. Qed.

(** ** The controller (controllers/game.py) *)

Lemma scenario_repository_built :
  InMemoryLevelRepository [scenario_def] = Ok scenario_repository.
Proof. reflexivity. Qed.

(** What the wall test does once the controller holds a [Level]: nothing
    is raised, status, move count, location, visited rooms and collected
    items stay, the wall-bump message is set and logged, and the run is
    upserted. *)
Lemma move_into_wall
    (levels : string -> option level_object) (now : nat -> datetime)
    (user_email level_id direction : string) (s : GameState) (w : World)
    (lvl : Level) (room : Room) :
  is_terminal (status s) = false ->
  levels level_id = Some (LevelInstance lvl) ->
  dict_get (location (player s)) (rooms (map lvl)) = Some room ->
  dict_get direction (exits room) = None ->
  let o := move levels now user_email level_id s direction w in
  raised o = None
  /\ status (state_after o) = status s
  /\ move_count (state_after o) = move_count s
  /\ location (player (state_after o)) = location (player s)
  /\ visited_rooms (state_after o) = visited_rooms s
  /\ collected_items (state_after o) = collected_items s
  /\ message (state_after o) = Some "You bumped into a wall."
  /\ event_log (state_after o) = (event_log s ++ ["Bumped into a wall"])%list
  /\ get_active user_email (world_after o)
     = Some {| save_user_email := user_email; save_level_id := level_id;
               save_state := state_after o;
               save_created_at := now (clock w);
               save_updated_at := now (S (clock w)) |}
  /\ history (world_after o) = history w.
Proof.
  intros Hlive Hlvl Hroom Hwall. cbv zeta.
  unfold move, require_level, dict_item.
  rewrite Hlive, Hlvl. simpl. rewrite Hroom, Hwall. simpl.
  repeat split. unfold get_active. simpl. apply lookup_insert_eq.
Qed.

(** C5 (at the failing input). The level source is the in-memory level
    repository holding the scenario definition; the run is in progress in
    room "Start", which has no exit North, and no run is saved yet.  The
    repository answers the definition, a [dict], and the move raises
    [AttributeError] at [level.map], before the wall test: the state is as
    it was (no wall-bump message, no entry in the event log) and nothing is
    upserted.  Handed the [Level] the factory builds from the same
    definition, the same call sets the message, logs the entry and upserts
    the run. *)
Theorem move_into_wall_on_repository :
  InMemoryLevelRepository [scenario_def] = Ok scenario_repository
  /\ from_definition 8 scenario_def = Some (Ok scenario_level)
  /\ is_terminal (status started_run) = false
  /\ location (player started_run) = "Start"
  /\ (let o := move (repository_source scenario_repository) counting_clock
                 "ann@example.com" "scenario" started_run "North" empty_world in
      raised o = Some (AttributeError "'dict' object has no attribute 'map'")
      /\ state_after o = started_run
      /\ message (state_after o) = None
      /\ event_log (state_after o) = []
      /\ world_after o = empty_world
      /\ get_active "ann@example.com" (world_after o) = None)
  /\ (let o := move (one_level scenario_level) counting_clock
                 "ann@example.com" "scenario" started_run "North" empty_world in
      raised o = None
      /\ message (state_after o) = Some "You bumped into a wall."
      /\ event_log (state_after o) = ["Bumped into a wall"]
      /\ exists sv, get_active "ann@example.com" (world_after o) = Some sv
                    /\ save_state sv = state_after o).
Proof.
  split; [reflexivity|]. split; [exact from_definition_scenario|].
  split; [reflexivity|]. split; [reflexivity|]. split.
  - cbv zeta. vm_compute. repeat split.
  - cbv zeta. vm_compute. repeat split. eexists. split; reflexivity.
Qed.

(** A level built by the factory holds the method
    [difficulty.scoring_policy] in [scoring], not a strategy. *)
Lemma scoring_calculate_bound_method (lvl : Level) (s : GameState)
    (d : Difficulty) (f : Difficulty -> ScoreStrategy) :
  scoring lvl = BoundMethod d f ->
  scoring_calculate lvl s
  = Raise (AttributeError "'function' object has no attribute 'calculate'").
Proof. intros H. unfold scoring_calculate. now rewrite H. Qed.

Lemma from_definition_scoring (fuel : nat) (defn : LevelDef) (lvl : Level) :
  from_definition fuel defn = Some (Ok lvl) ->
  exists d, scoring lvl = BoundMethod d scoring_policy
            /\ visibility lvl = BoundMethod d visibility_policy
            /\ difficulty lvl = Member d.
Proof.
  unfold from_definition.
  destruct (build_graph defn) as [[[g req] start]|e]; [|discriminate].
  destruct (compute_optimal_moves fuel g start req) as [[opt|e]|];
    [|discriminate|discriminate].
  destruct (getitem "difficulty" (def_difficulty defn)) as [label|e];
    [|discriminate]. simpl.
  destruct (Difficulty_of_value label) as [d|e]; [|discriminate]. simpl.
  destruct (getitem "id" (def_id defn)) as [id|e]; [|discriminate]. simpl.
  destruct (getitem "name" (def_name defn)) as [name|e]; [|discriminate]. simpl.
  intros [= <-]. now exists d.
Qed.

(** C2 (at the failing input). On the level the factory builds from the
    scenario definition, the move East from the start room ends the run
    (GAME_OVER); the controller then raises [AttributeError] while asking
    the level's [scoring] field for [calculate], after the state was
    updated: no result record is appended and the user still has an
    active-session record.  With the in-memory level repository as level
    source the run does not even start: [start_new_run] raises
    [AttributeError] at [level.start_room]. *)
Theorem move_finalize_on_factory_level :
  from_definition 8 scenario_def = Some (Ok scenario_level)
  /\ start_new_run (one_level scenario_level) counting_clock
       "ann@example.com" "scenario" empty_world
     = (Ok fresh_run, fresh_world)
  /\ (let o := move (one_level scenario_level) counting_clock
                 "ann@example.com" "scenario" fresh_run "East" fresh_world in
      raised o
      = Some (AttributeError "'function' object has no attribute 'calculate'")
      /\ status (state_after o) = GAME_OVER
      /\ location (player (state_after o)) = "End"
      /\ history (world_after o) = []
      /\ has_active_run "ann@example.com" (world_after o) = true)
  /\ start_new_run (repository_source scenario_repository) counting_clock
       "ann@example.com" "scenario" empty_world
     = (Raise (AttributeError "'dict' object has no attribute 'start_room'"),
        empty_world).
Proof.
  split; [exact from_definition_scenario|].
  split; [exact start_new_run_scenario|].
  split; [|reflexivity].
  cbv zeta. vm_compute. repeat split.
Qed.

(** ** Serialization (serialization.py) *)

Lemma GameStatus_value_roundtrip (st : GameStatus) :
  GameStatus_of_value (status_value st) = Ok st.
Proof. destruct st; reflexivity. Qed.

Lemma gamestate_roundtrip_full
    (isoformat : datetime -> string) (fromisoformat : string -> result datetime)
    (s : GameState) :
  fromisoformat (isoformat (started_at s)) = Ok (started_at s) ->
  fromisoformat (isoformat (updated_at s)) = Ok (updated_at s) ->
  gamestate_from_dict fromisoformat (gamestate_to_dict isoformat s) = Ok s.
Proof.
  intros Hstart Hupd. unfold gamestate_from_dict, gamestate_to_dict. simpl.
  rewrite GameStatus_value_roundtrip. simpl. rewrite Hstart. simpl.
  rewrite Hupd. simpl.
  destruct s as [[loc inv] vis col mc st msg log t0 t1 ev]. simpl.
  now rewrite !list_to_set_elements_L.
Qed.

(** C9. Serializing a state and deserializing the dictionary returns a
    state (no exception) whose player location, player inventory, move
    count, status and event log are those of the original, the event log
    in the same order; the two timestamps are assumed to survive
    [isoformat]/[fromisoformat], as Python's [datetime] guarantees. *)
Theorem gamestate_roundtrip
    (isoformat : datetime -> string) (fromisoformat : string -> result datetime)
    (s : GameState) :
  fromisoformat (isoformat (started_at s)) = Ok (started_at s) ->
  fromisoformat (isoformat (updated_at s)) = Ok (updated_at s) ->
  exists s',
    gamestate_from_dict fromisoformat (gamestate_to_dict isoformat s) = Ok s'
    /\ location (player s') = location (player s)
    /\ inventory (player s') = inventory (player s)
    /\ move_count s' = move_count s
    /\ status s' = status s
    /\ event_log s' = event_log s.
Proof.
  intros Hstart Hupd. exists s.
  split; [now apply gamestate_roundtrip_full|]. repeat split.
Qed.

Lemma gamestate_roundtrip_witness :
  exists s',
    gamestate_from_dict (fun _ => Ok 0)
      (gamestate_to_dict (fun _ => "1970-01-01T00:00:00+00:00") holding_X)
    = Ok s'
    /\ location (player s') = "Start"
    /\ inventory (player s') = ∅
    /\ move_count s' = 2
    /\ status s' = IN_PROGRESS
    /\ event_log s' = ["Collected X"].
Proof.
  exact (gamestate_roundtrip (fun _ => "1970-01-01T00:00:00+00:00")
           (fun _ => Ok 0) holding_X eq_refl eq_refl).
Defined.

(** ** Scoring (scoring.py) *)

Lemma status_eqb_eq (a b : GameStatus) : status_eqb a b = true <-> a = b.
Proof. destruct a, b; simpl; split; congruence. Qed.

(** The exceptions of the arithmetic: only the division of two ints can
    raise [ZeroDivisionError], and only for a zero divisor. *)
Lemma truediv_ZeroDivisionError (a b : Z) :
  truediv a b = Raise ZeroDivisionError <-> b = 0.
Proof.
  unfold truediv. destruct (b =? 0) eqn:Hb.
  - apply Z.eqb_eq in Hb. tauto.
  - apply Z.eqb_neq in Hb. split; [|contradiction].
    destruct (SFdiv prec emax (int_operand a) (int_operand b)); discriminate.
Qed.

Lemma float_of_int_not_ZeroDivisionError (n : Z) :
  float_of_int n <> Raise ZeroDivisionError.
Proof.
  unfold float_of_int. destruct (binary_normalize prec emax n 0 false); discriminate.
Qed.

Lemma int_mul_float_not_ZeroDivisionError (n : Z) (x : float) :
  int_mul_float n x <> Raise ZeroDivisionError.
Proof.
  unfold int_mul_float. pose proof (float_of_int_not_ZeroDivisionError n) as H.
  destruct (float_of_int n) as [f|e]; simpl; congruence.
Qed.

Lemma int_add_float_not_ZeroDivisionError (n : Z) (x : float) :
  int_add_float n x <> Raise ZeroDivisionError.
Proof.
  unfold int_add_float. pose proof (float_of_int_not_ZeroDivisionError n) as H.
  destruct (float_of_int n) as [f|e]; simpl; congruence.
Qed.

Lemma py_int_not_ZeroDivisionError (x : float) :
  py_int x <> Raise ZeroDivisionError.
Proof. destruct x; discriminate. Qed.

Lemma multiplier_item_not_ZeroDivisionError (k : difficulty_attr) :
  multiplier_item k <> Raise ZeroDivisionError.
Proof.
  destruct k as [d|label]; simpl; [discriminate|].
  unfold dict_item. destruct (dict_get label DIFFICULTY_MULTIPLIER); discriminate.
Qed.

(** When nothing is required the progress ratio is 0.0 and no division
    takes place. *)
Lemma progress_score_nothing_required (s : GameState) (lvl : Level) :
  len (required_items (rules lvl)) = 0 -> progress_score s lvl = Ok 0.
Proof. intros H. unfold progress_score. rewrite H. reflexivity. Qed.

Lemma progress_score_not_ZeroDivisionError (s : GameState) (lvl : Level) :
  progress_score s lvl <> Raise ZeroDivisionError.
Proof.
  destruct (Z.eq_dec (len (required_items (rules lvl))) 0) as [Hreq|Hreq].
  - rewrite progress_score_nothing_required by exact Hreq. discriminate.
  - unfold progress_score.
    pose proof Hreq as Hreq'. apply Z.eqb_neq in Hreq'. rewrite Hreq'.
    pose proof (truediv_ZeroDivisionError (len (collected_items s))
                  (len (required_items (rules lvl)))) as Hdiv.
    destruct (truediv (len (collected_items s)) (len (required_items (rules lvl))))
      as [q|e]; cbn [bind negb].
    + pose proof (int_mul_float_not_ZeroDivisionError MAX_PROGRESS_SCORE q).
      destruct (int_mul_float MAX_PROGRESS_SCORE q); cbn [bind negb]; [|congruence].
      apply py_int_not_ZeroDivisionError.
    + intros [= ->]. apply Hreq, Hdiv. reflexivity.
Qed.

Lemma StandardScore_calculate_guarded (s : GameState) (lvl : Level) :
  status s <> COMPLETED \/ 1 <= move_count s ->
  StandardScore_calculate s lvl <> Raise ZeroDivisionError.
Proof.
  intros Hpre. unfold StandardScore_calculate.
  pose proof (progress_score_not_ZeroDivisionError s lvl) as Hp.
  destruct (progress_score s lvl) as [p|e]; cbn [bind negb]; [|congruence].
  destruct (status_eqb (status s) COMPLETED) eqn:Hst; cbn [bind negb]; [|discriminate].
  apply status_eqb_eq in Hst.
  assert (Hmc : move_count s <> 0) by (destruct Hpre; [contradiction|lia]).
  destruct (optimal_moves lvl) as [opt|]; cbn [bind negb]; [|discriminate].
  pose proof (truediv_ZeroDivisionError opt (move_count s)) as Hdiv.
  destruct (truediv opt (move_count s)) as [q|e]; cbn [bind negb];
    [|intros [= ->]; apply Hmc, Hdiv; reflexivity].
  pose proof (int_mul_float_not_ZeroDivisionError MAX_EFFICIENCY_SCORE (min_one q)).
  destruct (int_mul_float MAX_EFFICIENCY_SCORE (min_one q)) as [x|e]; cbn [bind negb];
    [|congruence].
  pose proof (py_int_not_ZeroDivisionError x).
  destruct (py_int x) as [es|e]; cbn [bind negb]; [|congruence].
  pose proof (multiplier_item_not_ZeroDivisionError (difficulty lvl)).
  destruct (multiplier_item (difficulty lvl)) as [m|e]; cbn [bind negb]; [|congruence].
  pose proof (int_mul_float_not_ZeroDivisionError es m).
  destruct (int_mul_float es m) as [wt|e]; cbn [bind negb]; [|congruence].
  pose proof (int_add_float_not_ZeroDivisionError (WIN_BASE + p) wt).
  destruct (int_add_float (WIN_BASE + p) wt) as [t|e]; cbn [bind negb]; [|congruence].
  apply py_int_not_ZeroDivisionError.
Qed.

Lemma StandardScore_calculate_raises_on_member
    (s : GameState) (lvl : Level) (d : Difficulty) :
  difficulty lvl = Member d ->
  status s = COMPLETED ->
  exists e, StandardScore_calculate s lvl = Raise e.
Proof.
  intros Hd Hst. unfold StandardScore_calculate.
  destruct (progress_score s lvl) as [p|e]; cbn [bind negb]; [|eauto].
  rewrite Hst, Hd. cbn [bind negb].
  destruct (optimal_moves lvl) as [opt|]; cbn [bind negb]; [|eauto].
  destruct (truediv opt (move_count s)) as [q|e]; cbn [bind negb]; [|eauto].
  destruct (int_mul_float MAX_EFFICIENCY_SCORE (min_one q)) as [x|e]; cbn [bind negb];
    [|eauto].
  destruct (py_int x) as [es|e]; cbn [bind negb]; eauto.
Qed.

(** X9. A [Difficulty] member is no key of the multiplier table: on a
    COMPLETED state [StandardScore.calculate] returns no score for a level
    whose [difficulty] is a member, which is what the factory stores. *)
Lemma StandardScore_calculate_member
    (s : GameState) (lvl : Level) (d : Difficulty) :
  difficulty lvl = Member d ->
  status s = COMPLETED ->
  exists e, StandardScore_calculate s lvl = Raise e.
Proof.
  intros Hd Hst. unfold StandardScore_calculate.
  destruct (progress_score s lvl) as [p|e]; cbn [bind negb]; [|eauto].
  rewrite Hst, Hd. cbn [bind negb].
  destruct (optimal_moves lvl) as [opt|]; cbn [bind negb]; [|eauto].
  destruct (truediv opt (move_count s)) as [q|e]; cbn [bind negb]; [|eauto].
  destruct (int_mul_float MAX_EFFICIENCY_SCORE (min_one q)) as [x|e]; cbn [bind negb];
    [|eauto].
  destruct (py_int x) as [es|e]; cbn [bind negb]; eauto.
Qed.

(** C3 (at the failing input). The factory builds [scenario_level] with
    the member [Difficulty.EASY] in [difficulty]; on a COMPLETED state of
    that level (1 of 1 items, 3 moves, optimum 1) [StandardScore.calculate]
    raises [KeyError], where the formula of the claim gives
    1000 + 500 + floor(333 × 0.75) = 1749, the value the code returns when
    the field holds the label "easy". *)
Theorem StandardScore_calculate_on_factory_level :
  from_definition 8 scenario_def = Some (Ok scenario_level)
  /\ StandardScore_calculate won_state scenario_level
     = Raise (KeyError "Difficulty.EASY")
  /\ spec_completed_score EASY 1 1 1 3 = 1749
  /\ StandardScore_calculate won_state scenario_level_by_hand = Ok 1749.
Proof.
  split; [exact from_definition_scenario|]. repeat split; vm_compute; reflexivity.
Qed.

(** On a COMPLETED state with at least one move, a level the factory
    built gets no score, and the exception is not a division by zero. *)
Lemma StandardScore_calculate_on_member
    (s : GameState) (lvl : Level) (d : Difficulty) :
  difficulty lvl = Member d ->
  status s = COMPLETED ->
  1 <= move_count s ->
  exists e, StandardScore_calculate s lvl = Raise e /\ e <> ZeroDivisionError.
Proof.
  intros Hd Hst Hmc.
  destruct (StandardScore_calculate_raises_on_member s lvl d Hd Hst) as [e He].
  exists e. split; [exact He|]. intros ->.
  apply (StandardScore_calculate_guarded s lvl); [right; exact Hmc|exact He].
Qed.

(** C10 (the divergence). For every level the factory builds and every
    COMPLETED state with [move_count] ≥ 1, a pair that meets the
    precondition of the claim, [StandardScore.calculate] raises an
    exception: it is not total there.  The exception is never
    [ZeroDivisionError]; it comes from the multiplier lookup, the
    [difficulty] of such a level being an enum member. *)
Theorem StandardScore_calculate_not_total
    (fuel : nat) (defn : LevelDef) (lvl : Level) (s : GameState) :
  from_definition fuel defn = Some (Ok lvl) ->
  status s = COMPLETED ->
  1 <= move_count s ->
  exists e, StandardScore_calculate s lvl = Raise e /\ e <> ZeroDivisionError.
Proof.
  intros Hbuilt Hst Hmc.
  destruct (from_definition_scoring fuel defn lvl Hbuilt) as (d & _ & _ & Hd).
  exact (StandardScore_calculate_on_member s lvl d Hd Hst Hmc).
Qed.

Lemma StandardScore_calculate_not_total_witness :
  exists e, StandardScore_calculate won_state scenario_level = Raise e
            /\ e <> ZeroDivisionError.
Proof.
  apply (StandardScore_calculate_not_total 8 scenario_def scenario_level won_state).
  - exact from_definition_scenario.
  - reflexivity.
  - simpl. lia.
Defined.

(** An exception of the base strategy passes through the penalized one. *)
Lemma MaxMovesScore_calculate_raises (s : GameState) (lvl : Level) (e : exn) :
  StandardScore_calculate s lvl = Raise e ->
  MaxMovesScore_calculate s lvl = Raise e.
Proof. intros H. unfold MaxMovesScore_calculate. now rewrite H. Qed.

(** C8 (the divergence). For every level the factory builds and every
    COMPLETED state, [MaxMovesScore.calculate] returns no value to compare:
    the base strategy raises (the multiplier lookup with an enum member,
    unless the arithmetic before it already failed) and the penalized
    strategy raises the same exception. *)
Theorem MaxMovesScore_calculate_on_factory_level
    (fuel : nat) (defn : LevelDef) (lvl : Level) (s : GameState) :
  from_definition fuel defn = Some (Ok lvl) ->
  status s = COMPLETED ->
  exists e, StandardScore_calculate s lvl = Raise e
            /\ MaxMovesScore_calculate s lvl = Raise e.
Proof.
  intros Hbuilt Hst.
  destruct (from_definition_scoring fuel defn lvl Hbuilt) as (d & _ & _ & Hd).
  destruct (StandardScore_calculate_raises_on_member s lvl d Hd Hst) as [e He].
  exists e. split; [exact He|]. now apply MaxMovesScore_calculate_raises.
Qed.

(** X13. Under the precondition "status is not COMPLETED or move_count ≥
    1" [StandardScore.calculate] never raises [ZeroDivisionError], whatever
    the level; when nothing is required the progress score is 0 without a
    division; a state that is not COMPLETED is scored by its progress
    alone; and the precondition is what guards the efficiency division: a
    COMPLETED state with [move_count] = 0 and a numeric [optimal_moves]
    raises [ZeroDivisionError]. *)
Theorem StandardScore_calculate_no_division_by_zero
    (s : GameState) (lvl : Level) :
  (status s <> COMPLETED \/ 1 <= move_count s ->
   StandardScore_calculate s lvl <> Raise ZeroDivisionError)
  /\ (len (required_items (rules lvl)) = 0 -> progress_score s lvl = Ok 0)
  /\ (status s <> COMPLETED ->
      StandardScore_calculate s lvl = progress_score s lvl)
  /\ (forall opt p,
        status s = COMPLETED -> move_count s = 0 ->
        optimal_moves lvl = Some opt -> progress_score s lvl = Ok p ->
        StandardScore_calculate s lvl = Raise ZeroDivisionError).
Proof.
  split; [apply StandardScore_calculate_guarded|].
  split; [apply progress_score_nothing_required|]. split.
  - intros Hst. unfold StandardScore_calculate.
    destruct (progress_score s lvl) as [p|e]; cbn [bind]; [|reflexivity].
    destruct (status_eqb (status s) COMPLETED) eqn:Heq; [|reflexivity].
    apply status_eqb_eq in Heq. contradiction.
  - intros opt p Hst Hmc Hopt Hp. unfold StandardScore_calculate.
    rewrite Hp, Hst, Hopt, Hmc. reflexivity.
Qed.

Lemma StandardScore_calculate_no_division_by_zero_witness :
  StandardScore_calculate won_state scenario_level <> Raise ZeroDivisionError
  /\ StandardScore_calculate fresh_run scenario_level = Ok 0.
Proof.
  destruct (StandardScore_calculate_no_division_by_zero won_state scenario_level)
    as (H & _).
  split; [apply H; right; simpl; lia|].
  destruct (StandardScore_calculate_no_division_by_zero fresh_run scenario_level)
    as (_ & _ & H3 & _).
  rewrite H3 by discriminate. vm_compute. reflexivity.
Defined.

(** X12. [MaxMovesScore.calculate] answers as [StandardScore.calculate]
    does, with the same score or the same exception, unless the base
    strategy returned a score for a COMPLETED state whose [move_count]
    exceeds a numeric [optimal_moves]: only there is a penalty computed. *)
Theorem MaxMovesScore_calculate_same_as_StandardScore
    (s : GameState) (lvl : Level) :
  MaxMovesScore_calculate s lvl = StandardScore_calculate s lvl
  \/ (status s = COMPLETED
      /\ exists opt base,
           optimal_moves lvl = Some opt /\ opt < move_count s
           /\ StandardScore_calculate s lvl = Ok base).
Proof.
  unfold MaxMovesScore_calculate.
  destruct (StandardScore_calculate s lvl) as [base|e]; cbn [bind]; [|now left].
  destruct (status_eqb (status s) COMPLETED) eqn:Hst; cbn [negb]; [|now left].
  apply status_eqb_eq in Hst.
  destruct (optimal_moves lvl) as [opt|]; [|now left].
  destruct (move_count s <=? opt) eqn:Hle; [now left|].
  apply Z.leb_gt in Hle. right. split; [exact Hst|]. now exists opt, base.
Qed.

(** The penalty is computed in binary64: with the label "hard", six of six
    items, an optimum of 15 and 26 moves the base score is 2220 and the
    product 2220 × (11/15) × 0.5 is the float just below 814, so that the
    penalty is 813 and the result 1407, where the formula over the
    rationals gives 814 and 1406. *)
Lemma overage_penalty_binary64 :
  StandardScore_calculate slow_win labelled_hard_level = Ok 2220
  /\ MaxMovesScore_calculate slow_win labelled_hard_level = Ok 1407
  /\ spec_completed_score HARD 6 6 15 26 = 2220
  /\ spec_penalty 2220 26 15 = 814.
Proof. repeat split; vm_compute; reflexivity. Qed.

Lemma from_definition_hard : from_definition 8 hard_def = Some (Ok hard_level).
Proof. vm_compute. reflexivity. Qed.

Lemma MaxMovesScore_calculate_on_factory_level_witness :
  exists e, StandardScore_calculate won_state hard_level = Raise e
            /\ MaxMovesScore_calculate won_state hard_level = Raise e.
Proof.
  apply (MaxMovesScore_calculate_on_factory_level 8 hard_def hard_level won_state).
  - exact from_definition_hard.
  - reflexivity.
Defined.

(** ** The solvability search (validation.py) on two concrete levels *)

(** C1 (at the failing input). The factory accepts [decoy_def] with
    [optimal_moves] = 0: the search stops in the start room because its
    relic is named "Villain".  The walk of 0 moves ends in the start room,
    which does not hold the villain item, and no walk at all wins, the
    start room having no exit. *)
Theorem from_definition_accepts_decoy :
  from_definition 8 decoy_def = Some (Ok decoy_level)
  /\ optimal_moves decoy_level = Some 0
  /\ holds_villain (map decoy_level) (start_room decoy_level) = false
  /\ forall rs,
       winning_walk (map decoy_level) (start_room decoy_level)
         (required_items (rules decoy_level)) rs = false.
Proof.
  split; [vm_compute; reflexivity|].
  split; [reflexivity|]. split; [reflexivity|].
  intros [|r rs]; reflexivity.
Qed.

Lemma last_cons_default {A} (a d : A) (l : list A) :
  List.last (a :: l) d = List.last l a.
Proof.
  revert a d. induction l as [|b l IH]; intros a d; [reflexivity|].
  change (List.last (a :: b :: l) d) with (List.last (b :: l) d).
  now rewrite !(IH b).
Qed.

Lemma sealed_walks_avoid_lair (rs : list string) (r : string) :
  r = "Start" \/ r = "Hall" ->
  is_walk sealed_map r rs = true ->
  List.last rs r = "Start" \/ List.last rs r = "Hall".
Proof.
  revert r. induction rs as [|nxt rs IH]; intros r Hr Hwalk; [exact Hr|].
  assert (Hnxt : (nxt = "Start" \/ nxt = "Hall") /\ is_walk sealed_map nxt rs = true).
  { destruct Hr as [-> | ->]; simpl in Hwalk;
      rewrite orb_false_r in Hwalk; apply andb_true_iff in Hwalk as [Heq Hw];
      apply String.eqb_eq in Heq; subst nxt; auto. }
  destruct Hnxt as [Hnxt Hw].
  rewrite last_cons_default. exact (IH nxt Hnxt Hw).
Qed.

(** C6 (at the failing input). In [sealed_def] no exit leads to the room
    of the villain, so no walk wins; the factory does not fail but returns
    a level with [optimal_moves] = 1, the search having stopped in the
    hall whose relic is named "Villain". *)
Theorem from_definition_accepts_sealed :
  from_definition 8 sealed_def = Some (Ok sealed_level)
  /\ optimal_moves sealed_level = Some 1
  /\ forall rs,
       winning_walk (map sealed_level) (start_room sealed_level)
         (required_items (rules sealed_level)) rs = false.
Proof.
  split; [vm_compute; reflexivity|]. split; [reflexivity|].
  intros rs. unfold winning_walk. simpl map. simpl start_room.
  destruct (is_walk sealed_map "Start" rs) eqn:Hwalk; [|reflexivity].
  apply andb_false_iff. right.
  destruct (sealed_walks_avoid_lair rs "Start" (or_introl eq_refl) Hwalk)
    as [-> | ->]; reflexivity.
Qed.

(** ** Termination of the search *)

Lemma subsets_complete (l : list string) (items : gset string) :
  items ⊆ list_to_set l -> In items (subsets l).
Proof.
  revert items. induction l as [|a l IH]; intros items Hsub; simpl in *.
  - left. symmetry. apply leibniz_equiv. set_solver.
  - apply in_or_app. destruct (decide (a ∈ items)) as [Hin|Hout].
    + right. apply in_map_iff. exists (items ∖ {[ a ]}). split.
      * apply leibniz_equiv. intros x. rewrite elem_of_union, elem_of_difference,
          elem_of_singleton. destruct (decide (x = a)); set_solver.
      * apply IH. set_solver.
    + left. apply IH. set_solver.
Qed.

Lemma pick_up_subseteq (required : gset string) (i : option Item)
    (items : gset string) :
  items ⊆ required -> pick_up required i items ⊆ required.
Proof.
  intros Hsub. unfold pick_up. destruct i as [it|]; [|exact Hsub].
  case_bool_decide; set_solver.
Qed.

Lemma dict_get_Some_key {V} (k : string) (d : dict V) (v : V) :
  dict_get k d = Some v -> In k (dict_keys d).
Proof.
  intros H. apply dict_get_Some_In in H. unfold dict_keys.
  apply in_map_iff. now exists (k, v).
Qed.

Lemma dict_get_Some_value {V} (k : string) (d : dict V) (v : V) :
  dict_get k d = Some v -> In v (dict_values d).
Proof.
  intros H. apply dict_get_Some_In in H. unfold dict_values.
  apply in_map_iff. now exists (k, v).
Qed.

Lemma in_search_space (g : MapGraph) (required : gset string)
    (r : string) (rm : Room) (items : gset string) :
  dict_get r (rooms g) = Some rm -> items ⊆ required ->
  In (r, items) (search_space g required).
Proof.
  intros Hr Hsub. unfold search_space. apply in_prod.
  - eapply dict_get_Some_key, Hr.
  - apply subsets_complete. now rewrite list_to_set_elements_L.
Qed.

Lemma unvisited_mono (space : list (string * gset string))
    (visited : gset (string * gset string)) (x : string * gset string) :
  (unvisited space (visited ∪ {[ x ]}) <= unvisited space visited)%nat.
Proof.
  unfold unvisited. induction space as [|y space IH]; simpl; [lia|].
  repeat case_bool_decide; simpl; try lia. set_solver.
Qed.

Lemma unvisited_decreases (space : list (string * gset string))
    (visited : gset (string * gset string)) (x : string * gset string) :
  In x space -> x ∉ visited ->
  (unvisited space (visited ∪ {[ x ]}) < unvisited space visited)%nat.
Proof.
  intros Hin Hnew. induction space as [|y space IH]; [contradiction|].
  pose proof (unvisited_mono space visited x) as Hmono.
  unfold unvisited in *. simpl.
  destruct Hin as [-> | Hin].
  - rewrite (bool_decide_eq_true_2 (x ∈ visited ∪ {[ x ]})) by set_solver.
    rewrite (bool_decide_eq_false_2 (x ∈ visited)) by exact Hnew.
    simpl. lia.
  - specialize (IH Hin).
    repeat case_bool_decide; simpl; try lia. set_solver.
Qed.

Lemma exits_le_exit_count (g : MapGraph) (r : string) (rm : Room) :
  dict_get r (rooms g) = Some rm -> (length (exits rm) <= exit_count g)%nat.
Proof.
  intros H. apply dict_get_Some_value in H. unfold exit_count.
  induction (dict_values (rooms g)) as [|rm' l IH]; [contradiction|].
  simpl. destruct H as [-> | H]; [lia|]. specialize (IH H). lia.
Qed.

Lemma bfs_loop_enough_fuel (g : MapGraph) (required : gset string) :
  forall (fuel : nat) (visited : gset (string * gset string))
         (queue : list queue_entry),
    queue_within required queue ->
    (search_bound g required visited queue < fuel)%nat ->
    exists res, bfs_loop fuel g required visited queue = Some res.
Proof.
  induction fuel as [|fuel IH]; intros visited queue Hq Hfuel; [lia|].
  destruct queue as [|[[r items] dist] queue]; simpl; [eauto|].
  apply Forall_cons in Hq as [Hitems Hq]. simpl in Hitems.
  unfold search_bound in Hfuel. simpl in Hfuel.
  case_bool_decide as Hseen.
  - apply IH; [exact Hq|]. unfold search_bound. lia.
  - unfold dict_item. destruct (dict_get r (rooms g)) as [rm|] eqn:Hr; [|eauto].
    destruct (goal_reached _ _ _); [eauto|].
    apply IH.
    + apply Forall_app. split; [exact Hq|].
      apply Forall_forall. intros e He. apply list_elem_of_In, in_map_iff in He as (nxt & <- & _).
      simpl. now apply pick_up_subseteq.
    + pose proof (unvisited_decreases _ visited (r, items)
                    (in_search_space g required r rm items Hr Hitems) Hseen).
      pose proof (exits_le_exit_count g r rm Hr).
      unfold search_bound. rewrite length_app, length_map.
      unfold dict_values. rewrite length_map. nia.
Qed.

Lemma bfs_loop_more_fuel (g : MapGraph) (required : gset string) :
  forall (fuel fuel' : nat) (visited : gset (string * gset string))
         (queue : list queue_entry) (res : result Z),
    bfs_loop fuel g required visited queue = Some res ->
    (fuel <= fuel')%nat ->
    bfs_loop fuel' g required visited queue = Some res.
Proof.
  induction fuel as [|fuel IH]; intros fuel' visited queue res Hrun Hle.
  - destruct queue as [|[[r items] dist] queue]; simpl in Hrun; [|discriminate].
    destruct fuel'; exact Hrun.
  - destruct fuel' as [|fuel']; [lia|].
    destruct queue as [|[[r items] dist] queue]; simpl in *; [exact Hrun|].
    case_bool_decide.
    + apply (IH fuel'); [exact Hrun|lia].
    + destruct (dict_item r (rooms g)) as [rm|e]; [|exact Hrun].
      destruct (goal_reached _ _ _); [exact Hrun|].
      apply (IH fuel'); [exact Hrun|lia].
Qed.

(** What the loop can answer: a distance of a queued entry, "not
    solvable", or the [KeyError] of a room missing from the map. *)
Lemma bfs_loop_answers (g : MapGraph) (required : gset string) :
  forall (fuel : nat) (visited : gset (string * gset string))
         (queue : list queue_entry) (res : result Z),
    bfs_loop fuel g required visited queue = Some res ->
    (exists n, res = Ok n /\ forall lo, Forall (fun e => lo <= e.2) queue -> lo <= n)
    \/ res = Raise (LevelValidationError NotSolvable)
    \/ exists r, res = Raise (KeyError r) /\ dict_get r (rooms g) = None.
Proof.
  induction fuel as [|fuel IH]; intros visited queue res Hrun.
  - destruct queue as [|[[r items] dist] queue]; simpl in Hrun; [|discriminate].
    injection Hrun as <-. auto.
  - destruct queue as [|[[r items] dist] queue]; simpl in Hrun.
    + injection Hrun as <-. auto.
    + case_bool_decide.
      * destruct (IH _ _ _ Hrun) as [(n & -> & Hn) | H']; [|auto].
        left. exists n. split; [reflexivity|]. intros lo Hlo.
        apply Forall_cons in Hlo as [_ Hlo]. auto.
      * unfold dict_item in Hrun.
        destruct (dict_get r (rooms g)) as [rm|] eqn:Hr.
        -- destruct (goal_reached _ _ _).
           ++ injection Hrun as <-. left. exists dist. split; [reflexivity|].
              intros lo Hlo. apply Forall_cons in Hlo as [Hd _]. exact Hd.
           ++ destruct (IH _ _ _ Hrun) as [(n & -> & Hn) | H']; [|auto].
              left. exists n. split; [reflexivity|]. intros lo Hlo.
              apply Forall_cons in Hlo as [Hd Hlo]. simpl in Hd.
              apply Hn. apply Forall_app. split; [exact Hlo|].
              apply Forall_forall. intros e He.
              apply list_elem_of_In, in_map_iff in He as (nxt & <- & _). simpl. lia.
        -- injection Hrun as <-. right. right. eauto.
Qed.

(** With any fuel above [search_bound] the search answers, always the
    same: a move count that is not negative, "not solvable", or the
    [KeyError] of a room name that is no key of the map. *)
Lemma search_terminates
    (g : MapGraph) (start : string) (required : gset string) :
  exists res,
    (forall fuel,
        (search_bound g required ∅ [(start, ∅, 0%Z)] < fuel)%nat ->
        compute_optimal_moves fuel g start required = Some res)
    /\ ((exists n, res = Ok n /\ 0 <= n)
        \/ res = Raise (LevelValidationError NotSolvable)
        \/ exists r, res = Raise (KeyError r) /\ dict_get r (rooms g) = None).
Proof.
  unfold compute_optimal_moves.
  set (bound := search_bound g required ∅ [(start, ∅, 0)]).
  assert (Hq : queue_within required [(start, ∅, 0)]).
  { apply Forall_cons. split; [simpl; set_solver|constructor]. }
  destruct (bfs_loop_enough_fuel g required (S bound) ∅ _ Hq) as [res Hres];
    [unfold bound; lia|].
  exists res. split.
  - intros fuel Hfuel. eapply bfs_loop_more_fuel; [exact Hres|lia].
  - destruct (bfs_loop_answers g required _ _ _ _ Hres)
      as [(n & -> & Hn) | [-> | H']]; [|auto|auto].
    left. exists n. split; [reflexivity|]. apply Hn.
    apply Forall_cons. split; [simpl; lia|constructor].
Qed.

(** ** Soundness of the search: an answer is the length of a walk *)

Lemma room_item_get (g : MapGraph) (r : string) (rm : Room) :
  dict_get r (rooms g) = Some rm -> room_item g r = item rm.
Proof. intros H. unfold room_item. now rewrite H. Qed.

Lemma is_walk_snoc (g : MapGraph) (start : string) (rs : list string)
    (rm : Room) (nxt : string) :
  is_walk g start rs = true ->
  dict_get (List.last rs start) (rooms g) = Some rm ->
  In nxt (dict_values (exits rm)) ->
  is_walk g start (rs ++ [nxt]) = true.
Proof.
  revert start. induction rs as [|r rs IH]; intros start Hwalk Hlast Hnxt.
  - simpl in *. rewrite Hlast. rewrite andb_true_r.
    apply existsb_exists. exists nxt. split; [exact Hnxt|apply String.eqb_refl].
  - rewrite last_cons_default in Hlast. simpl in *.
    destruct (dict_get start (rooms g)) as [rm0|]; [|discriminate].
    apply andb_true_iff in Hwalk as [Hstep Hwalk].
    rewrite Hstep. simpl. now apply IH.
Qed.

Lemma is_walk_snoc_inv (g : MapGraph) (start : string) (rs : list string)
    (nxt : string) :
  is_walk g start (rs ++ [nxt]) = true ->
  is_walk g start rs = true
  /\ exists rm, dict_get (List.last rs start) (rooms g) = Some rm
                /\ In nxt (dict_values (exits rm)).
Proof.
  revert start. induction rs as [|r rs IH]; intros start Hwalk.
  - simpl in *. destruct (dict_get start (rooms g)) as [rm|]; [|discriminate].
    rewrite andb_true_r in Hwalk. apply existsb_exists in Hwalk as (x & Hx & Heq).
    apply String.eqb_eq in Heq. subst x. split; [reflexivity|eauto].
  - rewrite last_cons_default. simpl in *.
    destruct (dict_get start (rooms g)) as [rm0|]; [|discriminate].
    apply andb_true_iff in Hwalk as [Hstep Hwalk]. rewrite Hstep. simpl.
    now apply IH.
Qed.

Lemma picked_snoc (g : MapGraph) (required : gset string)
    (path : list string) (r : string) :
  picked g required (path ++ [r])
  = pick_up required (room_item g r) (picked g required path).
Proof. unfold picked. now rewrite fold_left_app. Qed.

Lemma path_split_last (start : string) (rs : list string) :
  (start :: rs = removelast (start :: rs) ++ [List.last rs start])%list.
Proof.
  rewrite <- (last_cons_default start start rs).
  apply app_removelast_last. discriminate.
Qed.

(** The state after one more room. *)
Lemma state_after_walk_snoc (g : MapGraph) (required : gset string)
    (start : string) (rs : list string) (nxt : string) :
  state_after_walk g required start (rs ++ [nxt])
  = (nxt, pick_up required (room_item g (List.last rs start))
            (state_after_walk g required start rs).2).
Proof.
  unfold state_after_walk. rewrite last_last. f_equal. simpl snd.
  change (start :: rs ++ [nxt])%list with ((start :: rs) ++ [nxt])%list.
  rewrite removelast_last.
  rewrite (path_split_last start rs) at 1. apply picked_snoc.
Qed.

Lemma bfs_loop_sound (g : MapGraph) (required : gset string) (start : string) :
  forall (fuel : nat) (visited : gset search_state) (queue : list queue_entry)
         (n : Z),
    queue_reached g required start queue ->
    bfs_loop fuel g required visited queue = Some (Ok n) ->
    exists rs, search_walk g start required rs = true
               /\ n = Z.of_nat (length rs).
Proof.
  induction fuel as [|fuel IH]; intros visited queue n Hq Hrun.
  - destruct queue as [|[[r items] dist] queue]; simpl in Hrun; discriminate.
  - destruct queue as [|[[r items] dist] queue]; simpl in Hrun; [discriminate|].
    apply Forall_cons in Hq as [(rs & Hwalk & Hstate & Hdist) Hq].
    simpl in Hstate, Hdist.
    case_bool_decide; [now apply (IH _ _ _ Hq Hrun)|].
    unfold dict_item in Hrun.
    destruct (dict_get r (rooms g)) as [rm|] eqn:Hr; [|discriminate].
    assert (Hlast : List.last rs start = r) by now injection Hstate.
    assert (Hitems : picked g required (removelast (start :: rs)) = items)
      by now injection Hstate.
    destruct (goal_reached _ _ _) eqn:Hgoal.
    + injection Hrun as <-. exists rs. split; [|exact Hdist].
      unfold search_walk, goal_in. rewrite Hwalk, Hlast, Hitems.
      rewrite (room_item_get g r rm Hr). exact Hgoal.
    + refine (IH _ _ _ _ Hrun).
      apply Forall_app. split; [exact Hq|].
      apply Forall_forall. intros e He.
      apply list_elem_of_In, in_map_iff in He as (nxt & <- & Hnxt).
      exists (rs ++ [nxt])%list. simpl. repeat split.
      * apply (is_walk_snoc g start rs rm nxt Hwalk); [now rewrite Hlast|exact Hnxt].
      * rewrite state_after_walk_snoc, Hlast, (room_item_get g r rm Hr), Hstate.
        reflexivity.
      * rewrite length_app. simpl. lia.
Qed.

(** ** Optimality of the search: no accepted walk is shorter *)

Lemma two_levels_head (lo d : Z) (s : search_state) (rest : list queue_entry) :
  two_levels lo ((s, d) :: rest) ->
  lo <= d /\ exists q1 q2, rest = (q1 ++ q2)%list
                          /\ Forall (fun e => e.2 = d) q1
                          /\ Forall (fun e => e.2 = d + 1) q2.
Proof.
  intros (q1 & q2 & Heq & H1 & H2). destruct q1 as [|e q1]; simpl in Heq.
  - subst q2. apply Forall_cons in H2 as [Hd H2]. simpl in Hd. split; [lia|].
    exists rest, []. rewrite app_nil_r. repeat split; [|constructor].
    eapply Forall_impl; [exact H2|]. simpl. intros e He. lia.
  - injection Heq as <- ->. apply Forall_cons in H1 as [Hd H1]. simpl in Hd.
    subst d. split; [lia|]. exists q1, q2. auto.
Qed.

Lemma two_levels_ge (d : Z) (queue : list queue_entry) (e : queue_entry) :
  two_levels d queue -> In e queue -> d <= e.2.
Proof.
  intros (q1 & q2 & -> & H1 & H2) Hin. apply in_app_or in Hin as [Hin | Hin].
  - rewrite Forall_forall in H1. apply list_elem_of_In in Hin.
    rewrite (H1 e Hin). lia.
  - rewrite Forall_forall in H2. apply list_elem_of_In in Hin.
    rewrite (H2 e Hin). lia.
Qed.

(** Under the invariant a walk either ends in a visited state dequeued no
    later than the walk is long, or some queued entry is no farther. *)
Lemma search_inv_reach (g : MapGraph) (required : gset string) (start : string)
    (lev : search_state -> Z) (visited : gset search_state)
    (queue : list queue_entry) :
  search_inv g required start lev visited queue ->
  forall rs,
    is_walk g start rs = true ->
    (state_after_walk g required start rs ∈ visited
     /\ lev (state_after_walk g required start rs) <= Z.of_nat (length rs))
    \/ exists e, In e queue /\ e.2 <= Z.of_nat (length rs).
Proof.
  intros (_ & Hsucc & Hstart & _) rs.
  induction rs as [|nxt rs IH] using rev_ind; intros Hwalk.
  - unfold state_after_walk. simpl. destruct Hstart as [[Hin Hlev] | Hin].
    + left. auto.
    + right. exists ((start, ∅) : search_state, 0). split; [exact Hin|simpl; lia].
  - apply is_walk_snoc_inv in Hwalk as (Hwalk & rm & Hrm & Hnxt).
    rewrite length_app. simpl.
    destruct (IH Hwalk) as [[Hin Hlev] | (e & He & Hd)].
    + assert (Hstep : successor g required (state_after_walk g required start rs)
                        (state_after_walk g required start (rs ++ [nxt]))).
      { exists rm, nxt. repeat split; [exact Hrm|exact Hnxt|].
        rewrite state_after_walk_snoc. now rewrite (room_item_get g _ rm Hrm). }
      destruct (Hsucc _ _ Hin Hstep) as [[Hin' Hlev'] | Hin'].
      * left. split; [exact Hin'|lia].
      * right. eexists. split; [exact Hin'|simpl; lia].
    + right. exists e. split; [exact He|lia].
Qed.

Lemma search_walk_goal (g : MapGraph) (required : gset string) (start : string)
    (rs : list string) :
  search_walk g start required rs = true ->
  is_walk g start rs = true
  /\ goal_in g required (state_after_walk g required start rs).1
       (state_after_walk g required start rs).2 = true.
Proof. unfold search_walk. intros H. now apply andb_true_iff in H. Qed.

Lemma search_inv_skip (g : MapGraph) (required : gset string) (start : string)
    (lev : search_state -> Z) (visited : gset search_state)
    (s : search_state) (d : Z) (rest : list queue_entry) :
  s ∈ visited ->
  search_inv g required start lev visited ((s, d) :: rest) ->
  search_inv g required start lev visited rest.
Proof.
  intros Hseen ((lo & Hshape & Hlev) & Hsucc & Hstart & Hgoal).
  apply two_levels_head in Hshape as (Hlo & q1 & q2 & -> & H1 & H2).
  assert (Hlev' : forall v, v ∈ visited -> lev v <= d)
    by (intros v Hv; specialize (Hlev v Hv); lia).
  repeat split.
  - exists d. split; [now exists q1, q2|exact Hlev'].
  - intros v s' Hv Hstep. destruct (Hsucc v s' Hv Hstep) as [H | [Heq | Hin]].
    + now left.
    + injection Heq as <- Hd. left. split; [exact Hseen|].
      specialize (Hlev' s Hseen). lia.
    + now right.
  - destruct Hstart as [H | [Heq | Hin]].
    + now left.
    + injection Heq as <- <-. left. split; [exact Hseen|]. now apply Hlev'.
    + now right.
  - exact Hgoal.
Qed.

Lemma search_inv_visit (g : MapGraph) (required : gset string) (start : string)
    (lev : search_state -> Z) (visited : gset search_state)
    (r : string) (items : gset string) (d : Z) (rest : list queue_entry)
    (rm : Room) :
  (r, items) ∉ visited ->
  dict_get r (rooms g) = Some rm ->
  goal_reached required (item rm) (pick_up required (item rm) items) = false ->
  search_inv g required start lev visited ((r, items, d) :: rest) ->
  search_inv g required start
    (fun x => if decide (x = (r, items)) then d else lev x)
    (visited ∪ {[ (r, items) ]})
    (rest ++ List.map (fun nxt => (nxt, pick_up required (item rm) items, d + 1))
                      (dict_values (exits rm))).
Proof.
  intros Hnew Hrm Hnogoal ((lo & Hshape & Hlev) & Hsucc & Hstart & Hgoal).
  apply two_levels_head in Hshape as (Hlo & q1 & q2 & -> & H1 & H2).
  assert (Hlev' : forall v, v ∈ visited -> lev v <= d)
    by (intros v Hv; specialize (Hlev v Hv); lia).
  assert (Hold : forall v, v ∈ visited -> v <> (r, items))
    by (intros v Hv ->; contradiction).
  repeat split.
  - exists d. split.
    + exists q1, (q2 ++ List.map
                    (fun nxt => (nxt, pick_up required (item rm) items, d + 1))
                    (dict_values (exits rm)))%list.
      rewrite app_assoc. repeat split; [exact H1|].
      apply Forall_app. split; [exact H2|].
      apply Forall_forall. intros e He.
      now apply list_elem_of_In, in_map_iff in He as (nxt & <- & _).
    + intros v Hv. case_decide; [lia|]. apply Hlev'. set_solver.
  - intros v s' Hv (rm' & nxt & Hrm' & Hnxt & ->).
    destruct (decide (v = (r, items))) as [-> | Hne].
    + right. simpl in Hrm'. rewrite Hrm in Hrm'. injection Hrm' as <-.
      apply in_or_app. right. apply in_map_iff. exists nxt. split; [|exact Hnxt].
      reflexivity.
    + assert (Hv' : v ∈ visited) by set_solver.
      destruct (Hsucc v (nxt, pick_up required (item rm') v.2) Hv')
        as [[Hin Hl] | [Heq | Hin]].
      * now exists rm', nxt.
      * left. split; [set_solver|].
        rewrite decide_False by now apply Hold. exact Hl.
      * injection Heq as <- <- ->. left. split; [set_solver|].
        rewrite decide_True by reflexivity. lia.
      * right. apply in_or_app. now left.
  - destruct Hstart as [[Hin Hl] | [Heq | Hin]].
    + left. split; [set_solver|]. rewrite decide_False by now apply Hold. exact Hl.
    + injection Heq as <- <- <-. left. split; [set_solver|].
      rewrite decide_True by reflexivity. lia.
    + right. apply in_or_app. now left.
  - intros v Hv. apply elem_of_union in Hv as [Hv | Hv]; [now apply Hgoal|].
    apply elem_of_singleton in Hv. subst v. unfold goal_in. simpl.
    now rewrite (room_item_get g r rm Hrm).
Qed.

Lemma bfs_loop_optimal (g : MapGraph) (required : gset string) (start : string) :
  forall (fuel : nat) (lev : search_state -> Z) (visited : gset search_state)
         (queue : list queue_entry) (res : result Z),
    search_inv g required start lev visited queue ->
    bfs_loop fuel g required visited queue = Some res ->
    match res with
    | Ok n => forall rs, search_walk g start required rs = true ->
                         n <= Z.of_nat (length rs)
    | Raise (LevelValidationError NotSolvable) =>
        forall rs, search_walk g start required rs = false
    | Raise _ => True
    end.
Proof.
  induction fuel as [|fuel IH]; intros lev visited queue res Hinv Hrun.
  - destruct queue as [|[[r items] dist] queue]; simpl in Hrun; [|discriminate].
    injection Hrun as <-. intros rs.
    destruct (search_walk g start required rs) eqn:Hsw; [|reflexivity].
    apply search_walk_goal in Hsw as [Hwalk Hgoal].
    destruct (search_inv_reach _ _ _ _ _ _ Hinv rs Hwalk)
      as [[Hin _] | (e & [] & _)].
    destruct Hinv as (_ & _ & _ & Hnogoal). rewrite (Hnogoal _ Hin) in Hgoal.
    discriminate.
  - destruct queue as [|[[r items] dist] queue]; simpl in Hrun.
    + injection Hrun as <-. intros rs.
      destruct (search_walk g start required rs) eqn:Hsw; [|reflexivity].
      apply search_walk_goal in Hsw as [Hwalk Hgoal].
      destruct (search_inv_reach _ _ _ _ _ _ Hinv rs Hwalk)
        as [[Hin _] | (e & [] & _)].
      destruct Hinv as (_ & _ & _ & Hnogoal). rewrite (Hnogoal _ Hin) in Hgoal.
      discriminate.
    + case_bool_decide as Hseen.
      * apply (IH lev _ _ _ (search_inv_skip _ _ _ _ _ _ _ _ Hseen Hinv) Hrun).
      * unfold dict_item in Hrun.
        destruct (dict_get r (rooms g)) as [rm|] eqn:Hrm;
          [|injection Hrun as <-; exact I].
        destruct (goal_reached _ _ _) eqn:Hgoal.
        -- injection Hrun as <-. intros rs Hsw.
           apply search_walk_goal in Hsw as [Hwalk Hg].
           destruct (search_inv_reach _ _ _ _ _ _ Hinv rs Hwalk)
             as [[Hin _] | (e & He & Hd)].
           ++ destruct Hinv as (_ & _ & _ & Hnogoal).
              rewrite (Hnogoal _ Hin) in Hg. discriminate.
           ++ destruct Hinv as ((lo & Hshape & _) & _).
              apply two_levels_head in Hshape as (_ & q1 & q2 & -> & H1 & H2).
              assert (Hmin : dist <= e.2); [|lia].
              destruct He as [<- | He]; [simpl; lia|].
              apply (two_levels_ge dist (q1 ++ q2)); [now exists q1, q2|exact He].
        -- apply (IH _ _ _ _
                    (search_inv_visit _ _ _ _ _ _ _ _ _ _ Hseen Hrm Hgoal Hinv)
                    Hrun).
Qed.

Lemma search_inv_initial (g : MapGraph) (required : gset string) (start : string) :
  search_inv g required start (fun _ => 0) ∅ [(start, ∅, 0)].
Proof.
  repeat split.
  - exists 0. split; [|set_solver].
    exists [(start, ∅, 0)], []. repeat split; repeat constructor.
  - set_solver.
  - right. now left.
  - set_solver.
Qed.

Lemma queue_reached_initial (g : MapGraph) (required : gset string) (start : string) :
  queue_reached g required start [(start, ∅, 0)].
Proof. repeat constructor. now exists []. Qed.

Lemma search_sound
    (fuel : nat) (g : MapGraph) (start : string) (required : gset string) (n : Z) :
  compute_optimal_moves fuel g start required = Some (Ok n) ->
  exists rs, search_walk g start required rs = true /\ n = Z.of_nat (length rs).
Proof.
  unfold compute_optimal_moves. intros Hrun.
  apply (bfs_loop_sound g required start fuel ∅ _ n
           (queue_reached_initial g required start) Hrun).
Qed.

Lemma search_minimal
    (fuel : nat) (g : MapGraph) (start : string) (required : gset string) (n : Z) :
  compute_optimal_moves fuel g start required = Some (Ok n) ->
  forall rs, search_walk g start required rs = true -> n <= Z.of_nat (length rs).
Proof.
  unfold compute_optimal_moves. intros Hrun.
  apply (bfs_loop_optimal g required start fuel _ ∅ _ _
           (search_inv_initial g required start) Hrun).
Qed.

(** The search answers "not solvable" only when it accepts no walk. *)
Lemma search_exhausted
    (fuel : nat) (g : MapGraph) (start : string) (required : gset string) :
  compute_optimal_moves fuel g start required
  = Some (Raise (LevelValidationError NotSolvable)) ->
  forall rs, search_walk g start required rs = false.
Proof.
  unfold compute_optimal_moves. intros Hrun.
  apply (bfs_loop_optimal g required start fuel _ ∅ _ _
           (search_inv_initial g required start) Hrun).
Qed.

(** X2. The move count [compute_optimal_moves] returns is the length of a
    shortest walk it accepts: a walk from the start room along declared
    exits that ends in a room whose item is named "Villain" with every
    required name picked up on the way (the start room and the last room
    included); and it answers "not solvable" only when it accepts no
    walk. *)
Theorem compute_optimal_moves_shortest
    (fuel : nat) (g : MapGraph) (start : string) (required : gset string) :
  match compute_optimal_moves fuel g start required with
  | Some (Ok n) =>
      (exists rs, search_walk g start required rs = true
                  /\ n = Z.of_nat (length rs))
      /\ (forall rs, search_walk g start required rs = true ->
                     n <= Z.of_nat (length rs))
  | Some (Raise (LevelValidationError NotSolvable)) =>
      forall rs, search_walk g start required rs = false
  | _ => True
  end.
Proof.
  destruct (compute_optimal_moves fuel g start required) as [[n|e]|] eqn:Hrun;
    [| |exact I].
  - split; [now apply (search_sound fuel)|now apply (search_minimal fuel)].
  - destruct e as [why| | | | | |]; try exact I.
    destruct why; try exact I. now apply (search_exhausted fuel).
Qed.

(** ** The search on maps that follow the naming convention *)

Lemma room_item_conventional (g : MapGraph) (r : string) (it : Item) :
  villain_named_Villain g = true ->
  room_item g r = Some it -> item_conventional it = true.
Proof.
  intros Hconv Hitem. unfold room_item in Hitem.
  destruct (dict_get r (rooms g)) as [rm|] eqn:Hrm; [|discriminate].
  apply dict_get_Some_value in Hrm. unfold villain_named_Villain in Hconv.
  rewrite forallb_forall in Hconv. specialize (Hconv rm Hrm).
  now rewrite Hitem in Hconv.
Qed.

Lemma fold_pick_up_relics (g : MapGraph) (required : gset string) :
  villain_named_Villain g = true -> "Villain" ∉ required ->
  forall (path : list string) (acc : gset string),
    fold_left (fun items r => pick_up required (room_item g r) items) path acc
    = acc ∪ (relics_on g path ∩ required).
Proof.
  intros Hconv Hreq. induction path as [|r path IH]; intros acc; simpl.
  - apply leibniz_equiv. set_solver.
  - rewrite IH. unfold pick_up.
    destruct (room_item g r) as [it|] eqn:Hitem; [|reflexivity].
    pose proof (room_item_conventional g r it Hconv Hitem) as Hit.
    destruct it as [n|n|n]; simpl in Hit; [discriminate| |].
    + simpl. case_bool_decide; apply leibniz_equiv; set_solver.
    + apply String.eqb_eq in Hit. subst n. simpl.
      rewrite bool_decide_eq_false_2 by exact Hreq. reflexivity.
Qed.

Lemma goal_reached_conventional (g : MapGraph) (required : gset string)
    (r : string) (items : gset string) :
  villain_named_Villain g = true ->
  goal_reached required (room_item g r) items
  = holds_villain g r && bool_decide (required ⊆ items).
Proof.
  intros Hconv. unfold goal_reached, holds_villain.
  destruct (room_item g r) as [it|] eqn:Hitem; [|reflexivity].
  pose proof (room_item_conventional g r it Hconv Hitem) as Hit.
  destruct it as [n|n|n]; simpl in *; [discriminate| |].
  - apply negb_true_iff in Hit. now rewrite Hit.
  - now rewrite Hit.
Qed.

(** On such a map, with "Villain" not among the required names, the walks
    the search accepts are exactly the winning walks. *)
Lemma search_walk_winning_walk (g : MapGraph) (start : string)
    (required : gset string) (rs : list string) :
  villain_named_Villain g = true -> "Villain" ∉ required ->
  search_walk g start required rs = winning_walk g start required rs.
Proof.
  intros Hconv Hreq. unfold search_walk, winning_walk, goal_in.
  rewrite <- picked_snoc, <- path_split_last.
  rewrite (goal_reached_conventional g required _ _ Hconv).
  unfold picked. rewrite (fold_pick_up_relics g required Hconv Hreq).
  rewrite <- andb_assoc. f_equal. rewrite andb_comm. f_equal.
  apply bool_decide_ext. set_solver.
Qed.

Lemma winning_walk_found
    (fuel : nat) (g : MapGraph) (start : string) (required : gset string) (n : Z) :
  villain_named_Villain g = true -> "Villain" ∉ required ->
  compute_optimal_moves fuel g start required = Some (Ok n) ->
  exists rs, winning_walk g start required rs = true /\ n = Z.of_nat (length rs).
Proof.
  intros Hconv Hreq Hrun.
  destruct (search_sound fuel g start required n Hrun) as (rs & Hrs & Hn).
  exists rs. now rewrite <- (search_walk_winning_walk g start required rs).
Qed.

Lemma winning_walk_minimal
    (fuel : nat) (g : MapGraph) (start : string) (required : gset string) (n : Z) :
  villain_named_Villain g = true -> "Villain" ∉ required ->
  compute_optimal_moves fuel g start required = Some (Ok n) ->
  forall rs, winning_walk g start required rs = true -> n <= Z.of_nat (length rs).
Proof.
  intros Hconv Hreq Hrun rs Hwin.
  apply (search_minimal fuel g start required n Hrun).
  now rewrite (search_walk_winning_walk g start required rs).
Qed.

Lemma no_winning_walk
    (fuel : nat) (g : MapGraph) (start : string) (required : gset string) :
  villain_named_Villain g = true -> "Villain" ∉ required ->
  compute_optimal_moves fuel g start required
  = Some (Raise (LevelValidationError NotSolvable)) ->
  forall rs, winning_walk g start required rs = false.
Proof.
  intros Hconv Hreq Hrun rs.
  rewrite <- (search_walk_winning_walk g start required rs) by assumption.
  now apply (search_exhausted fuel g start required Hrun).
Qed.

(** X3. On a map that follows the naming convention, with "Villain" not
    required, the search is right: the count it returns is the length of
    a shortest winning walk, and it answers "not solvable" only when no
    walk wins. *)
Theorem compute_optimal_moves_conventional
    (fuel : nat) (g : MapGraph) (start : string) (required : gset string) :
  villain_named_Villain g = true -> "Villain" ∉ required ->
  match compute_optimal_moves fuel g start required with
  | Some (Ok n) =>
      (exists rs, winning_walk g start required rs = true
                  /\ n = Z.of_nat (length rs))
      /\ (forall rs, winning_walk g start required rs = true ->
                     n <= Z.of_nat (length rs))
  | Some (Raise (LevelValidationError NotSolvable)) =>
      forall rs, winning_walk g start required rs = false
  | _ => True
  end.
Proof.
  intros Hconv Hreq.
  destruct (compute_optimal_moves fuel g start required) as [[n|e]|] eqn:Hrun;
    [| |exact I].
  - split; [now apply (winning_walk_found fuel)
           |now apply (winning_walk_minimal fuel)].
  - destruct e as [why| | | | | |]; try exact I.
    destruct why; try exact I. now apply (no_winning_walk fuel).
Qed.

(** ** No [KeyError] on a map whose exits stay inside it *)

Lemma exits_closed_step (g : MapGraph) (r : string) (rm : Room) (nxt : string) :
  exits_closed g = true ->
  dict_get r (rooms g) = Some rm -> In nxt (dict_values (exits rm)) ->
  dict_mem nxt (rooms g) = true.
Proof.
  intros Hclosed Hrm Hnxt. unfold exits_closed in Hclosed.
  rewrite forallb_forall in Hclosed.
  specialize (Hclosed rm (dict_get_Some_value _ _ _ Hrm)).
  rewrite forallb_forall in Hclosed. now apply Hclosed.
Qed.

Lemma bfs_loop_no_KeyError (g : MapGraph) (required : gset string) :
  exits_closed g = true ->
  forall (fuel : nat) (visited : gset search_state) (queue : list queue_entry)
         (r : string),
    Forall (fun e => dict_mem e.1.1 (rooms g) = true) queue ->
    bfs_loop fuel g required visited queue <> Some (Raise (KeyError r)).
Proof.
  intros Hclosed. induction fuel as [|fuel IH]; intros visited queue r0 Hq.
  - destruct queue as [|[[r items] dist] queue]; simpl; discriminate.
  - destruct queue as [|[[r items] dist] queue]; simpl; [discriminate|].
    apply Forall_cons in Hq as [Hr Hq]. simpl in Hr.
    case_bool_decide; [now apply IH|].
    unfold dict_item. unfold dict_mem in Hr.
    destruct (dict_get r (rooms g)) as [rm|] eqn:Hrm; [|discriminate].
    destruct (goal_reached _ _ _); [discriminate|].
    apply IH. apply Forall_app. split; [exact Hq|].
    apply Forall_forall. intros e He.
    apply list_elem_of_In, in_map_iff in He as (nxt & <- & Hnxt). simpl.
    now apply (exits_closed_step g r rm nxt).
Qed.

(** On a map whose start room is declared and whose exits all lead to
    declared rooms, the search returns a move count or raises the
    validation error, whatever fuel above the bound it is given. *)
Lemma search_total
    (g : MapGraph) (start : string) (required : gset string) :
  dict_mem start (rooms g) = true -> exits_closed g = true ->
  exists res,
    (forall fuel,
        (search_bound g required ∅ [(start, ∅, 0%Z)] < fuel)%nat ->
        compute_optimal_moves fuel g start required = Some res)
    /\ ((exists n, res = Ok n /\ 0 <= n)
        \/ res = Raise (LevelValidationError NotSolvable)).
Proof.
  intros Hstart Hclosed.
  destruct (search_terminates g start required) as (res & Hres & Hkind).
  exists res. split; [exact Hres|].
  destruct Hkind as [H | [H | (r & -> & _)]]; [now left|now right|].
  exfalso.
  specialize (Hres (S (search_bound g required ∅ [(start, ∅, 0)]))
                ltac:(lia)).
  revert Hres. apply bfs_loop_no_KeyError; [exact Hclosed|].
  apply Forall_cons. split; [exact Hstart|constructor].
Qed.

(** X1. [compute_optimal_moves] terminates on every map graph, start room
    and required set: with any fuel above [search_bound] the loop answers,
    always the same, and the answer is a move count that is not negative,
    the validation error "not solvable", or the [KeyError] of a room name
    that is no key of the map; the last cannot happen on a map whose start
    room is declared and whose exits all lead to declared rooms. *)
Theorem compute_optimal_moves_terminates
    (g : MapGraph) (start : string) (required : gset string) :
  exists res,
    (forall fuel,
        (search_bound g required ∅ [(start, ∅, 0%Z)] < fuel)%nat ->
        compute_optimal_moves fuel g start required = Some res)
    /\ ((exists n, res = Ok n /\ 0 <= n)
        \/ res = Raise (LevelValidationError NotSolvable)
        \/ exists r, res = Raise (KeyError r) /\ dict_get r (rooms g) = None)
    /\ (dict_mem start (rooms g) = true -> exits_closed g = true ->
        (exists n, res = Ok n /\ 0 <= n)
        \/ res = Raise (LevelValidationError NotSolvable)).
Proof.
  destruct (search_terminates g start required) as (res & Hres & Hkind).
  exists res. split; [exact Hres|]. split; [exact Hkind|].
  intros Hstart Hclosed.
  destruct (search_total g start required Hstart Hclosed) as (res' & Hres' & Hkind').
  specialize (Hres _ (Nat.lt_succ_diag_r _)).
  specialize (Hres' _ (Nat.lt_succ_diag_r _)).
  rewrite Hres in Hres'. injection Hres' as <-. exact Hkind'.
Qed.

(** ** The level factory (level_factory.py) *)

Lemma build_rooms_keys (rs : dict RoomDef) (built : dict Room) :
  build_rooms rs = Ok built -> dict_keys built = dict_keys rs.
Proof.
  revert built. induction rs as [|[name data] rs IH]; intros built Hb; simpl in Hb.
  - now injection Hb as <-.
  - destruct (build_room name data) as [rm|e]; [|discriminate]. simpl in Hb.
    destruct (build_rooms rs) as [rest|e]; [|discriminate]. simpl in Hb.
    injection Hb as <-. simpl. f_equal. now apply IH.
Qed.

Lemma build_rooms_exits (rs : dict RoomDef) (built : dict Room) (rm : Room) :
  build_rooms rs = Ok built -> In rm (dict_values built) ->
  exists data, In data (dict_values rs) /\ exits rm = exits_or_empty data.
Proof.
  revert built. induction rs as [|[name data] rs IH]; intros built Hb Hin;
    simpl in Hb.
  - injection Hb as <-. contradiction.
  - destruct (build_room name data) as [rm0|e] eqn:Hrm0; [|discriminate].
    simpl in Hb.
    destruct (build_rooms rs) as [rest|e]; [|discriminate]. simpl in Hb.
    injection Hb as <-. simpl in Hin. destruct Hin as [<- | Hin].
    + exists data. split; [now left|].
      unfold build_room in Hrm0.
      destruct (def_item data) as [d|]; simpl in Hrm0.
      * destruct (build_item d); [|discriminate]. simpl in Hrm0.
        now injection Hrm0 as <-.
      * now injection Hrm0 as <-.
    + destruct (IH rest eq_refl Hin) as (data' & Hd & He).
      exists data'. split; [now right|exact He].
Qed.

(** The map the factory builds has its start room and every exit target
    among its rooms: the search on it cannot meet a missing room. *)
Lemma build_graph_closed (defn : LevelDef) (g : MapGraph)
    (required : gset string) (start : string) :
  build_graph defn = Ok (g, required, start) ->
  dict_mem start (rooms g) = true /\ exits_closed g = true.
Proof.
  unfold build_graph. intros Hb.
  pose proof (validate_level_definition_outcome defn) as Hval.
  destruct (validate_level_definition defn) as [[]|e]; [|discriminate].
  apply first_violation_None in Hval as (_ & Hstart & Hexits & _ & _).
  simpl in Hb.
  unfold start_room_declared in Hstart. unfold exit_targets_declared in Hexits.
  destruct (def_rooms defn) as [rs|]; [|discriminate]. simpl in Hb.
  destruct (build_rooms rs) as [built|e] eqn:Hbuilt; [|discriminate]. simpl in Hb.
  destruct (def_coords defn) as [cs|]; [|discriminate]. simpl in Hb.
  destruct (def_rules defn) as [rl|]; [|discriminate]. simpl in Hb.
  destruct (def_required_items rl) as [req|]; [|discriminate]. simpl in Hb.
  destruct (def_start_room defn) as [st|]; [|discriminate]. simpl in Hb.
  injection Hb as <- <- <-. simpl.
  pose proof (build_rooms_keys rs built Hbuilt) as Hkeys.
  split.
  - now rewrite dict_mem_keys, Hkeys.
  - unfold exits_closed. simpl. apply forallb_forall. intros rm Hrm.
    destruct (build_rooms_exits rs built rm Hbuilt Hrm) as (data & Hdata & ->).
    rewrite forallb_forall in Hexits. specialize (Hexits data Hdata).
    apply forallb_forall. intros nxt Hnxt.
    rewrite forallb_forall in Hexits. specialize (Hexits nxt Hnxt).
    now rewrite dict_mem_keys, Hkeys.
Qed.

Lemma from_definition_search (fuel : nat) (defn : LevelDef) (lvl : Level) :
  from_definition fuel defn = Some (Ok lvl) ->
  exists n,
    optimal_moves lvl = Some n
    /\ build_graph defn
       = Ok (map lvl, required_items (rules lvl), start_room lvl)
    /\ compute_optimal_moves fuel (map lvl) (start_room lvl)
         (required_items (rules lvl)) = Some (Ok n).
Proof.
  unfold from_definition.
  destruct (build_graph defn) as [[[g req] start]|e]; [|discriminate].
  destruct (compute_optimal_moves fuel g start req) as [[opt|e]|] eqn:Hrun;
    [|discriminate|discriminate].
  destruct (getitem "difficulty" (def_difficulty defn)) as [label|e];
    [|discriminate]. simpl.
  destruct (Difficulty_of_value label) as [d|e]; [|discriminate]. simpl.
  destruct (getitem "id" (def_id defn)) as [id|e]; [|discriminate]. simpl.
  destruct (getitem "name" (def_name defn)) as [name|e]; [|discriminate]. simpl.
  intros [= <-]. simpl. eauto.
Qed.

(** X6. For every level the factory accepts, [optimal_moves] is the length of
    a shortest walk the search accepts; when the map follows the naming
    convention and "Villain" is not required, that is a shortest winning
    walk. *)
Theorem from_definition_optimal_moves (fuel : nat) (defn : LevelDef) (lvl : Level) :
  from_definition fuel defn = Some (Ok lvl) ->
  exists n,
    optimal_moves lvl = Some n
    /\ (exists rs, search_walk (map lvl) (start_room lvl)
                     (required_items (rules lvl)) rs = true
                   /\ n = Z.of_nat (length rs))
    /\ (forall rs, search_walk (map lvl) (start_room lvl)
                     (required_items (rules lvl)) rs = true ->
                   n <= Z.of_nat (length rs))
    /\ (villain_named_Villain (map lvl) = true ->
        "Villain" ∉ required_items (rules lvl) ->
        (exists rs, winning_walk (map lvl) (start_room lvl)
                      (required_items (rules lvl)) rs = true
                    /\ n = Z.of_nat (length rs))
        /\ (forall rs, winning_walk (map lvl) (start_room lvl)
                         (required_items (rules lvl)) rs = true ->
                       n <= Z.of_nat (length rs))).
Proof.
  intros Hok. destruct (from_definition_search fuel defn lvl Hok)
    as (n & Hopt & _ & Hrun).
  exists n. split; [exact Hopt|].
  split; [now apply (search_sound fuel)|].
  split; [now apply (search_minimal fuel)|].
  intros Hconv Hreq.
  split; [now apply (winning_walk_found fuel)
         |now apply (winning_walk_minimal fuel)].
Qed.

(** X4. Construction terminates: whatever the definition, every fuel above
    some bound gives the same outcome, a level or an exception. *)
Theorem from_definition_terminates (defn : LevelDef) :
  exists bound res,
    forall fuel, (bound < fuel)%nat -> from_definition fuel defn = Some res.
Proof.
  unfold from_definition.
  destruct (build_graph defn) as [[[g req] start]|e] eqn:Hb.
  - destruct (search_terminates g start req) as (res & Hres & _).
    exists (search_bound g req ∅ [(start, ∅, 0)]).
    destruct res as [n|e].
    + eexists. intros fuel Hfuel. now rewrite (Hres fuel Hfuel).
    + exists (Raise e). intros fuel Hfuel. now rewrite (Hres fuel Hfuel).
  - exists 0%nat, (Raise e). reflexivity.
Qed.

(** X5. On a definition whose map follows the naming convention and that
    does not require "Villain", construction fails with the validation
    error "not solvable" whenever no walk wins. *)
Theorem from_definition_rejects_unwinnable
    (defn : LevelDef) (g : MapGraph) (required : gset string) (start : string) :
  build_graph defn = Ok (g, required, start) ->
  villain_named_Villain g = true -> "Villain" ∉ required ->
  (forall rs, winning_walk g start required rs = false) ->
  forall fuel,
    (search_bound g required ∅ [(start, ∅, 0%Z)] < fuel)%nat ->
    from_definition fuel defn = Some (Raise (LevelValidationError NotSolvable)).
Proof.
  intros Hb Hconv Hreq Hnone fuel Hfuel.
  destruct (build_graph_closed defn g required start Hb) as [Hstart Hclosed].
  destruct (search_total g start required Hstart Hclosed)
    as (res & Hres & Hkind).
  unfold from_definition. rewrite Hb, (Hres fuel Hfuel).
  destruct Hkind as [(n & -> & _) | ->]; [|reflexivity].
  destruct (winning_walk_found fuel g start required n Hconv Hreq (Hres fuel Hfuel))
    as (rs & Hwin & _).
  rewrite Hnone in Hwin. discriminate.
Qed.

(** ** Certifying the answer of the search by exhaustive enumeration *)

Lemma walks_from_complete (g : MapGraph) (rs : list string) :
  forall r, is_walk g r rs = true -> In rs (walks_from g r (length rs)).
Proof.
  induction rs as [|nxt rs IH]; intros r Hwalk; simpl in *; [now left|].
  destruct (dict_get r (rooms g)) as [rm|]; [|discriminate].
  apply andb_true_iff in Hwalk as [Hstep Hwalk].
  apply existsb_exists in Hstep as (x & Hx & Heq).
  apply String.eqb_eq in Heq. subst x.
  apply in_flat_map. exists nxt. split; [exact Hx|].
  apply in_map. now apply IH.
Qed.

Lemma no_shorter_win_sound (g : MapGraph) (start : string)
    (required : gset string) (n : nat) :
  no_shorter_win g start required n = true ->
  forall rs, winning_walk g start required rs = true -> (n <= length rs)%nat.
Proof.
  intros Hnone rs Hwin.
  destruct (Nat.le_gt_cases n (length rs)) as [Hle | Hlt]; [exact Hle|].
  unfold no_shorter_win in Hnone. rewrite forallb_forall in Hnone.
  specialize (Hnone (length rs)). rewrite forallb_forall in Hnone.
  assert (Hwalk : is_walk g start rs = true).
  { unfold winning_walk in Hwin. apply andb_true_iff in Hwin as [Hwin _].
    now apply andb_true_iff in Hwin as [Hwin _]. }
  specialize (Hnone ltac:(apply in_seq; lia) rs
                (walks_from_complete g rs start Hwalk)).
  rewrite Hwin in Hnone. discriminate.
Qed.

(** On a closed map that follows the naming convention, a winning walk of
    [n] moves together with the check that no shorter walk wins fixes the
    answer of the search. *)
Lemma compute_optimal_moves_certified (g : MapGraph) (start : string)
    (required : gset string) (rs : list string) :
  dict_mem start (rooms g) = true -> exits_closed g = true ->
  villain_named_Villain g = true -> "Villain" ∉ required ->
  winning_walk g start required rs = true ->
  no_shorter_win g start required (length rs) = true ->
  forall fuel,
    (search_bound g required ∅ [(start, ∅, 0%Z)] < fuel)%nat ->
    compute_optimal_moves fuel g start required
    = Some (Ok (Z.of_nat (length rs))).
Proof.
  intros Hstart Hclosed Hconv Hreq Hwin Hnone fuel Hfuel.
  destruct (search_total g start required Hstart Hclosed)
    as (res & Hres & Hkind).
  specialize (Hres fuel Hfuel). rewrite Hres.
  destruct Hkind as [(n & -> & _) | ->].
  - destruct (winning_walk_found fuel g start required n Hconv Hreq Hres)
      as (rs' & Hwin' & ->).
    pose proof (winning_walk_minimal fuel g start required _ Hconv Hreq Hres
                  rs Hwin) as Hmin.
    pose proof (no_shorter_win_sound g start required _ Hnone rs' Hwin').
    do 2 f_equal. lia.
  - rewrite (no_winning_walk fuel g start required Hconv Hreq Hres rs) in Hwin.
    discriminate.
Qed.

(** ** The shipped level *)

Lemma build_graph_level_1 :
  build_graph level_1_def = Ok (level_1_map, level_1_required, "Space Room").
Proof. vm_compute. reflexivity. Qed.

(** X10. The factory accepts the shipped level with [optimal_moves] = 8, as
    the repository's solvability test expects of it ([optimal_moves] > 0). *)
Theorem from_definition_level_1 :
  from_definition (Z.to_nat 10000) level_1_def = Some (Ok level_1).
Proof.
  unfold from_definition. rewrite build_graph_level_1.
  assert (Hnot : "Villain" ∉ level_1_required).
  { assert (Hb : bool_decide ("Villain" ∈ level_1_required) = false)
      by (vm_compute; reflexivity).
    now apply bool_decide_eq_false in Hb. }
  rewrite (compute_optimal_moves_certified level_1_map "Space Room"
             level_1_required level_1_walk).
  - reflexivity.
  - reflexivity.
  - reflexivity.
  - reflexivity.
  - exact Hnot.
  - vm_compute. reflexivity.
  - vm_compute. reflexivity.
  - apply Nat.ltb_lt. vm_compute. reflexivity.
Qed.

(** ** Instances of the general results *)

Lemma X_not_Villain : "Villain" ∉ (list_to_set ["X"] : gset string).
Proof.
  assert (Hb : bool_decide ("Villain" ∈ (list_to_set ["X"] : gset string)) = false)
    by (vm_compute; reflexivity).
  now apply bool_decide_eq_false in Hb.
Defined.

Lemma compute_optimal_moves_conventional_witness :
  (exists rs, winning_walk scenario_map "Start" (list_to_set ["X"]) rs = true
              /\ 1 = Z.of_nat (length rs))
  /\ (forall rs, winning_walk scenario_map "Start" (list_to_set ["X"]) rs = true ->
                 1 <= Z.of_nat (length rs)).
Proof.
  pose proof (compute_optimal_moves_conventional 8 scenario_map "Start"
                (list_to_set ["X"]) eq_refl X_not_Villain) as H.
  assert (Hrun : compute_optimal_moves 8 scenario_map "Start" (list_to_set ["X"])
                 = Some (Ok 1))
    by (vm_compute; reflexivity).
  rewrite Hrun in H. exact H.
Defined.

Lemma from_definition_optimal_moves_witness :
  exists n,
    optimal_moves scenario_level = Some n
    /\ (exists rs, search_walk scenario_map "Start" (list_to_set ["X"]) rs = true
                   /\ n = Z.of_nat (length rs)).
Proof.
  destruct (from_definition_optimal_moves 8 scenario_def scenario_level
              from_definition_scenario) as (n & Hopt & Hex & _).
  exists n. split; [exact Hopt|exact Hex].
Defined.

Lemma locked_no_winning_walk (rs : list string) :
  winning_walk locked_map "Start" (list_to_set ["X"]) rs = false.
Proof. destruct rs as [|r rs]; reflexivity. Defined.

Lemma from_definition_rejects_unwinnable_witness :
  from_definition 8 locked_def = Some (Raise (LevelValidationError NotSolvable)).
Proof.
  apply (from_definition_rejects_unwinnable locked_def locked_map
           (list_to_set ["X"]) "Start").
  - vm_compute. reflexivity.
  - reflexivity.
  - exact X_not_Villain.
  - exact locked_no_winning_walk.
  - apply Nat.ltb_lt. vm_compute. reflexivity.
Defined.

Lemma StandardScore_calculate_member_witness :
  exists e, StandardScore_calculate won_state scenario_level = Raise e.
Proof.
  exact (StandardScore_calculate_member won_state scenario_level EASY
           eq_refl eq_refl).
Defined.

(** ** The leaderboard (history_repo.py) *)

Lemma insert_by_score_Permutation (r : GameResult) (l : list GameResult) :
  Permutation (insert_by_score r l) (r :: l).
Proof.
  induction l as [|x l IH]; simpl; [reflexivity|].
  destruct (score r <? score x); [|reflexivity].
  rewrite IH. apply perm_swap.
Qed.

Lemma sorted_by_score_Permutation (l : list GameResult) :
  Permutation (sorted_by_score l) l.
Proof.
  induction l as [|r l IH]; simpl; [reflexivity|].
  rewrite insert_by_score_Permutation. now rewrite IH.
Qed.

Lemma insert_by_score_sorted (r : GameResult) (l : list GameResult) :
  by_falling_score l -> by_falling_score (insert_by_score r l).
Proof.
  unfold by_falling_score. induction 1 as [|x l Hs IH Hx]; simpl.
  - repeat constructor.
  - destruct (score r <? score x) eqn:Hlt.
    + apply Z.ltb_lt in Hlt. constructor; [exact IH|].
      rewrite Forall_forall. intros y Hy.
      apply list_elem_of_In in Hy.
      apply (Permutation_in _ (insert_by_score_Permutation r l)) in Hy.
      destruct Hy as [<- | Hy]; [lia|].
      rewrite Forall_forall in Hx. apply Hx. now apply list_elem_of_In.
    + apply Z.ltb_ge in Hlt. constructor; [now constructor|].
      constructor; [exact Hlt|].
      rewrite Forall_forall in Hx. rewrite Forall_forall. intros y Hy.
      specialize (Hx y Hy). simpl in Hx. lia.
Qed.

Lemma sorted_by_score_sorted (l : list GameResult) :
  by_falling_score (sorted_by_score l).
Proof.
  induction l as [|r l IH]; simpl; [constructor|].
  now apply insert_by_score_sorted.
Qed.

(** Stability: the records of one score keep their order. *)
Lemma insert_by_score_with_score (k : Z) (r : GameResult) (l : list GameResult) :
  by_falling_score l ->
  with_score k (insert_by_score r l) = with_score k (r :: l).
Proof.
  unfold by_falling_score, with_score.
  induction 1 as [|x l Hs IH Hx]; [reflexivity|]. simpl.
  destruct (score r <? score x) eqn:Hlt; [|reflexivity].
  apply Z.ltb_lt in Hlt. simpl. rewrite IH. simpl.
  destruct (score x =? k) eqn:Hxk; destruct (score r =? k) eqn:Hrk;
    try reflexivity.
  apply Z.eqb_eq in Hxk, Hrk. lia.
Qed.

Lemma sorted_by_score_with_score (k : Z) (l : list GameResult) :
  with_score k (sorted_by_score l) = with_score k l.
Proof.
  induction l as [|r l IH]; [reflexivity|]. simpl sorted_by_score.
  rewrite insert_by_score_with_score by apply sorted_by_score_sorted.
  unfold with_score in *. simpl. now rewrite IH.
Qed.


Lemma by_falling_score_split (l1 l2 : list GameResult) :
  by_falling_score (l1 ++ l2) ->
  by_falling_score l1
  /\ forall a b, In a l1 -> In b l2 -> score b <= score a.
Proof.
  unfold by_falling_score. induction l1 as [|x l1 IH]; simpl; intros Hs.
  - split; [constructor|]. intros a b [].
  - inversion Hs as [|? ? Hs' Hx]; subst. destruct (IH Hs') as [H1 H2].
    split.
    + constructor; [exact H1|].
      rewrite Forall_forall in Hx. rewrite Forall_forall. intros y Hy.
      apply Hx. apply list_elem_of_In. apply in_or_app. left.
      now apply list_elem_of_In.
    + intros a b [<- | Ha] Hb.
      * rewrite Forall_forall in Hx. apply Hx. apply list_elem_of_In.
        apply in_or_app. now right.
      * now apply H2.
Qed.

Lemma firstn_leaderboard (n : nat) (l : list GameResult) :
  by_falling_score l ->
  by_falling_score (firstn n l)
  /\ (forall a b, In a (firstn n l) -> In b (skipn n l) -> score b <= score a)
  /\ forall k, with_score k (firstn n l) `prefix_of` with_score k l.
Proof.
  intros Hs. rewrite <- (firstn_skipn n l) in Hs at 1.
  destruct (by_falling_score_split _ _ Hs) as [H1 H2].
  split; [exact H1|]. split; [exact H2|].
  intros k. exists (with_score k (skipn n l)). unfold with_score.
  rewrite <- List.filter_app. now rewrite firstn_skipn.
Qed.

(** X16. The leaderboard of a level holds records of that level only, in
    order of falling score; it is the first [limit] records of the
    level's records so sorted (for a negative [limit], all but the last
    [-limit]), so that no record left out scores more than one that is
    listed; and records of equal score appear in the order in which they
    were added to the history. *)
Theorem top_scores_leaderboard
    (level_id : string) (limit : Z) (results : list GameResult) :
  let of_level :=
    List.filter (fun r => String.eqb (result_level_id r) level_id) results in
  let top := top_scores level_id limit results in
  length top
  = Nat.min (if 0 <=? limit then Z.to_nat limit
             else (length of_level - Z.to_nat (- limit))%nat)
            (length of_level)
  /\ (forall r, In r top -> In r results /\ result_level_id r = level_id)
  /\ by_falling_score top
  /\ (exists rest,
        Permutation (top ++ rest) of_level
        /\ forall a b, In a top -> In b rest -> score b <= score a)
  /\ (forall k, with_score k top `prefix_of` with_score k of_level).
Proof.
  intros of_level top.
  pose proof (sorted_by_score_sorted of_level) as Hs.
  pose proof (sorted_by_score_Permutation of_level) as Hp.
  assert (Htop : exists n,
             top = firstn n (sorted_by_score of_level)
             /\ n = (if 0 <=? limit then Z.to_nat limit
                     else (length of_level - Z.to_nat (- limit))%nat)).
  { unfold top, top_scores, slice_to. fold of_level.
    rewrite (Permutation_length Hp).
    destruct (0 <=? limit); eexists; split; reflexivity. }
  destruct Htop as (n & -> & Hn).
  destruct (firstn_leaderboard n _ Hs) as (H1 & H2 & H3).
  split; [|split; [|split; [exact H1|split]]].
  - rewrite length_firstn, (Permutation_length Hp). now rewrite Hn.
  - intros r Hr.
    assert (Hin : In r of_level).
    { apply (Permutation_in _ Hp). rewrite <- (firstn_skipn n).
      apply in_or_app. now left. }
    apply List.filter_In in Hin as [Hin Hid]. split; [exact Hin|].
    now apply String.eqb_eq in Hid.
  - exists (skipn n (sorted_by_score of_level)). split; [|exact H2].
    now rewrite firstn_skipn.
  - intros k. rewrite <- (sorted_by_score_with_score k of_level). apply H3.
Qed.


(** ** Result records (game_result.py) *)

Lemma GameStatus_of_value_Ok (v : string) (st : GameStatus) :
  GameStatus_of_value v = Ok st -> v = status_value st.
Proof.
  unfold GameStatus_of_value.
  destruct (String.eqb v "in_progress") eqn:H1;
    [apply String.eqb_eq in H1; now intros [= <-]|].
  destruct (String.eqb v "completed") eqn:H2;
    [apply String.eqb_eq in H2; now intros [= <-]|].
  destruct (String.eqb v "game_over") eqn:H3;
    [apply String.eqb_eq in H3; now intros [= <-]|].
  discriminate.
Qed.

(** X17. Deserializing the dictionary of a result gives the result back;
    conversely a dictionary is accepted exactly when its seven required
    keys are present and its status is the value of a [GameStatus] (the
    snapshot may be absent), and the result then serializes to that
    dictionary with the snapshot key filled in; a win is never a loss. *)
Theorem GameResult_roundtrip (r : GameResult) (data : ResultDict) :
  GameResult_from_dict (GameResult_to_dict r) = Ok r
  /\ ((exists r', GameResult_from_dict data = Ok r')
      <-> (present (r_user_email data) && present (r_level_id data)
           && present (r_score data) && present (r_moves data)
           && present (r_items_collected data) && present (r_finished_at data)
           = true
           /\ exists st, r_status data = Some (status_value st)))
  /\ (forall r', GameResult_from_dict data = Ok r' ->
                 GameResult_to_dict r'
                 = {| r_user_email := r_user_email data;
                      r_level_id := r_level_id data;
                      r_status := r_status data; r_score := r_score data;
                      r_moves := r_moves data;
                      r_items_collected := r_items_collected data;
                      r_finished_at := r_finished_at data;
                      r_snapshot := Some (get_or (r_snapshot data) None) |})
  /\ is_win r && is_loss r = false.
Proof.
  split; [|split; [|split]].
  - unfold GameResult_from_dict, GameResult_to_dict. simpl.
    rewrite GameStatus_value_roundtrip. simpl. now destruct r.
  - destruct data as [u l st sc mv ic fa sn]. unfold GameResult_from_dict. simpl.
    split.
    + intros [r' H].
      destruct u; [|discriminate]. destruct l; [|discriminate].
      destruct st as [v|]; [|discriminate]. simpl in H.
      destruct (GameStatus_of_value v) as [st0|e] eqn:Hv; [|discriminate].
      apply GameStatus_of_value_Ok in Hv. simpl in H.
      destruct sc; [|discriminate]. destruct mv; [|discriminate].
      destruct ic; [|discriminate]. destruct fa; [|discriminate].
      split; [reflexivity|]. exists st0. now rewrite Hv.
    + intros [Hp [st0 Hst]].
      destruct u; [|discriminate]. destruct l; [|discriminate].
      destruct sc; [|discriminate]. destruct mv; [|discriminate].
      destruct ic; [|discriminate]. destruct fa; [|discriminate].
      simpl in Hst. subst st. simpl. rewrite GameStatus_value_roundtrip. simpl.
      eauto.
  - intros r'. destruct data as [u l st sc mv ic fa sn].
    unfold GameResult_from_dict. simpl.
    destruct u; [|discriminate]. destruct l; [|discriminate].
    destruct st as [v|]; [|discriminate]. simpl.
    destruct (GameStatus_of_value v) as [st0|e] eqn:Hv; [|discriminate].
    apply GameStatus_of_value_Ok in Hv. simpl.
    destruct sc; [|discriminate]. destruct mv; [|discriminate].
    destruct ic; [|discriminate]. destruct fa; [|discriminate]. simpl.
    intros [= <-]. unfold GameResult_to_dict. simpl. now rewrite Hv.
  - unfold is_win, is_loss. now destruct (result_status r).
Qed.

(** ** The in-memory level repository (level_repo.py) *)

Lemma dict_get_set_eq {V} (k : string) (v : V) (d : dict V) :
  dict_get k (dict_set k v d) = Some v.
Proof.
  induction d as [|[k' v'] d IH]; simpl.
  - now rewrite String.eqb_refl.
  - destruct (String.eqb k k') eqn:Hk; simpl.
    + now rewrite String.eqb_refl.
    + now rewrite Hk.
Qed.

Lemma dict_get_set_neq {V} (k k0 : string) (v : V) (d : dict V) :
  k0 <> k -> dict_get k0 (dict_set k v d) = dict_get k0 d.
Proof.
  intros Hne. induction d as [|[k' v'] d IH]; simpl.
  - apply String.eqb_neq in Hne. now rewrite Hne.
  - destruct (String.eqb k k') eqn:Hk; simpl.
    + apply String.eqb_eq in Hk. subst k'.
      apply String.eqb_neq in Hne. now rewrite Hne.
    + destruct (String.eqb k0 k'); [reflexivity|exact IH].
Qed.

Lemma dict_keys_set {V} (k : string) (v : V) (d : dict V) :
  dict_keys (dict_set k v d)
  = if dict_mem k d then dict_keys d else (dict_keys d ++ [k])%list.
Proof.
  unfold dict_mem. induction d as [|[k' v'] d IH]; simpl; [reflexivity|].
  destruct (String.eqb k k') eqn:Hk; simpl.
  - apply String.eqb_eq in Hk. now subst.
  - rewrite IH. now destruct (dict_get k d).
Qed.

Lemma dict_mem_In {V} (k : string) (d : dict V) :
  dict_mem k d = true <-> In k (dict_keys d).
Proof.
  rewrite dict_mem_keys. rewrite existsb_exists. split.
  - intros (x & Hx & Heq). apply String.eqb_eq in Heq. now subst.
  - intros H. exists k. split; [exact H|apply String.eqb_refl].
Qed.

Lemma dict_set_NoDup {V} (k : string) (v : V) (d : dict V) :
  NoDup (dict_keys d) -> NoDup (dict_keys (dict_set k v d)).
Proof.
  intros Hnd. rewrite dict_keys_set. destruct (dict_mem k d) eqn:Hm; [exact Hnd|].
  apply (proj2 (NoDup_app _ _)). split; [exact Hnd|]. split.
  - intros x Hx [<- | []]%list_elem_of_In.
    apply list_elem_of_In, dict_mem_In in Hx. congruence.
  - repeat constructor. intros []%list_elem_of_In.
Qed.


Lemma find_snoc {A} (f : A -> bool) (l : list A) (x : A) :
  List.find f (l ++ [x])
  = match List.find f l with
    | Some y => Some y
    | None => if f x then Some x else None
    end.
Proof.
  induction l as [|y l IH]; simpl; [reflexivity|].
  destruct (f y); [reflexivity|exact IH].
Qed.

Lemma index_by_id_get (defs : list LevelDef) :
  forall (built repository : dict LevelDef) (id : string),
    index_by_id defs built = Ok repository ->
    dict_get id repository
    = match List.find (has_id id) (rev defs) with
      | Some defn => Some defn
      | None => dict_get id built
      end.
Proof.
  induction defs as [|defn rest IH]; intros built repository id Hb; simpl in *.
  - now injection Hb as <-.
  - destruct (def_id defn) as [k|] eqn:Hk; [|discriminate]. simpl in Hb.
    rewrite (IH _ _ id Hb), find_snoc.
    destruct (List.find (has_id id) (rev rest)); [reflexivity|].
    unfold has_id. rewrite Hk.
    destruct (String.eqb k id) eqn:Heq.
    + apply String.eqb_eq in Heq. subst k. apply dict_get_set_eq.
    + apply String.eqb_neq in Heq. apply dict_get_set_neq. congruence.
Qed.

Lemma index_by_id_NoDup (defs : list LevelDef) :
  forall (built repository : dict LevelDef),
    index_by_id defs built = Ok repository ->
    NoDup (dict_keys built) -> NoDup (dict_keys repository).
Proof.
  induction defs as [|defn rest IH]; intros built repository Hb Hnd; simpl in *.
  - now injection Hb as <-.
  - destruct (def_id defn) as [k|]; [|discriminate]. simpl in Hb.
    apply (IH _ _ Hb). now apply dict_set_NoDup.
Qed.

Lemma index_by_id_outcome (defs : list LevelDef) :
  forall (built : dict LevelDef),
    match index_by_id defs built with
    | Ok _ => forallb (fun defn => present (def_id defn)) defs = true
    | Raise e =>
        e = KeyError "id"
        /\ forallb (fun defn => present (def_id defn)) defs = false
    end.
Proof.
  induction defs as [|defn rest IH]; intros built; simpl; [reflexivity|].
  destruct (def_id defn) as [k|]; simpl; [|now split].
  apply IH.
Qed.

Lemma find_has_id (id : string) (defs : list LevelDef) (defn : LevelDef) :
  List.find (has_id id) defs = Some defn -> def_id defn = Some id.
Proof.
  intros H. apply find_some in H as [_ H]. unfold has_id in H.
  destruct (def_id defn) as [k|]; [|discriminate].
  apply String.eqb_eq in H. now subst.
Qed.

(** X15. The in-memory level repository is built exactly when every
    definition has an "id" ([KeyError] otherwise); [get] then answers, for
    an id, the last definition of the list that carries it, and nothing
    for an id no definition carries; [list] holds one definition per
    id. *)
Theorem InMemoryLevelRepository_get (defs : list LevelDef) :
  match InMemoryLevelRepository defs with
  | Ok repository =>
      forallb (fun defn => present (def_id defn)) defs = true
      /\ (forall id,
            repository_get repository id = List.find (has_id id) (rev defs))
      /\ (forall id defn,
            repository_get repository id = Some defn -> def_id defn = Some id)
      /\ NoDup (dict_keys repository)
      /\ length (repository_list repository) = length (dict_keys repository)
  | Raise e =>
      e = KeyError "id"
      /\ forallb (fun defn => present (def_id defn)) defs = false
  end.
Proof.
  unfold InMemoryLevelRepository, repository_get, repository_list.
  pose proof (index_by_id_outcome defs []) as Hout.
  destruct (index_by_id defs []) as [repository|e] eqn:Hb; [|exact Hout].
  assert (Hget : forall id,
             dict_get id repository = List.find (has_id id) (rev defs)).
  { intros id. rewrite (index_by_id_get defs [] repository id Hb).
    now destruct (List.find (has_id id) (rev defs)). }
  split; [exact Hout|]. split; [exact Hget|]. split; [|split].
  - intros id defn H. rewrite Hget in H. now apply find_has_id in H.
  - apply (index_by_id_NoDup defs [] repository Hb). constructor.
  - unfold dict_values, dict_keys. now rewrite !length_map.
Qed.

(** ** The controller behind a level repository *)

Lemma truthy_with_id (defn : LevelDef) (id : string) :
  def_id defn = Some id -> truthy (RawDefinition defn) = true.
Proof.
  intros Hid. unfold truthy, missing_keys. rewrite Hid. simpl.
  destruct (def_name defn), (def_difficulty defn), (def_start_room defn),
    (def_rooms defn), (def_coords defn), (def_rules defn); reflexivity.
Qed.

Lemma require_level_repository
    (defs : list LevelDef) (repository : dict LevelDef) (level_id : string) :
  InMemoryLevelRepository defs = Ok repository ->
  require_level (repository_source repository) level_id
  = match repository_get repository level_id with
    | Some defn => Ok (RawDefinition defn)
    | None => Raise (ValueError ("Unknown level_id: " +:+ level_id))
    end.
Proof.
  intros Hb. unfold require_level, repository_source, repository_get.
  destruct (dict_get level_id repository) as [defn|] eqn:Hget; [|reflexivity].
  assert (Hid : def_id defn = Some level_id).
  { unfold InMemoryLevelRepository in Hb.
    rewrite (index_by_id_get defs [] repository level_id Hb) in Hget.
    destruct (List.find (has_id level_id) (rev defs)) as [d|] eqn:Hf;
      [|discriminate].
    injection Hget as <-. now apply find_has_id in Hf. }
  now rewrite (truthy_with_id defn level_id Hid).
Qed.


(** X14. Behind the in-memory level repository the controller starts no
    run, makes no move and projects no level: for an id the repository
    holds, it reads an attribute of [Level] from the definition [dict]
    and raises [AttributeError]; for any other id it raises [ValueError].
    Neither the state nor the stores change. *)
Theorem controller_on_repository
    (defs : list LevelDef) (repository : dict LevelDef) (now : nat -> datetime)
    (user_email level_id direction : string) (s : GameState) (w : World) :
  InMemoryLevelRepository defs = Ok repository ->
  let levels := repository_source repository in
  let failure (attribute : string) :=
    if dict_mem level_id repository
    then AttributeError ("'dict' object has no attribute '" +:+ attribute +:+ "'")
    else ValueError ("Unknown level_id: " +:+ level_id) in
  start_new_run levels now user_email level_id w
  = (Raise (failure "start_room"), w)
  /\ (is_terminal (status s) = false ->
      move levels now user_email level_id s direction w
      = {| raised := Some (failure "map"); state_after := s; world_after := w |})
  /\ get_level_projection levels level_id s = Raise (failure "ui_projection").
Proof.
  intros Hb levels failure.
  pose proof (require_level_repository defs repository level_id Hb) as Hreq.
  fold levels in Hreq. unfold failure, dict_mem. unfold repository_get in Hreq.
  split; [|split].
  - unfold start_new_run. rewrite Hreq.
    destruct (dict_get level_id repository); reflexivity.
  - intros Hlive. unfold move. rewrite Hlive, Hreq.
    destruct (dict_get level_id repository); reflexivity.
  - unfold get_level_projection. rewrite Hreq.
    destruct (dict_get level_id repository); reflexivity.
Qed.

Lemma controller_on_repository_witness :
  start_new_run (repository_source scenario_repository) counting_clock
    "ann@example.com" "scenario" empty_world
  = (Raise (AttributeError "'dict' object has no attribute 'start_room'"),
     empty_world)
  /\ move (repository_source scenario_repository) counting_clock
       "ann@example.com" "level_2" started_run "East" empty_world
     = {| raised := Some (ValueError "Unknown level_id: level_2");
          state_after := started_run; world_after := empty_world |}.
Proof.
  destruct (controller_on_repository [scenario_def] scenario_repository
              counting_clock "ann@example.com" "scenario" "East" started_run
              empty_world eq_refl) as (H1 & _ & _).
  destruct (controller_on_repository [scenario_def] scenario_repository
              counting_clock "ann@example.com" "level_2" "East" started_run
              empty_world eq_refl) as (_ & H2 & _).
  split; [exact H1|]. exact (H2 eq_refl).
Defined.


(** ** One call of [move], case by case *)

Lemma persist_or_finalize_cases
    (levels : string -> option level_object) (now : nat -> datetime)
    (u id : string) (s : GameState) (w : World) :
  let o := persist_or_finalize levels now u id s w in
  (is_terminal (status s) = false
   /\ o = {| raised := None; state_after := s;
             world_after := autosave now u id s w |})
  \/ (is_terminal (status s) = true
      /\ exists e, o = {| raised := Some e; state_after := s; world_after := w |})
  \/ (is_terminal (status s) = true
      /\ exists lvl sc,
           levels id = Some (LevelInstance lvl)
           /\ scoring_calculate lvl s = Ok sc
           /\ o = {| raised := None; state_after := s;
                     world_after :=
                       delete_active u
                         (history_add (result_of u id s lvl sc (now (clock w)))
                            (ticked w)) |}).
Proof.
  cbv zeta. unfold persist_or_finalize.
  destruct (is_terminal (status s)) eqn:Ht; cbn [negb]; [|now left].
  right. unfold require_level.
  destruct (levels id) as [[defn|lvl]|] eqn:Hl; cbn [bind getattr truthy].
  - left. split; [reflexivity|].
    destruct (negb _); cbn [bind getattr]; eauto.
  - destruct (scoring_calculate lvl s) as [sc|e] eqn:Hsc.
    + right. split; [reflexivity|]. exists lvl, sc. repeat split; auto.
    + left. split; [reflexivity|]. eauto.
  - left. split; [reflexivity|]. eauto.
Qed.

Lemma move_cases
    (levels : string -> option level_object) (now : nat -> datetime)
    (u id d : string) (s : GameState) (w : World) :
  let o := move levels now u id s d w in
  (is_terminal (status s) = true
   /\ o = {| raised := None;
             state_after := set_message (Some "Game already ended.") s;
             world_after := w |})
  \/ (is_terminal (status s) = false
      /\ exists e, o = {| raised := Some e; state_after := s; world_after := w |})
  \/ (is_terminal (status s) = false
      /\ o = {| raised := None; state_after := bumped s;
                world_after := autosave now u id (bumped s) w |})
  \/ (is_terminal (status s) = false
      /\ exists next e,
           o = {| raised := Some e;
                  state_after := moved (now (clock w)) d next s;
                  world_after := ticked w |})
  \/ (is_terminal (status s) = false
      /\ exists lvl room next rm,
           levels id = Some (LevelInstance lvl)
           /\ dict_get (location (player s)) (rooms (map lvl)) = Some room
           /\ dict_get d (exits room) = Some next
           /\ dict_get next (rooms (map lvl)) = Some rm
           /\ o = persist_or_finalize levels now u id
                    (entered (rules lvl) rm (moved (now (clock w)) d next s))
                    (ticked w)).
Proof.
  cbv zeta. unfold move.
  destruct (is_terminal (status s)) eqn:Ht; [now left|]. right.
  unfold require_level.
  destruct (levels id) as [[defn|lvl]|] eqn:Hl; cbn [bind getattr truthy].
  - left. split; [reflexivity|]. destruct (negb _); cbn [bind getattr]; eauto.
  - unfold dict_item.
    destruct (dict_get (location (player s)) (rooms (map lvl))) as [room|] eqn:Hr;
      [|left; split; [reflexivity|]; eauto].
    destruct (dict_get d (exits room)) as [next|] eqn:Hx;
      [|right; left; split; reflexivity].
    right. right. cbn [tick].
    destruct (dict_get next (rooms (map lvl))) as [rm|] eqn:Hn.
    + right. split; [reflexivity|]. exists lvl, room, next, rm. repeat split; auto.
    + left. split; [reflexivity|]. exists next. eexists. reflexivity.
  - left. split; [reflexivity|]. eauto.
Qed.


Lemma prefix_snoc {A} (l : list A) (x : A) : l `prefix_of` (l ++ [x])%list.
Proof. now exists [x]. Qed.

Lemma prefix_snoc2 {A} (l : list A) (x y : A) :
  l `prefix_of` ((l ++ [x]) ++ [y])%list.
Proof. exists [x; y]. now rewrite <- app_assoc. Qed.

Lemma check_fields (rules : StandardRules) (s : GameState) (room : Room) :
  let s' := check rules s room in
  player s' = player s /\ visited_rooms s' = visited_rooms s
  /\ collected_items s' = collected_items s /\ move_count s' = move_count s
  /\ event_log s' = event_log s /\ started_at s' = started_at s
  /\ encountered_villain s' = encountered_villain s.
Proof.
  cbv zeta. unfold check. destruct (is_Villain (item room)); [|repeat split].
  destruct (bool_decide _); repeat split.
Qed.

Lemma entered_moved (rules : StandardRules) (rm : Room) (t : datetime)
    (d next : string) (s : GameState) :
  let s' := entered rules rm (moved t d next s) in
  move_count s' = move_count s + 1
  /\ location (player s') = next
  /\ inventory (player s') = inventory (player s)
  /\ visited_rooms s' = visited_rooms s ∪ {[ next ]}
  /\ collected_items s ⊆ collected_items s'
  /\ event_log s `prefix_of` event_log s'
  /\ started_at s' = started_at s
  /\ (encountered_villain s = true -> encountered_villain s' = true).
Proof.
  cbv zeta. unfold entered.
  destruct (check_fields rules
              (match item rm with
               | Some it => on_enter it (moved t d next s)
               | None => moved t d next s
               end) rm) as (Hp & Hv & Hc & Hm & Hl & Hs & He).
  rewrite Hm, Hp, Hv, Hc, Hl, Hs, He.
  destruct (item rm) as [[n|n|n]|]; simpl; repeat split;
    try set_solver; try apply prefix_snoc; try apply prefix_snoc2; auto.
Qed.

(** X18. Whatever the level source and the outcome, a call of [move]
    never undoes progress: the move count stays or grows by one, visited
    rooms and collected items are kept, the event log is only appended
    to, the start time and the player's inventory stay, a villain
    encounter stays recorded, the player's room stays among the visited
    rooms if it was, and the status of a run that has ended stays. *)
Theorem move_never_undoes
    (levels : string -> option level_object) (now : nat -> datetime)
    (user_email level_id direction : string) (s : GameState) (w : World) :
  let s' := state_after (move levels now user_email level_id s direction w) in
  move_count s <= move_count s' <= move_count s + 1
  /\ visited_rooms s ⊆ visited_rooms s'
  /\ collected_items s ⊆ collected_items s'
  /\ event_log s `prefix_of` event_log s'
  /\ started_at s' = started_at s
  /\ inventory (player s') = inventory (player s)
  /\ (encountered_villain s = true -> encountered_villain s' = true)
  /\ (location (player s) ∈ visited_rooms s ->
      location (player s') ∈ visited_rooms s')
  /\ (is_terminal (status s) = true -> status s' = status s).
Proof.
  cbv zeta.
  destruct (move_cases levels now user_email level_id direction s w)
    as [[Ht ->] | [[Ht [e ->]] | [[Ht ->] | [[Ht (next & e & ->)]
         | [Ht (lvl & room & next & rm & _ & _ & _ & _ & ->)]]]]]; simpl.
  - repeat split; try lia; try set_solver; try congruence; auto.
  - repeat split; try lia; try set_solver; try congruence; auto.
  - repeat split; try lia; try set_solver; try apply prefix_snoc;
      try congruence; auto.
  - repeat split; try lia; try set_solver; try apply prefix_snoc;
      try congruence; auto.
  - pose proof (entered_moved (rules lvl) rm (now (clock w)) direction next s)
      as Hs. cbv zeta in Hs.
    remember (entered (rules lvl) rm (moved (now (clock w)) direction next s))
      as s7 eqn:Es7. clear Es7.
    assert (Hs7 : state_after (persist_or_finalize levels now user_email level_id
                                 s7 (ticked w)) = s7).
    { destruct (persist_or_finalize_cases levels now user_email level_id s7
                  (ticked w)) as [[_ ->] | [[_ [e ->]] | [_ (l & sc & _ & _ & ->)]]];
        reflexivity. }
    rewrite Hs7. destruct Hs as (H1 & H2 & H3 & H4 & H5 & H6 & H7 & H8).
    split; [lia|]. split; [set_solver|]. split; [exact H5|].
    split; [exact H6|]. split; [exact H7|]. split; [exact H3|].
    split; [exact H8|]. split; [intros _; set_solver|]. congruence.
Qed.


(** ** The save store through the controller *)

(** X19. An explicit pickup in a run that has not ended changes the
    message only and saves the run under the user, with the level id it
    was given (no level is looked up); the run can then be restored, the
    history and the saves of other users are untouched, and abandoning
    the run deletes the save and nothing else. *)
Theorem pickup_saves_run
    (now : nat -> datetime) (user_email level_id : string)
    (s : GameState) (w : World) :
  is_terminal (status s) = false ->
  let o := pickup now user_email level_id s w in
  raised o = None
  /\ state_after o = set_message (Some "Nothing to pick up.") s
  /\ (exists sv, restore_run user_email (world_after o) = Some sv
                 /\ save_user_email sv = user_email
                 /\ save_level_id sv = level_id
                 /\ save_state sv = state_after o)
  /\ has_active_run user_email (world_after o) = true
  /\ history (world_after o) = history w
  /\ (forall v, v <> user_email ->
                restore_run v (world_after o) = restore_run v w)
  /\ has_active_run user_email (abandon_run user_email (world_after o)) = false
  /\ history (abandon_run user_email (world_after o)) = history w
  /\ (forall v, v <> user_email ->
                restore_run v (abandon_run user_email (world_after o))
                = restore_run v w).
Proof.
  intros Hlive. cbv zeta. unfold pickup. rewrite Hlive.
  unfold has_active_run, restore_run, abandon_run, get_active, delete_active,
    autosave, upsert_active, tick. simpl.
  split; [reflexivity|]. split; [reflexivity|]. split.
  { eexists. split; [apply lookup_insert_eq|]. repeat split. }
  split; [now rewrite lookup_insert_eq|]. split; [reflexivity|]. split.
  { intros v Hv. now apply lookup_insert_ne. }
  split; [now rewrite lookup_delete_eq|]. split; [reflexivity|].
  intros v Hv. rewrite lookup_delete_ne by auto. now apply lookup_insert_ne.
Qed.

Lemma pickup_saves_run_witness :
  let o := pickup counting_clock "ann@example.com" "no_such_level" started_run
             empty_world in
  raised o = None
  /\ has_active_run "ann@example.com" (world_after o) = true
  /\ has_active_run "ann@example.com"
       (abandon_run "ann@example.com" (world_after o)) = false.
Proof.
  pose proof (pickup_saves_run counting_clock "ann@example.com" "no_such_level"
                started_run empty_world eq_refl) as H.
  cbv zeta in *. destruct H as (H1 & _ & _ & H4 & _ & _ & H7 & _).
  split; [exact H1|]. split; [exact H4|exact H7].
Defined.

(** X20. [restart_run] deletes the user's save before it looks the level
    up: when the start fails (an unknown id, or a definition where a
    [Level] is read) the exception is raised and the save is gone; when
    the start succeeds the outcome is that of [start_new_run], which
    overwrites the save anyway. *)
Theorem restart_run_deletes_first
    (levels : string -> option level_object) (now : nat -> datetime)
    (user_email level_id : string) (w : World) :
  match fst (start_new_run levels now user_email level_id w) with
  | Ok _ =>
      restart_run levels now user_email level_id w
      = start_new_run levels now user_email level_id w
  | Raise e =>
      restart_run levels now user_email level_id w
      = (Raise e, delete_active user_email w)
      /\ has_active_run user_email
           (snd (restart_run levels now user_email level_id w)) = false
  end.
Proof.
  unfold restart_run, start_new_run.
  destruct (level <- require_level levels level_id;; getattr level "start_room")
    as [lvl|e]; simpl.
  - unfold autosave, upsert_active, tick, delete_active. simpl.
    do 2 f_equal. apply insert_delete_eq.
  - split; [reflexivity|]. unfold has_active_run, get_active. simpl.
    now rewrite lookup_delete_eq.
Qed.

(** Once the run has ended, [move] and [pickup] raise nothing,
    replace the message by "Game already ended." and leave every other
    field of the state and both stores as they are, whatever the level
    source, the level id and the direction. *)
Lemma no_action_after_the_end
    (levels : string -> option level_object) (now : nat -> datetime)
    (user_email level_id direction : string) (s : GameState) (w : World) :
  can_act s = false ->
  let ended :=
    {| raised := None;
       state_after := set_message (Some "Game already ended.") s;
       world_after := w |} in
  move levels now user_email level_id s direction w = ended
  /\ pickup now user_email level_id s w = ended.
Proof.
  unfold can_act. intros Hend. apply negb_false_iff in Hend. cbv zeta.
  unfold move, pickup. now rewrite Hend.
Qed.


(** ** What the factory guarantees of a level (level_factory.py) *)

Lemma build_rooms_villains (rs : dict RoomDef) (built : dict Room) :
  build_rooms rs = Ok built ->
  length (List.filter (fun rm => is_Villain (item rm)) (dict_values built))
  = count_villain_items rs.
Proof.
  revert built. induction rs as [|[name data] rs IH]; intros built Hb; simpl in Hb.
  - now injection Hb as <-.
  - destruct (build_room name data) as [rm|e] eqn:Hrm; [|discriminate].
    simpl in Hb.
    destruct (build_rooms rs) as [rest|e]; [|discriminate]. simpl in Hb.
    injection Hb as <-. specialize (IH rest eq_refl). simpl.
    unfold build_room in Hrm. destruct (def_item data) as [d|]; simpl in Hrm.
    + unfold build_item in Hrm.
      destruct (String.eqb (item_type d) "relic") eqn:Hrelic; simpl in Hrm.
      * injection Hrm as <-. simpl.
        apply String.eqb_eq in Hrelic. rewrite Hrelic. simpl. exact IH.
      * destruct (String.eqb (item_type d) "villain") eqn:Hvil; simpl in Hrm;
          [|discriminate].
        injection Hrm as <-. simpl. now rewrite IH.
    + injection Hrm as <-. simpl. exact IH.
Qed.

Lemma build_rooms_names (rs : dict RoomDef) (built : dict Room) :
  build_rooms rs = Ok built ->
  forall r rm, dict_get r built = Some rm -> room_name rm = r.
Proof.
  revert built. induction rs as [|[name data] rs IH]; intros built Hb r rm Hget;
    simpl in Hb.
  - injection Hb as <-. discriminate.
  - destruct (build_room name data) as [rm0|e] eqn:Hrm; [|discriminate].
    simpl in Hb.
    destruct (build_rooms rs) as [rest|e]; [|discriminate]. simpl in Hb.
    injection Hb as <-. simpl in Hget.
    destruct (String.eqb r name) eqn:Heq.
    + injection Hget as <-. apply String.eqb_eq in Heq. subst r.
      unfold build_room in Hrm.
      destruct (def_item data) as [d|]; simpl in Hrm.
      * destruct (build_item d); [|discriminate]. simpl in Hrm.
        now injection Hrm as <-.
      * now injection Hrm as <-.
    + exact (IH rest eq_refl r rm Hget).
Qed.

Lemma Difficulty_of_value_Ok (v : string) (d : Difficulty) :
  Difficulty_of_value v = Ok d -> v = difficulty_value d.
Proof.
  unfold Difficulty_of_value.
  destruct (String.eqb v "easy") eqn:H1;
    [apply String.eqb_eq in H1; now intros [= <-]|].
  destruct (String.eqb v "medium") eqn:H2;
    [apply String.eqb_eq in H2; now intros [= <-]|].
  destruct (String.eqb v "hard") eqn:H3;
    [apply String.eqb_eq in H3; now intros [= <-]|].
  discriminate.
Qed.

(** X22. Every level the factory returns has its start room among the
    rooms of its map, every exit leading to a room of the map, a
    coordinate entry for every room, every room stored under its own
    name, exactly one item of class [Villain], an [optimal_moves] that
    is a number not below 0, and the id, name, start room and difficulty
    of its definition. *)
Theorem from_definition_level_invariants
    (fuel : nat) (defn : LevelDef) (lvl : Level) :
  from_definition fuel defn = Some (Ok lvl) ->
  dict_mem (start_room lvl) (rooms (map lvl)) = true
  /\ exits_closed (map lvl) = true
  /\ forallb (fun r => dict_mem r (coords (map lvl)))
             (dict_keys (rooms (map lvl))) = true
  /\ (forall r rm, dict_get r (rooms (map lvl)) = Some rm -> room_name rm = r)
  /\ length (List.filter (fun rm => is_Villain (item rm))
                         (dict_values (rooms (map lvl)))) = 1%nat
  /\ (exists n, optimal_moves lvl = Some n /\ 0 <= n)
  /\ def_id defn = Some (level_id lvl)
  /\ def_name defn = Some (level_name lvl)
  /\ def_start_room defn = Some (start_room lvl)
  /\ exists d, difficulty lvl = Member d
               /\ def_difficulty defn = Some (difficulty_value d).
Proof.
  intros Hbuilt. unfold from_definition in Hbuilt.
  destruct (build_graph defn) as [[[g req] start]|e] eqn:Hgraph; [|discriminate].
  destruct (build_graph_closed defn _ _ _ Hgraph) as [Hstart Hclosed].
  destruct (compute_optimal_moves fuel g start req) as [[n|e]|] eqn:Hrun;
    [|discriminate|discriminate].
  assert (Hn : 0 <= n).
  { unfold compute_optimal_moves in Hrun.
    destruct (bfs_loop_answers _ _ _ _ _ _ Hrun)
      as [(m & [= <-] & Hlo) | [H | (r & H & _)]]; [|discriminate|discriminate].
    apply Hlo. repeat constructor. simpl. lia. }
  unfold build_graph in Hgraph.
  pose proof (validate_level_definition_outcome defn) as Hval.
  destruct (validate_level_definition defn) as [[]|e]; [|discriminate].
  apply first_violation_None in Hval as (_ & _ & _ & Hcoords & Hvil).
  simpl in Hgraph.
  unfold rooms_have_coords in Hcoords. unfold exactly_one_villain in Hvil.
  destruct (def_rooms defn) as [rs|]; [|discriminate]. simpl in Hgraph.
  destruct (build_rooms rs) as [built|e] eqn:Hrooms; [|discriminate].
  simpl in Hgraph.
  destruct (def_coords defn) as [cs|]; [|discriminate]. simpl in Hgraph.
  destruct (def_rules defn) as [rl|]; [|discriminate]. simpl in Hgraph.
  destruct (def_required_items rl) as [reql|]; [|discriminate]. simpl in Hgraph.
  destruct (def_start_room defn) as [st|]; [|discriminate]. simpl in Hgraph.
  injection Hgraph as <- <- <-.
  destruct (def_difficulty defn) as [label|]; [|discriminate]. simpl in Hbuilt.
  destruct (Difficulty_of_value label) as [d|e] eqn:Hd; [|discriminate].
  simpl in Hbuilt.
  destruct (def_id defn) as [id|]; [|discriminate]. simpl in Hbuilt.
  destruct (def_name defn) as [name|]; [|discriminate]. simpl in Hbuilt.
  injection Hbuilt as <-. simpl in *.
  split; [exact Hstart|]. split; [exact Hclosed|].
  pose proof (build_rooms_keys rs built Hrooms) as Hkeys.
  split; [|split; [|split; [|split; [|split; [|split; [|split]]]]]].
  - rewrite Hkeys. rewrite forallb_forall in Hcoords. apply forallb_forall.
    intros r Hr. rewrite dict_mem_keys. now apply Hcoords.
  - now apply (build_rooms_names rs).
  - rewrite (build_rooms_villains rs built Hrooms). now apply Nat.eqb_eq.
  - eauto.
  - reflexivity.
  - reflexivity.
  - reflexivity.
  - exists d. split; [reflexivity|]. f_equal. now apply Difficulty_of_value_Ok.
Qed.

Lemma from_definition_level_invariants_witness :
  dict_mem (start_room scenario_level) (rooms (map scenario_level)) = true
  /\ exits_closed (map scenario_level) = true.
Proof.
  destruct (from_definition_level_invariants 8 scenario_def scenario_level
              from_definition_scenario) as (H1 & H2 & _).
  split; [exact H1|exact H2].
Defined.


(** ** Visibility (visibility.py) *)

Lemma move_keeps_visited
    (levels : string -> option level_object) (now : nat -> datetime)
    (u id d : string) (s : GameState) (w : World) :
  let s' := state_after (move levels now u id s d w) in
  visited_rooms s ⊆ visited_rooms s'
  /\ (location (player s) ∈ visited_rooms s ->
      location (player s') ∈ visited_rooms s').
Proof.
  cbv zeta.
  destruct (move_cases levels now u id d s w)
    as [[Ht ->] | [[Ht [e ->]] | [[Ht ->] | [[Ht (next & e & ->)]
         | [Ht (lvl & room & next & rm & _ & _ & _ & _ & ->)]]]]]; simpl.
  - split; [set_solver|auto].
  - split; [set_solver|auto].
  - split; [set_solver|auto].
  - split; [set_solver|]. intros _. set_solver.
  - pose proof (entered_moved (rules lvl) rm (now (clock w)) d next s) as Hs.
    cbv zeta in Hs.
    remember (entered (rules lvl) rm (moved (now (clock w)) d next s))
      as s7 eqn:Es7. clear Es7.
    assert (Hs7 : state_after (persist_or_finalize levels now u id s7 (ticked w))
                  = s7).
    { destruct (persist_or_finalize_cases levels now u id s7 (ticked w))
        as [[_ ->] | [[_ [e ->]] | [_ (l & sc & _ & _ & ->)]]]; reflexivity. }
    rewrite Hs7. destruct Hs as (_ & H2 & _ & H4 & _).
    split; [set_solver|]. intros _. set_solver.
Qed.

(** X23. Under each of the three visibility policies the room the player
    is in can be rendered, and a move never hides a room again: a room
    that could be rendered before the call can be rendered after it,
    whatever the outcome, provided the player's room was among the
    visited ones (as it is from the start of a run). *)
Theorem fog_of_war_never_hides
    (levels : string -> option level_object) (now : nat -> datetime)
    (user_email level_id direction : string) (s : GameState) (w : World)
    (k : VisibilityPolicy) (lvl : Level) (r : string) :
  can_render_room (project k lvl s) (location (player s)) = true
  /\ (location (player s) ∈ visited_rooms s ->
      can_render_room (project k lvl s) r = true ->
      can_render_room
        (project k lvl
           (state_after (move levels now user_email level_id s direction w)))
        r = true).
Proof.
  split.
  - destruct k; unfold can_render_room; simpl; [reflexivity|reflexivity|].
    apply bool_decide_eq_true. set_solver.
  - intros Hloc.
    destruct (move_keeps_visited levels now user_email level_id direction s w)
      as [Hsub Hin]. specialize (Hin Hloc).
    destruct k; unfold can_render_room; simpl; [reflexivity|reflexivity|].
    rewrite !bool_decide_eq_true. set_solver.
Qed.

(** X24. A level built by the factory holds the method
    [difficulty.visibility_policy] in [visibility], which was never
    called: [Level.ui_projection] raises [AttributeError] for every such
    level and every state. *)
Theorem ui_projection_on_factory_level
    (fuel : nat) (defn : LevelDef) (lvl : Level) (s : GameState) :
  from_definition fuel defn = Some (Ok lvl) ->
  ui_projection lvl s
  = Raise (AttributeError "'function' object has no attribute 'project'").
Proof.
  intros Hbuilt.
  destruct (from_definition_scoring fuel defn lvl Hbuilt) as (d & _ & Hv & _).
  unfold ui_projection. now rewrite Hv.
Qed.

Lemma ui_projection_on_factory_level_witness :
  ui_projection scenario_level fresh_run
  = Raise (AttributeError "'function' object has no attribute 'project'").
Proof.
  exact (ui_projection_on_factory_level 8 scenario_def scenario_level fresh_run
           from_definition_scenario).
Defined.

(** ** A move on a level built by the factory *)

Lemma dict_mem_get {V} (k : string) (d : dict V) :
  dict_mem k d = true -> exists v, dict_get k d = Some v.
Proof. unfold dict_mem. destruct (dict_get k d); [eauto|discriminate]. Qed.

Lemma entered_terminal (rules : StandardRules) (rm : Room) (s : GameState) :
  is_terminal (status s) = false ->
  is_terminal (status (entered rules rm s)) = is_Villain (item rm).
Proof.
  intros Hlive. unfold entered, check.
  destruct (item rm) as [[n|n|n]|]; simpl; try exact Hlive.
  destruct (bool_decide _); reflexivity.
Qed.

(** X25. When the level source answers a level the factory built (a
    [Level], as the controller reads it, where the repositories of
    level_repo.py answer the definition), a move of a run in progress
    from a room of the map raises no [KeyError]:
    either the run goes on, in a room of the map, and is saved as it now
    is, or the move entered the room of the villain item and the
    finalization raises [AttributeError] at [level.scoring.calculate].
    No result is ever appended to the history. *)
Theorem move_on_factory_level
    (levels : string -> option level_object) (now : nat -> datetime)
    (fuel : nat) (defn : LevelDef) (lvl : Level)
    (user_email level_id direction : string) (s : GameState) (w : World) :
  from_definition fuel defn = Some (Ok lvl) ->
  levels level_id = Some (LevelInstance lvl) ->
  is_terminal (status s) = false ->
  dict_mem (location (player s)) (rooms (map lvl)) = true ->
  let o := move levels now user_email level_id s direction w in
  history (world_after o) = history w
  /\ dict_mem (location (player (state_after o))) (rooms (map lvl)) = true
  /\ ((raised o = None
       /\ is_terminal (status (state_after o)) = false
       /\ exists sv, get_active user_email (world_after o) = Some sv
                     /\ save_state sv = state_after o)
      \/ (raised o
          = Some (AttributeError "'function' object has no attribute 'calculate'")
          /\ is_terminal (status (state_after o)) = true
          /\ is_Villain (room_item (map lvl) (location (player (state_after o))))
             = true)).
Proof.
  intros Hbuilt Hlvl Hlive Hloc. cbv zeta.
  destruct (from_definition_scoring fuel defn lvl Hbuilt) as (d & Hsc & _ & _).
  destruct (from_definition_search fuel defn lvl Hbuilt) as (n & _ & Hgraph & _).
  destruct (build_graph_closed defn _ _ _ Hgraph) as [_ Hclosed].
  destruct (dict_mem_get _ _ Hloc) as [room Hroom].
  unfold move, require_level, dict_item. rewrite Hlive, Hlvl. simpl.
  rewrite Hroom.
  destruct (dict_get direction (exits room)) as [next|] eqn:Hexit.
  - assert (Hnext : dict_mem next (rooms (map lvl)) = true).
    { apply (exits_closed_step (map lvl) (location (player s)) room next Hclosed Hroom).
      now apply (dict_get_Some_value direction). }
    destruct (dict_mem_get _ _ Hnext) as [rm Hrm]. simpl. rewrite Hrm.
    fold (moved (now (clock w)) direction next s).
    fold (entered (rules lvl) rm (moved (now (clock w)) direction next s)).
    destruct (entered_moved (rules lvl) rm (now (clock w)) direction next s)
      as (_ & Hl & _).
    pose proof (entered_terminal (rules lvl) rm
                  (moved (now (clock w)) direction next s) Hlive) as Hterm.
    remember (entered (rules lvl) rm (moved (now (clock w)) direction next s))
      as s7 eqn:Es7. clear Es7.
    unfold persist_or_finalize, require_level. rewrite Hlvl. simpl.
    destruct (is_terminal (status s7)) eqn:Ht; simpl.
    + rewrite (scoring_calculate_bound_method lvl s7 d scoring_policy Hsc). simpl.
      split; [reflexivity|]. split; [now rewrite Hl|]. right.
      split; [reflexivity|]. split; [exact Ht|].
      rewrite Hl. unfold room_item. rewrite Hrm. now symmetry.
    + split; [reflexivity|]. split; [now rewrite Hl|]. left.
      split; [reflexivity|]. split; [exact Ht|].
      unfold get_active. simpl. eexists. split; [apply lookup_insert_eq|].
      reflexivity.
  - simpl. split; [reflexivity|]. split; [exact Hloc|]. left.
    split; [reflexivity|]. split; [exact Hlive|].
    unfold get_active. simpl. eexists. split; [apply lookup_insert_eq|].
    reflexivity.
Qed.

Lemma move_on_factory_level_witness :
  let o := move (one_level scenario_level) counting_clock
             "ann@example.com" "scenario" fresh_run "East" fresh_world in
  history (world_after o) = history fresh_world
  /\ raised o
     = Some (AttributeError "'function' object has no attribute 'calculate'").
Proof.
  pose proof (move_on_factory_level (one_level scenario_level) counting_clock
                8 scenario_def scenario_level "ann@example.com" "scenario" "East"
                fresh_run fresh_world from_definition_scenario eq_refl eq_refl
                eq_refl) as H.
  cbv zeta in *. destruct H as (H1 & _ & H3). split; [exact H1|].
  destruct H3 as [(H & _) | (H & _)]; [|exact H].
  vm_compute in H. discriminate.
Defined.


(** ** The game the application runs *)

Lemma ITEMS_stones (i : string) : i ∈ GameOld.ITEMS <-> In i stones.
Proof.
  unfold GameOld.ITEMS. rewrite elem_of_list_to_set, list_elem_of_In.
  reflexivity.
Qed.

Lemma size_ITEMS : size GameOld.ITEMS = 6%nat.
Proof. vm_compute. reflexivity. Qed.

Lemma stones_NoDup : List.NoDup stones.
Proof.
  unfold stones.
  repeat (constructor; [simpl; intros H; repeat destruct H as [H|H]; try discriminate H; exact H|]).
  constructor.
Qed.

Lemma in_list_In (x : string) (l : list string) :
  GameOld.in_list x l = true <-> In x l.
Proof.
  unfold GameOld.in_list. rewrite existsb_exists. split.
  - intros [y [Hy He]]. apply String.eqb_eq in He. subst y. exact Hy.
  - intros H. exists x. split; [exact H|apply String.eqb_refl].
Qed.

Lemma in_list_not_In (x : string) (l : list string) :
  GameOld.in_list x l = false <-> ~ In x l.
Proof.
  rewrite <- in_list_In. destruct (GameOld.in_list x l); split; intros H;
    try reflexivity; try discriminate; try (intros H'; discriminate H').
  exfalso. apply H. reflexivity.
Qed.

Lemma log_length (entry : string) (l : list string) :
  (length (GameOld.log entry l) <= 20)%nat.
Proof.
  unfold GameOld.log. rewrite length_app, length_skipn. simpl. lia.
Qed.

(** With no stone twice and only stones, six entries are all six stones. *)
Lemma six_stones (inv : list string) :
  List.NoDup inv -> (forall i, In i inv -> In i stones) ->
  (6 <= length inv)%nat -> forall i, In i stones -> In i inv.
Proof.
  intros Hn Hs Hl.
  apply (NoDup_length_incl Hn); [exact Hl|exact Hs].
Qed.

Lemma missing_stone (inv : list string) :
  (length inv < 6)%nat -> exists i, In i stones /\ ~ In i inv.
Proof.
  intros Hl.
  destruct (existsb (fun i => negb (GameOld.in_list i inv)) stones) eqn:He.
  - apply existsb_exists in He. destruct He as [i [Hi Hn]].
    exists i. split; [exact Hi|].
    apply in_list_not_In. destruct (GameOld.in_list i inv); [discriminate|reflexivity].
  - exfalso.
    assert (Hall : forall i, In i stones -> In i inv).
    { intros i Hi. apply in_list_In.
      destruct (GameOld.in_list i inv) eqn:E; [reflexivity|].
      assert (existsb (fun i => negb (GameOld.in_list i inv)) stones = true) as Ht.
      { apply existsb_exists. exists i. rewrite E. split; [exact Hi|reflexivity]. }
      congruence. }
    pose proof (NoDup_incl_length stones_NoDup Hall) as Hle.
    simpl in Hle. lia.
Qed.

Lemma from_dict_asdict (s : GameOld.GameState) :
  GameOld.from_dict (GameOld.asdict s) = s.
Proof. destruct s. reflexivity. Qed.

Lemma reachable_shape_start :
  reachable_shape (GameOld.from_dict GameOld.game_session).
Proof.
  unfold reachable_shape. simpl. repeat split.
  - constructor.
  - intros i [].
  - lia.
  - left. split; [reflexivity|]. right. left. reflexivity.
Qed.

Lemma reachable_shape_new_game : reachable_shape GameOld.new_game.
Proof.
  unfold reachable_shape. simpl. repeat split.
  - constructor.
  - intros i [].
  - lia.
  - left. split; [reflexivity|]. right. left. reflexivity.
Qed.

Lemma in_directions (direction : string) :
  GameOld.in_list direction GameOld.DIRECTIONS = true ->
  direction = "North" \/ direction = "South" \/ direction = "East"
  \/ direction = "West".
Proof.
  intros H. apply in_list_In in H. simpl in H.
  destruct H as [H|[H|[H|[H|[]]]]]; subst; auto.
Qed.

Lemma did_win_length (s : GameOld.GameState) :
  GameOld.did_win s = true <-> (6 <= length (GameOld.inventory s))%nat.
Proof.
  unfold GameOld.did_win. rewrite size_ITEMS.
  rewrite Z.geb_le. lia.
Qed.

Lemma reachable_shape_move (s : GameOld.GameState) (direction : string) :
  reachable_shape s -> reachable_shape (GameOld.move s direction).
Proof.
  intros (Hn & Hs & Hl & Ho).
  unfold GameOld.move.
  destruct (negb (GameOld.status s =? "playing")%string) eqn:Ep.
  { unfold reachable_shape; simpl. auto. }
  destruct (negb (GameOld.in_list direction GameOld.DIRECTIONS)) eqn:Ed.
  { unfold reachable_shape; simpl. auto. }
  apply Bool.negb_false_iff in Ep, Ed. apply String.eqb_eq in Ep.
  apply in_directions in Ed.
  destruct Ho as [[_ Hr]|[[Hc _]|[Hc _]]]; try congruence.
  assert (Hlog : forall e, (length (GameOld.log e (GameOld.event_log s)) <= 20)%nat)
    by (intros e; apply log_length).
  simpl in Hr.
  destruct Hr as [Hr|[Hr|[Hr|[Hr|[Hr|[Hr|[Hr|[]]]]]]]]; rewrite <- Hr;
    destruct Ed as [Ed|[Ed|[Ed|Ed]]]; subst direction;
    cbn [GameOld.get_room GameOld.ROOMS dict_get get_or find String.eqb
         Ascii.eqb Bool.eqb fst snd option_map];
    try (unfold reachable_shape; cbn [GameOld.inventory GameOld.status
           GameOld.current_room GameOld.event_log];
         repeat split; auto; left; split; [exact Ep|simpl; tauto]).
all: match goal with
       | |- context [(GameOld.room_item ?r =? ?v)%string] =>
           let b := eval vm_compute in (GameOld.room_item r =? v)%string in
           change (GameOld.room_item r =? v)%string with b
       end; cbv iota.
  all: try (unfold reachable_shape;
            cbn [GameOld.inventory GameOld.status GameOld.current_room
                 GameOld.event_log];
            repeat split; auto; left; split; [exact Ep|simpl; tauto]).
  destruct (GameOld.did_win _) eqn:Ew.
  - apply did_win_length in Ew. simpl in Ew.
    unfold reachable_shape; cbn [GameOld.inventory GameOld.status
      GameOld.current_room GameOld.event_log].
    repeat split; auto using log_length.
    right. left. repeat split. apply six_stones; assumption.
  - assert (Hlt : (length (GameOld.inventory s) < 6)%nat).
    { destruct (le_lt_dec 6 (length (GameOld.inventory s))) as [Hge|Hlt];
        [|exact Hlt].
      exfalso. rewrite (proj2 (did_win_length _)) in Ew;
        [discriminate Ew|exact Hge]. }
    unfold reachable_shape; cbn [GameOld.inventory GameOld.status
      GameOld.current_room GameOld.event_log].
    repeat split; auto using log_length.
    right. right. repeat split. apply missing_stone. exact Hlt.
Qed.

Lemma NoDup_append (x : string) (l : list string) :
  List.NoDup l -> ~ In x l -> List.NoDup (l ++ [x]).
Proof.
  intros Hn Hx. induction Hn as [|y l Hy Hn IH]; simpl.
  - constructor; [intros []|constructor].
  - constructor.
    + rewrite in_app_iff. simpl. intros [H|[H|[]]]; [exact (Hy H)|].
      apply Hx. left. symmetry. exact H.
    + apply IH. intros H. apply Hx. right. exact H.
Qed.

Lemma reachable_shape_pickup (s : GameOld.GameState) :
  reachable_shape s -> reachable_shape (GameOld.pickup s).
Proof.
  intros (Hn & Hs & Hl & Ho).
  unfold GameOld.pickup, GameOld.can_pickup.
  destruct (negb (GameOld.status s =? "playing")%string) eqn:Ep.
  { unfold reachable_shape; simpl. auto. }
  apply Bool.negb_false_iff in Ep. apply String.eqb_eq in Ep.
  destruct Ho as [[_ Hr]|[[Hc _]|[Hc _]]]; try congruence.
  assert (Hsame : reachable_shape
            {| GameOld.current_room := GameOld.current_room s;
               GameOld.inventory := GameOld.inventory s;
               GameOld.status := GameOld.status s;
               GameOld.message := "Nothing to pick up.";
               GameOld.event_log := GameOld.event_log s |}).
  { unfold reachable_shape; simpl. repeat split; auto. }
  simpl in Hr.
  destruct Hr as [Hr|[Hr|[Hr|[Hr|[Hr|[Hr|[Hr|[]]]]]]]]; rewrite <- Hr in *;
    match goal with
    | |- context [GameOld.room_item ?r] =>
        let v := eval vm_compute in (GameOld.room_item r) in
        change (GameOld.room_item r) with v
    end;
    cbn [String.eqb Ascii.eqb Bool.eqb orb GameOld.VILLAIN_ROOM_ITEM];
    try exact Hsame;
    match goal with
    | |- context [GameOld.in_list ?i ?l] =>
        destruct (GameOld.in_list i l) eqn:Ei; [exact Hsame|]
    end;
    apply in_list_not_In in Ei;
    unfold reachable_shape;
    cbn [GameOld.inventory GameOld.status GameOld.current_room
         GameOld.event_log];
    (split; [apply NoDup_append; [exact Hn|exact Ei]
            |split; [intros i Hi; apply in_app_iff in Hi;
                     destruct Hi as [Hi|[<-|[]]]; [exact (Hs i Hi)|simpl; tauto]
                    |split; [apply log_length
                            |left; split; [exact Ep|simpl; tauto]]]]).
Qed.

Lemma reachable_shape_click (s : GameOld.GameState) (a : GameOld.action) :
  reachable_shape s -> reachable_shape (GameOld.click s a).
Proof.
  destruct a; simpl;
    [apply reachable_shape_move|apply reachable_shape_pickup].
Qed.

Lemma reachable_shape_play (clicks : list GameOld.action) :
  reachable_shape (GameOld.from_dict (GameOld.play clicks)).
Proof.
  unfold GameOld.play.
  induction clicks as [|a clicks IH] using rev_ind.
  - exact reachable_shape_start.
  - rewrite fold_left_app. simpl. unfold GameOld.store_click at 1.
    rewrite from_dict_asdict. apply reachable_shape_click. exact IH.
Qed.

(** X26. However the player clicks in the game the application runs
    (callbacks/game.py, controllers/game_old.py), the run shown after the
    clicks is in one of three states: still being played, outside the
    villain's room; won, in the villain's room
    with every stone of [ITEMS] in the inventory; or lost, in the villain's
    room with a stone of [ITEMS] missing.  [did_win] only counts the
    inventory: the count decides rightly because no click adds a stone
    twice or anything but a stone. *)
Theorem play_ends_as_the_stones_say (clicks : list GameOld.action) :
  let s := GameOld.from_dict (GameOld.play clicks) in
  (GameOld.status s = "playing"
   /\ GameOld.current_room s <> "Avengers Compound")
  \/ (GameOld.status s = "completed"
      /\ GameOld.current_room s = "Avengers Compound"
      /\ forall i, i ∈ GameOld.ITEMS -> In i (GameOld.inventory s))
  \/ (GameOld.status s = "game_over"
      /\ GameOld.current_room s = "Avengers Compound"
      /\ exists i, i ∈ GameOld.ITEMS /\ ~ In i (GameOld.inventory s)).
Proof.
  intros s. destruct (reachable_shape_play clicks) as (_ & _ & _ & Ho).
  fold s in Ho.
  destruct Ho as [[Hp Hr]|[(Hc & Hr & Hall)|(Hg & Hr & i & Hi & Hn)]].
  - left. split; [exact Hp|]. intros Hc. rewrite Hc in Hr. simpl in Hr.
    repeat destruct Hr as [Hr|Hr]; try discriminate Hr. exact Hr.
  - right. left. repeat split; try assumption.
    intros i Hi. apply Hall, ITEMS_stones, Hi.
  - right. right. repeat split; try assumption.
    exists i. split; [apply ITEMS_stones, Hi|exact Hn].
Qed.

(** X27. After any clicks ([pickup] and [move] of
    controllers/game_old.py) the inventory holds no stone twice and only
    stones of [ITEMS], so at most six, and the event log holds at most
    twenty entries. *)
Theorem play_inventory_and_log (clicks : list GameOld.action) :
  let s := GameOld.from_dict (GameOld.play clicks) in
  List.NoDup (GameOld.inventory s)
  /\ (forall i, In i (GameOld.inventory s) -> i ∈ GameOld.ITEMS)
  /\ (length (GameOld.inventory s) <= size GameOld.ITEMS)%nat
  /\ (length (GameOld.event_log s) <= 20)%nat.
Proof.
  intros s. destruct (reachable_shape_play clicks) as (Hn & Hs & Hl & _).
  fold s in Hn, Hs, Hl. repeat split; try assumption.
  - intros i Hi. apply ITEMS_stones, Hs, Hi.
  - rewrite size_ITEMS.
    change 6%nat with (length stones).
    apply NoDup_incl_length; [exact Hn|exact Hs].
Qed.

(** X28. After any clicks the page renders ([render_game] of
    callbacks/game.py): the lookup [ROOMS[state.current_room]] raises no
    [KeyError], the exits shown
    are the controller's, and the pickup button is enabled exactly when the
    controller has something to pick up, although the page does not look at
    the status of the run. *)
Theorem render_game_after_play (clicks : list GameOld.action) :
  let s := GameOld.from_dict (GameOld.play clicks) in
  GameOld.render_game (GameOld.play clicks)
  = Ok (GameOld.get_exits (GameOld.current_room s),
        match GameOld.can_pickup s with
        | Some _ => false
        | None => true
        end).
Proof.
  intros s. pose proof (reachable_shape_play clicks) as H.
  unfold GameOld.render_game, GameOld.can_pickup, GameOld.get_exits.
  cbv zeta. change (GameOld.from_dict (GameOld.play clicks)) with s in H |- *.
  clearbody s. destruct s as [room inv st msg events].
  destruct H as (_ & _ & _ & Ho).
  cbn [GameOld.current_room GameOld.inventory GameOld.status] in *.
  destruct Ho as [[Hp Hr]|[(Hc & Hr & _)|(Hc & Hr & _)]].
  - rewrite Hp. simpl in Hr.
    destruct Hr as [Hr|[Hr|[Hr|[Hr|[Hr|[Hr|[Hr|[]]]]]]]]; rewrite <- Hr;
      try reflexivity;
      cbn -[GameOld.in_list];
      match goal with
      | |- context [GameOld.in_list ?i ?l] =>
          destruct (GameOld.in_list i l); reflexivity
      end.
  - rewrite Hc, Hr. reflexivity.
  - rewrite Hc, Hr. reflexivity.
Qed.
